(** * The Graphite / Dawn bridge of skia-bindings

    A shallow embedding of [skia-bindings/src/graphite.cpp] and
    [skia-bindings/src/dawn.cpp]: the flat C entry points through which a
    caller that knows nothing of C++ object lifetimes creates, hands over and
    destroys GPU contexts, recorders and recordings.

    Every entry point is a computation in a small state-and-error monad over
    a [World]: the memory the bridge touches, the platform reference counts
    behind [CFRetain]/[CFRelease], the file-level static of dawn.cpp and a log
    of the calls made into Skia.  A computation returns, hits undefined
    behaviour, or lets a C++ exception escape.  Skia itself is not part of
    the bridge; what it decides on its own (whether a backend initialises,
    whether a submit succeeds, what a texture factory produces), and whether
    [operator new] finds memory, is a [Backend] instance the whole
    development is parametric in. *)

From Stdlib Require Import ZArith NArith.
From stdpp Require Import base option list gmap sets.

Set Default Proof Using "Type".
Open Scope N_scope.

(** ** Pointers and platform handles *)

(** A raw pointer; [nullptr] is address zero. *)
Abbreviation addr := N (only parsing).
Definition nullptr : addr := 0.

(** A platform object behind a [CFTypeRef] or a [VkImage]; zero is NULL. *)
Abbreviation handle := N (only parsing).

(** ** Value types of the data model *)

Inductive BackendApi := kDawn | kMetal | kVulkan | kMock | kUnsupported.
Inductive Mipmapped := Mipmapped_kNo | Mipmapped_kYes.
Inductive SyncToCpu := SyncToCpu_kYes | SyncToCpu_kNo.

Record SkISize := { fWidth : Z; fHeight : Z }.

(** Modelled from the spec: [skgpu::graphite::TextureInfo] is declared in
    Skia's headers, not in the bridge.  Data model: backend kind, sample
    count, mip state, backend-specific flags, and whether a backend factory
    has populated it. *)
Record TextureInfo := {
  ti_backend : BackendApi;
  ti_valid : bool;
  ti_sampleCount : N;
  ti_mipmapped : Mipmapped;
  ti_flags : N
}.

(** Modelled from the spec: [skgpu::graphite::BackendTexture], "dimensions,
    TextureInfo, native handle, validity flag"; its validity is that of the
    TextureInfo it carries.  The native handle "may be retained via platform
    reference counting", which [bt_retained] records. *)
Record BackendTexture := {
  bt_dimensions : SkISize;
  bt_info : TextureInfo;
  bt_handle : handle;
  bt_retained : bool
}.

(** Configuration values; their tunables are opaque to the bridge. *)
Record ContextOptions := { co_tunables : N }.
Record RecorderOptions := { ro_tunables : N }.
Record GrContextOptions := { gr_tunables : N }.

(** Modelled from the spec: [skgpu::graphite::MtlBackendContext], declared
    in Skia's headers, "native device ref, native queue ref".  The two
    members the bridge names are [sk_cfp<CFTypeRef>], in this order; an empty
    [sk_cfp] holds NULL. *)
Record MtlBackendContext := { fDevice : handle; fQueue : handle }.

Record VulkanBackendContext := { vk_instance : handle }.
Record VulkanAlloc := { va_memory : handle }.
Record VulkanYcbcrConversionInfo := { ycbcr_format : N }.

Record VulkanTextureInfo := {
  vti_sampleCount : N;
  vti_mipmapped : Mipmapped;
  vti_flags : N;
  vti_format : N;
  vti_imageTiling : N;
  vti_imageUsageFlags : N;
  vti_sharingMode : N;
  vti_aspectMask : N;
  vti_ycbcrConversionInfo : VulkanYcbcrConversionInfo
}.

Record SkImageInfo := { ii_dimensions : SkISize; ii_colorType : N }.
Record SkSurfaceProps := { sp_flags : N }.

(** A recorded GPU command; produced by the rendering API, opaque here. *)
Abbreviation Command := N (only parsing).

(** ** Heap objects *)

(** Modelled from the spec: Context, Recorder, Recording and the surface are
    Skia classes; the fields are those of the data model the bridge's
    contract speaks of. *)
Record Recording := {
  rcg_commands : list Command;
  rcg_owner : option addr      (* Some ctx once handed to a Context *)
}.

Record Context := {
  ctx_backend : BackendApi;
  ctx_queue : list (Recording * bool)
    (* the Recordings it took since the last submit, each with the flag its
       insertion answered *)
}.

Record Recorder := {
  rec_context : addr;                       (* the Context it is bound to *)
  rec_options : option RecorderOptions;     (* None: backend defaults *)
  rec_commands : list Command               (* recorded since the last snap *)
}.

Record Surface := {
  sf_recorder : addr;
  sf_wrapped : option handle   (* the caller's texture, when wrapping one *)
}.

(** What an address holds.  [Raw] is caller-provided storage in which no
    object lives; the [V] cells are value descriptors constructed in place;
    the [H] cells are objects obtained from [new].  An [SkColorSpace] is an
    [SkRefCnt] object: it carries the number of references held on it, which
    is at least one while it lives. *)
Inductive Cell :=
| Raw
| VTextureInfo (ti : TextureInfo)
| VBackendTexture (bt : BackendTexture)
| VContextOptions (co : ContextOptions)
| VRecorderOptions (ro : RecorderOptions)
| VMtlBackendContext (bc : MtlBackendContext)
| HContext (c : Context)
| HRecorder (r : Recorder)
| HRecording (r : Recording)
| HVulkanTextureInfo (v : VulkanTextureInfo)
| HSurface (s : Surface)
| HGrDirectContext
| HWgpuDevice
| HColorSpace (refcnt : positive).

(** ** Calls the bridge makes into the platform and into Skia *)

Inductive Event :=
| EvCFRetain (h : handle)
| EvCFRelease (h : handle)
| EvMakeMetal (ok : bool)
| EvMakeVulkan (ok : bool)
| EvMakeDawn (dev : addr) (options : option GrContextOptions) (ok : bool)
| EvMakeRecorder (ctx : addr) (options : option RecorderOptions) (ok : bool)
| EvSnap (rec : addr) (ok : bool)
| EvInsertRecording (ctx rec : addr) (ok : bool)
| EvSubmit (ctx : addr) (sync : SyncToCpu) (ok : bool)
| EvMakeTexture (api : BackendApi) (valid : bool).

(** ** The world *)

Record World := {
  mem : gmap addr Cell;
  refs : gmap handle nat;      (* platform reference counts of live objects *)
  device : addr;               (* dawn.cpp: static wgpu::Device *device *)
  log : list Event
}.

(** dawn.cpp line 9: the static starts out as nullptr. *)
Definition initial : World :=
  {| mem := ∅; refs := ∅; device := nullptr; log := [] |}.

Definition with_mem (f : gmap addr Cell → gmap addr Cell) (w : World) : World :=
  {| mem := f (mem w); refs := refs w; device := device w; log := log w |}.
Definition with_refs (f : gmap handle nat → gmap handle nat) (w : World) : World :=
  {| mem := mem w; refs := f (refs w); device := device w; log := log w |}.
Definition with_device (d : addr) (w : World) : World :=
  {| mem := mem w; refs := refs w; device := d; log := log w |}.
Definition with_log (e : Event) (w : World) : World :=
  {| mem := mem w; refs := refs w; device := device w; log := log w ++ [e] |}.

(** ** The monad: a state transformer that may hit undefined behaviour *)

(** The C++ exceptions the bridge's own code can raise. *)
Inductive Exception := bad_alloc.

(** How a call ends: it returns, it is undefined, or an exception leaves
    it.  No function of the bridge has a handler, so an exception raised
    inside an entry point leaves the entry point. *)
Inductive Outcome (A : Type) :=
| Ok (a : A) (w : World)
| UB
| Throw (e : Exception).
Arguments Ok {A} a w.
Arguments UB {A}.
Arguments Throw {A} e.

Definition M (A : Type) : Type := World → Outcome A.

#[global] Instance M_ret : MRet M := λ A a w, Ok a w.
#[global] Instance M_bind : MBind M := λ A B f m w,
  match m w with
  | Ok a w' => f a w'
  | UB => UB
  | Throw e => Throw e
  end.

Definition undefined {A} : M A := λ _, UB.
Definition get_world : M World := λ w, Ok w w.
Definition modify (f : World → World) : M unit := λ w, Ok () (f w).
Definition emit (e : Event) : M unit := modify (with_log e).

(** The world an outcome ends in, and the value it returns, if the call
    returns. *)
Definition world_of {A} (o : Outcome A) : option World :=
  match o with Ok _ w => Some w | _ => None end.
Definition value_of {A} (o : Outcome A) : option A :=
  match o with Ok a _ => Some a | _ => None end.

(** A computation out of which no exception comes, whatever the world. *)
Definition no_throw {A} (m : M A) : Prop := ∀ w e, m w ≠ Throw e.

(** ** Memory primitives *)

(** Reading through a pointer: null and dangling pointers are undefined. *)
Definition load (p : addr) : M Cell := λ w,
  if decide (p = nullptr) then UB else
  match mem w !! p with
  | Some c => Ok c w
  | None => UB
  end.

Definition store (p : addr) (c : Cell) : M unit :=
  modify (with_mem (<[p := c]>)).

(** [new (p) T(...)]: constructs in caller-provided storage that holds no
    object yet; constructing over a live object is outside the contract of
    the bridge and undefined here. *)
Definition placement_new (p : addr) (c : Cell) : M unit :=
  old ← load p;
  match old with
  | Raw => store p c
  | _ => undefined
  end.

(** The address [operator new] hands out: never null, never in use. *)
Definition fresh_for (m : gmap addr Cell) : addr := fresh ({[nullptr]} ∪ dom m).
Definition fresh_addr (w : World) : addr := fresh_for (mem w).

(** An object comes to live at an address that was not in use. *)
Definition new_ (c : Cell) : M addr := λ w,
  let p := fresh_addr w in Ok p (with_mem (<[p := c]>) w).

(** [unique_ptr<T>::release()] / [sk_sp<T>::release()] of a factory result:
    the object moves to the heap cell the raw pointer names; an empty smart
    pointer gives nullptr. *)
Definition release (o : option Cell) : M addr :=
  match o with
  | Some c => new_ c
  | None => mret nullptr
  end.

Definition free (p : addr) : M unit := modify (with_mem (delete p)).

(** Dereferencing a [const T*] argument whose storage the bridge never
    constructs itself: [None] is the null pointer. *)
Definition deref {A} (p : option A) : M A :=
  match p with
  | Some a => mret a
  | None => undefined
  end.

(** Typed loads. *)
Definition load_TextureInfo (p : addr) : M TextureInfo :=
  c ← load p; match c with VTextureInfo x => mret x | _ => undefined end.
Definition load_BackendTexture (p : addr) : M BackendTexture :=
  c ← load p; match c with VBackendTexture x => mret x | _ => undefined end.
Definition load_ContextOptions (p : addr) : M ContextOptions :=
  c ← load p; match c with VContextOptions x => mret x | _ => undefined end.
Definition load_RecorderOptions (p : addr) : M RecorderOptions :=
  c ← load p; match c with VRecorderOptions x => mret x | _ => undefined end.
Definition load_MtlBackendContext (p : addr) : M MtlBackendContext :=
  c ← load p; match c with VMtlBackendContext x => mret x | _ => undefined end.
Definition load_Context (p : addr) : M Context :=
  c ← load p; match c with HContext x => mret x | _ => undefined end.
Definition load_Recorder (p : addr) : M Recorder :=
  c ← load p; match c with HRecorder x => mret x | _ => undefined end.
Definition load_Recording (p : addr) : M Recording :=
  c ← load p; match c with HRecording x => mret x | _ => undefined end.
Definition load_VulkanTextureInfo (p : addr) : M VulkanTextureInfo :=
  c ← load p; match c with HVulkanTextureInfo x => mret x | _ => undefined end.
Definition load_WgpuDevice (p : addr) : M unit :=
  c ← load p; match c with HWgpuDevice => mret () | _ => undefined end.
Definition load_ColorSpace (p : addr) : M positive :=
  c ← load p; match c with HColorSpace n => mret n | _ => undefined end.

(** ** Platform reference counting *)

(** Modelled from the spec: [CFRetain(cf)], CoreFoundation's "retains the
    native handle (incrementing a platform reference count)".  cf must be a
    live object; a count of zero stands for an object that has been
    deallocated. *)
Definition CFRetain (h : handle) : M handle := λ w,
  if decide (h = 0) then UB else
  match refs w !! h with
  | Some (S n) => Ok h (with_log (EvCFRetain h) (with_refs (<[h := S (S n)]>) w))
  | _ => UB
  end.

(** Modelled from the spec: [CFRelease(cf)], the matching release.  The
    count goes down by one; giving back the last reference deallocates the
    object, and "releasing twice is a corruption". *)
Definition CFRelease (h : handle) : M unit := λ w,
  if decide (h = 0) then UB else
  match refs w !! h with
  | Some (S n) => Ok () (with_log (EvCFRelease h) (with_refs (<[h := n]>) w))
  | _ => UB
  end.

(** Modelled from the spec: Skia's [SkCFSafeRelease], what [~sk_cfp] and
    the tail of [sk_cfp::reset] do: release unless the handle is NULL. *)
Definition SkCFSafeRelease (h : handle) : M unit :=
  if decide (h = 0) then mret () else CFRelease h.

(** The number of platform references the world holds on [h]. *)
Definition refcount (w : World) (h : handle) : nat := default O (refs w !! h).

(** ** Skia reference counting *)

(** Modelled from the spec: [SkRefCnt::ref] and [SkRefCnt::unref], Skia's
    "ref-counted semantics" (include/core/SkRefCnt.h, not part of the
    bridge).  [ref] adds one to the count of a live object; [unref] takes one
    off and deletes the object with its last reference. *)
Definition SkRefCnt_ref (p : addr) : M unit :=
  n ← load_ColorSpace p;
  store p (HColorSpace (Pos.succ n)).

Definition SkRefCnt_unref (p : addr) : M unit :=
  n ← load_ColorSpace p;
  if decide (n = 1%positive) then free p
  else store p (HColorSpace (Pos.pred n)).

(** Modelled from the spec: [sk_ref_sp(obj)], which is
    [sk_sp<T>(SkSafeRef(obj))]: a null pointer gives an empty [sk_sp]; any
    other pointer is dereferenced, the object's count goes up by one, and the
    [sk_sp] owns that reference. *)
Definition sk_ref_sp (p : addr) : M addr :=
  if decide (p = nullptr) then mret nullptr
  else SkRefCnt_ref p;; mret p.

(** Modelled from the spec: [~sk_sp], which is [SkSafeUnref]: nothing for an
    empty [sk_sp], otherwise the reference it owns is given back. *)
Definition SkSafeUnref (p : addr) : M unit :=
  if decide (p = nullptr) then mret () else SkRefCnt_unref p.

(** ** What Skia decides on its own *)

(** The bridge forwards to Skia and hands back what Skia answers.  Whether a
    backend initialises, whether an insertion or a submit succeeds, and which
    descriptor a texture factory builds are Skia's answers; whether
    [operator new] finds memory is the C++ runtime's.  A [Backend] supplies
    them, and every theorem below holds for every [Backend]. *)
Class Backend := {
  operator_new_ok : World → bool;
  MakeMetal_ok : MtlBackendContext → ContextOptions → bool;
  MakeVulkan_ok : VulkanBackendContext → ContextOptions → bool;
  MakeDawn_ok : option GrContextOptions → bool;
  makeRecorder_ok : Context → option RecorderOptions → bool;
  snap_ok : Recorder → bool;
  insertRecording_ok : Context → Recording → bool;
  submit_ok : Context → SyncToCpu → bool;
  RenderTarget_ok : Recorder → SkImageInfo → Mipmapped → bool;
  WrapBackendTexture_ok : Recorder → BackendTexture → N → bool;
  TextureInfos_MakeMetal_value : handle → TextureInfo;
  BackendTextures_MakeMetal_value : SkISize → handle → BackendTexture;
  BackendTextures_MakeVulkan_value :
    SkISize → VulkanTextureInfo → N → N → handle → VulkanAlloc → BackendTexture
}.

(** [skgpu::graphite::InsertRecordingInfo]; default-constructed with a null
    recording. *)
Record InsertRecordingInfo := { fRecording : addr }.

Section Bridge.
Context `{Backend}.

(** [new T(...)] in the bridge's own code: [operator new] either finds
    memory, and the object is constructed at an address not in use, or throws
    [std::bad_alloc]. *)
Definition operator_new (c : Cell) : M addr := λ w,
  if operator_new_ok w then new_ c w else Throw bad_alloc.

(** *** Skia's side of the boundary *)

(** Modelled from the spec: the default constructor of TextureInfo, "a
    default-constructed instance is invalid". *)
Definition TextureInfo_default : TextureInfo :=
  {| ti_backend := kUnsupported; ti_valid := false; ti_sampleCount := 1;
     ti_mipmapped := Mipmapped_kNo; ti_flags := 0 |}.

(** Modelled from the spec: the default constructor of BackendTexture, which
    holds no native handle and is invalid. *)
Definition BackendTexture_default : BackendTexture :=
  {| bt_dimensions := {| fWidth := 0; fHeight := 0 |};
     bt_info := TextureInfo_default; bt_handle := 0; bt_retained := false |}.

Definition ContextOptions_default : ContextOptions := {| co_tunables := 0 |}.
Definition RecorderOptions_default : RecorderOptions := {| ro_tunables := 0 |}.

(** Modelled from the spec: [TextureInfo::isValid] and
    [BackendTexture::isValid] read the validity a factory established. *)
Definition TextureInfo_isValid (ti : TextureInfo) : bool := ti_valid ti.
Definition BackendTexture_isValid (bt : BackendTexture) : bool :=
  TextureInfo_isValid (bt_info bt).

(** Modelled from the spec: the destructor of a BackendTexture gives back the
    platform reference its value holds, if it holds one. *)
Definition BackendTexture_drop (bt : BackendTexture) : M unit :=
  if bt_retained bt then CFRelease (bt_handle bt) else mret ().

(** Modelled from the spec: a texture factory takes its own platform
    reference on the native handle when the descriptor it builds retains it. *)
Definition BackendTexture_acquire (bt : BackendTexture) : M BackendTexture :=
  if bt_retained bt then CFRetain (bt_handle bt);; mret bt else mret bt.

(** Modelled from the spec: [TextureInfos::MakeMetal],
    [BackendTextures::MakeMetal] and [BackendTextures::MakeVulkan], the
    backend-specific factories; each returns a descriptor by value, valid
    when the factory succeeded. *)
Definition TextureInfos_MakeMetal (texture : handle) : M TextureInfo :=
  let v := TextureInfos_MakeMetal_value texture in
  emit (EvMakeTexture kMetal (TextureInfo_isValid v));;
  mret v.

Definition BackendTextures_MakeMetal (dimensions : SkISize) (texture : handle)
  : M BackendTexture :=
  let v := BackendTextures_MakeMetal_value dimensions texture in
  emit (EvMakeTexture kMetal (BackendTexture_isValid v));;
  BackendTexture_acquire v.

Definition BackendTextures_MakeVulkan (dimensions : SkISize)
    (info : VulkanTextureInfo) (layout queueFamilyIndex : N) (image : handle)
    (alloc : VulkanAlloc) : M BackendTexture :=
  let v := BackendTextures_MakeVulkan_value dimensions info layout
             queueFamilyIndex image alloc in
  emit (EvMakeTexture kVulkan (BackendTexture_isValid v));;
  BackendTexture_acquire v.

(** Modelled from the spec: [TextureInfo::operator=]; the target is a live
    TextureInfo, which holds no resource, and is overwritten where it is. *)
Definition TextureInfo_assign (self : addr) (v : TextureInfo) : M unit :=
  _ ← load_TextureInfo self;
  store self (VTextureInfo v).

(** Modelled from the spec: [BackendTexture::operator=], which "must first
    release any resource the old value held, then take ownership of the new
    one". *)
Definition BackendTexture_assign (self : addr) (v : BackendTexture) : M unit :=
  old ← load_BackendTexture self;
  BackendTexture_drop old;;
  store self (VBackendTexture v).

(** Modelled from the spec: [sk_cfp<T>::reset(object)] on each member of a
    MtlBackendContext; the new object is stored, then the old one is
    released if there is one. *)
Definition fDevice_reset (context : addr) (object : handle) : M unit :=
  bc ← load_MtlBackendContext context;
  store context (VMtlBackendContext {| fDevice := object; fQueue := fQueue bc |});;
  SkCFSafeRelease (fDevice bc).

Definition fQueue_reset (context : addr) (object : handle) : M unit :=
  bc ← load_MtlBackendContext context;
  store context (VMtlBackendContext {| fDevice := fDevice bc; fQueue := object |});;
  SkCFSafeRelease (fQueue bc).

(** Modelled from the spec: [~MtlBackendContext], "destruction releases"
    the native handles; the members are destroyed in reverse order of
    declaration, each [~sk_cfp] releasing what it holds. *)
Definition MtlBackendContext_destroy (context : addr) : M unit :=
  bc ← load_MtlBackendContext context;
  SkCFSafeRelease (fQueue bc);;
  SkCFSafeRelease (fDevice bc);;
  store context Raw.

(** Modelled from the spec: [ContextFactory::MakeMetal] and
    [ContextFactory::MakeVulkan] "produce an owning pointer to a new Context,
    or a null result if the backend cannot initialize".  What goes wrong
    inside Skia, running out of memory included, comes back as that null
    result: "AllocationFailure (factory returns null - out of memory or
    backend rejected creation)"; the same holds for the other factories
    below. *)
Definition ContextFactory_MakeMetal (bc : MtlBackendContext)
    (options : ContextOptions) : M (option Cell) :=
  let ok := MakeMetal_ok bc options in
  emit (EvMakeMetal ok);;
  mret (if ok then Some (HContext {| ctx_backend := kMetal; ctx_queue := [] |})
        else None).

Definition ContextFactory_MakeVulkan (bc : VulkanBackendContext)
    (options : ContextOptions) : M (option Cell) :=
  let ok := MakeVulkan_ok bc options in
  emit (EvMakeVulkan ok);;
  mret (if ok then Some (HContext {| ctx_backend := kVulkan; ctx_queue := [] |})
        else None).

(** Modelled from the spec: [GrDirectContext::MakeDawn(device)] and
    [GrDirectContext::MakeDawn(device, options)], the factory of the third
    backend, with the same contract. *)
Definition GrDirectContext_MakeDawn (dev : addr)
    (options : option GrContextOptions) : M (option Cell) :=
  let ok := MakeDawn_ok options in
  emit (EvMakeDawn dev options ok);;
  mret (if ok then Some HGrDirectContext else None).

(** Modelled from the spec: [Context::makeRecorder()] (options [None]) and
    [Context::makeRecorder(const RecorderOptions&)] return "a new Recorder
    bound to that Context; options absent selects backend defaults"; on
    failure the [unique_ptr] is empty. *)
Definition Context_makeRecorder (self : addr)
    (options : option RecorderOptions) : M (option Cell) :=
  c ← load_Context self;
  let ok := makeRecorder_ok c options in
  emit (EvMakeRecorder self options ok);;
  mret (if ok then Some (HRecorder {| rec_context := self;
                                      rec_options := options;
                                      rec_commands := [] |})
        else None).

(** Modelled from the spec: [Recorder::snap] returns a new Recording of
    "everything recorded since the last snap (or since creation), and resets
    the Recorder to Idle"; on failure the [unique_ptr] is empty. *)
Definition Recorder_snap (self : addr) : M (option Cell) :=
  r ← load_Recorder self;
  let ok := snap_ok r in
  emit (EvSnap self ok);;
  store self (HRecorder {| rec_context := rec_context r;
                           rec_options := rec_options r;
                           rec_commands := [] |});;
  mret (if ok then Some (HRecording {| rcg_commands := rec_commands r;
                                       rcg_owner := None |})
        else None).

(** Modelled from the spec: [Context::insertRecording] "takes ownership of
    the Recording unconditionally and returns a success flag".  The
    Recording passes into the Context, whatever the flag: the object leaves
    the memory the caller's pointer named, so that the pointer is "consumed"
    and the Recording can "never be read, inserted twice, or destructed after
    insertion" without undefined behaviour, and the Context holds it, with
    the flag, from then on. *)
Definition Context_insertRecording (self : addr) (info : InsertRecordingInfo)
  : M bool :=
  c ← load_Context self;
  r ← load_Recording (fRecording info);
  let ok := insertRecording_ok c r in
  emit (EvInsertRecording self (fRecording info) ok);;
  free (fRecording info);;
  store self (HContext {| ctx_backend := ctx_backend c;
                          ctx_queue :=
                            ctx_queue c
                            ++ [({| rcg_commands := rcg_commands r;
                                    rcg_owner := Some self |}, ok)] |});;
  mret ok.

(** Modelled from the spec: [Context::submit] "flushes all queued, inserted
    Recordings to the GPU" and answers whether that succeeded; nothing is
    retried, and the Context is done with every Recording it held. *)
Definition Context_submit (self : addr) (syncToCpu : SyncToCpu) : M bool :=
  c ← load_Context self;
  let ok := submit_ok c syncToCpu in
  emit (EvSubmit self syncToCpu ok);;
  store self (HContext {| ctx_backend := ctx_backend c; ctx_queue := [] |});;
  mret ok.

(** Modelled from the spec: [SkSurfaces::RenderTarget] allocates "a fresh
    GPU-owned render target" bound to a Recorder. *)
Definition SkSurfaces_RenderTarget (recorder : addr) (info : SkImageInfo)
    (mipmapped : Mipmapped) (props : option SkSurfaceProps) : M (option Cell) :=
  r ← load_Recorder recorder;
  mret (if RenderTarget_ok r info mipmapped
        then Some (HSurface {| sf_recorder := recorder; sf_wrapped := None |})
        else None).

(** Modelled from the spec: [SkSurfaces::WrapBackendTexture]; "invalid
    BackendTexture input yields a null result", and the surface refers to
    the caller's texture without owning it.  The color space arrives as an
    [sk_sp] passed by value: the surface keeps that reference when it is
    made; when it is not, the [sk_sp] is destroyed with the call and the
    reference given back. *)
Definition SkSurfaces_WrapBackendTexture (recorder : addr)
    (backendTexture : BackendTexture) (colorType : N) (colorSpace : addr)
    (props : option SkSurfaceProps) : M (option Cell) :=
  r ← load_Recorder recorder;
  if BackendTexture_isValid backendTexture
     && WrapBackendTexture_ok r backendTexture colorType
  then mret (Some (HSurface {| sf_recorder := recorder;
                               sf_wrapped := Some (bt_handle backendTexture) |}))
  else SkSafeUnref colorSpace;; mret None.

(** [delete p] for a pointer to [T]: nothing for nullptr, otherwise [p] must
    point at a live [T]. *)
Definition delete_ (is_T : Cell → bool) (p : addr) : M unit :=
  if decide (p = nullptr) then mret ()
  else c ← load p; if is_T c then free p else undefined.

Definition is_Context (c : Cell) : bool :=
  match c with HContext _ => true | _ => false end.
Definition is_Recorder (c : Cell) : bool :=
  match c with HRecorder _ => true | _ => false end.
Definition is_Recording (c : Cell) : bool :=
  match c with HRecording _ => true | _ => false end.
Definition is_VulkanTextureInfo (c : Cell) : bool :=
  match c with HVulkanTextureInfo _ => true | _ => false end.

(** *** graphite.cpp *)

(** Lines 23-25. *)
Definition C_TextureInfo_Construct (ti : addr) : M unit :=
  placement_new ti (VTextureInfo TextureInfo_default).

(** Lines 27-29. *)
Definition C_TextureInfo_Destruct (ti : addr) : M unit :=
  _ ← load_TextureInfo ti;
  store ti Raw.

(** Lines 31-33. *)
Definition C_BackendTexture_Construct (bt : addr) : M unit :=
  placement_new bt (VBackendTexture BackendTexture_default).

(** Lines 35-37. *)
Definition C_BackendTexture_Destruct (bt : addr) : M unit :=
  v ← load_BackendTexture bt;
  BackendTexture_drop v;;
  store bt Raw.

(** Lines 39-41. *)
Definition C_ContextOptions_Construct (co : addr) : M unit :=
  placement_new co (VContextOptions ContextOptions_default).

(** Lines 43-45. *)
Definition C_ContextOptions_Destruct (co : addr) : M unit :=
  _ ← load_ContextOptions co;
  store co Raw.

(** Lines 47-49. *)
Definition C_Context_Destruct (self : addr) : M unit :=
  delete_ is_Context self.

(** Lines 51-53. *)
Definition C_Recorder_Destruct (self : addr) : M unit :=
  delete_ is_Recorder self.

(** Lines 55-57. *)
Definition C_Recording_Destruct (self : addr) : M unit :=
  delete_ is_Recording self.

(** Lines 60-67. *)
Definition C_MtlBackendContext_Construct (context : addr)
    (device queue : handle) : M unit :=
  placement_new context (VMtlBackendContext {| fDevice := 0; fQueue := 0 |});;
  d ← CFRetain device;
  fDevice_reset context d;;
  q ← CFRetain queue;
  fQueue_reset context q.

(** Lines 69-71. *)
Definition C_MtlBackendContext_Destruct (context : addr) : M unit :=
  MtlBackendContext_destroy context.

(** Lines 73-77. *)
Definition C_Context_MakeMetal (backendContext options : addr) : M addr :=
  bc ← load_MtlBackendContext backendContext;
  o ← load_ContextOptions options;
  r ← ContextFactory_MakeMetal bc o;
  release r.

(** Lines 84-88. *)
Definition C_Context_MakeVulkan (backendContext : option VulkanBackendContext)
    (options : addr) : M addr :=
  bc ← deref backendContext;
  o ← load_ContextOptions options;
  r ← ContextFactory_MakeVulkan bc o;
  release r.

(** Lines 90-103. *)
Definition C_VulkanTextureInfo_Make (sampleCount : N) (mipmapped : Mipmapped)
    (flags format imageTiling imageUsageFlags sharingMode aspectMask : N)
    (ycbcrConversionInfo : option VulkanYcbcrConversionInfo) : M addr :=
  y ← deref ycbcrConversionInfo;
  operator_new (HVulkanTextureInfo
    {| vti_sampleCount := sampleCount; vti_mipmapped := mipmapped;
       vti_flags := flags; vti_format := format;
       vti_imageTiling := imageTiling;
       vti_imageUsageFlags := imageUsageFlags;
       vti_sharingMode := sharingMode; vti_aspectMask := aspectMask;
       vti_ycbcrConversionInfo := y |}).

(** Lines 105-107. *)
Definition C_VulkanTextureInfo_Destruct (self : addr) : M unit :=
  delete_ is_VulkanTextureInfo self.

(** Lines 109-119. *)
Definition C_BackendTexture_MakeVulkan (self : addr)
    (dimensions : option SkISize) (info : addr) (layout queueFamilyIndex : N)
    (image : handle) (alloc : option VulkanAlloc) : M unit :=
  d ← deref dimensions;
  i ← load_VulkanTextureInfo info;
  a ← deref alloc;
  v ← BackendTextures_MakeVulkan d i layout queueFamilyIndex image a;
  BackendTexture_assign self v.

(** Lines 122-129. *)
Definition C_Surface_Make (recorder : addr) (info : option SkImageInfo)
    (mipmapped : Mipmapped) (props : option SkSurfaceProps) : M addr :=
  i ← deref info;
  r ← SkSurfaces_RenderTarget recorder i mipmapped props;
  release r.

(** Lines 131-133. *)
Definition C_TextureInfo_isValid (self : addr) : M bool :=
  ti ← load_TextureInfo self;
  mret (TextureInfo_isValid ti).

(** Lines 135-137. *)
Definition C_BackendTexture_isValid (self : addr) : M bool :=
  bt ← load_BackendTexture self;
  mret (BackendTexture_isValid bt).

(** Lines 139-141: the TextureInfo is copy-constructed into [result]. *)
Definition C_BackendTexture_info (self result : addr) : M unit :=
  bt ← load_BackendTexture self;
  placement_new result (VTextureInfo (bt_info bt)).

(** Lines 143-145. *)
Definition C_BackendTexture_dimensions (self : addr) : M SkISize :=
  bt ← load_BackendTexture self;
  mret (bt_dimensions bt).

(** Lines 147-149. *)
Definition C_RecorderOptions_Construct (ro : addr) : M unit :=
  placement_new ro (VRecorderOptions RecorderOptions_default).

(** Lines 151-153. *)
Definition C_RecorderOptions_Destruct (ro : addr) : M unit :=
  _ ← load_RecorderOptions ro;
  store ro Raw.

(** Lines 155-163. *)
Definition C_Context_makeRecorder (self options : addr) : M addr :=
  if decide (options ≠ nullptr) then
    o ← load_RecorderOptions options;
    r ← Context_makeRecorder self (Some o);
    release r
  else
    r ← Context_makeRecorder self None;
    release r.

(** Lines 165-167. *)
Definition C_Recorder_snap (self : addr) : M addr :=
  r ← Recorder_snap self;
  release r.

(** Lines 169-173. *)
Definition C_Context_insertRecording (self recording : addr) : M bool :=
  let info := {| fRecording := recording |} in
  Context_insertRecording self info.

(** Lines 175-177: the function is declared [void]; what [submit] answers
    goes nowhere. *)
Definition C_Context_submit (self : addr) (syncToCpu : SyncToCpu) : M unit :=
  _ ← Context_submit self syncToCpu;
  mret ().

(** Lines 188-190. *)
Definition C_TextureInfo_MakeMetal (self : addr) (texture : handle) : M unit :=
  v ← TextureInfos_MakeMetal texture;
  TextureInfo_assign self v.

(** Lines 192-194. *)
Definition C_BackendTexture_MakeMetal (self : addr)
    (dimensions : option SkISize) (texture : handle) : M unit :=
  d ← deref dimensions;
  v ← BackendTextures_MakeMetal d texture;
  BackendTexture_assign self v.

(** Lines 199-207.  [sk_ref_sp(colorSpace)] takes a reference on the color
    space before Skia is called. *)
Definition C_Surface_MakeGraphiteWrapped (recorder backendTexture : addr)
    (colorType : N) (colorSpace : addr) (surfaceProps : option SkSurfaceProps)
  : M addr :=
  bt ← load_BackendTexture backendTexture;
  cs ← sk_ref_sp colorSpace;
  r ← SkSurfaces_WrapBackendTexture recorder bt colorType cs surfaceProps;
  release r.

(** *** dawn.cpp *)

(** Lines 11-20. *)
Definition C_GrDirectContext_MakeDawn (options : option GrContextOptions)
  : M addr :=
  w ← get_world;
  (if decide (device w = nullptr)
   then p ← operator_new HWgpuDevice; modify (with_device p)
   else mret ());;
  w ← get_world;
  match options with
  | Some o =>
      load_WgpuDevice (device w);;
      r ← GrDirectContext_MakeDawn (device w) (Some o);
      release r
  | None =>
      load_WgpuDevice (device w);;
      r ← GrDirectContext_MakeDawn (device w) None;
      release r
  end.

(** *** What happens between calls *)

(** The caller sets aside storage for a value descriptor, or gives it up
    again once nothing lives in it. *)
Definition caller_alloca (p : addr) : M unit := λ w,
  if decide (p = nullptr) then UB else
  match mem w !! p with
  | None => Ok () (with_mem (<[p := Raw]>) w)
  | Some _ => UB
  end.

Definition caller_dealloca (p : addr) : M unit :=
  c ← load p;
  match c with
  | Raw => free p
  | _ => undefined
  end.

(** The platform creates a native object; its creator holds the one
    reference. *)
Definition platform_create (h : handle) : M unit := λ w,
  if decide (h = 0) then UB else
  match refs w !! h with
  | None => Ok () (with_refs (<[h := 1%nat]>) w)
  | Some _ => UB
  end.

(** Skia hands the caller a color space with one reference on it, and the
    caller gives a reference of its own back. *)
Definition colorspace_make : M unit :=
  _ ← new_ (HColorSpace 1); mret ().

Definition colorspace_unref (p : addr) : M unit := SkRefCnt_unref p.

(** The rendering API records a command on a Recorder. *)
Definition record_command (recorder : addr) (cmd : Command) : M unit :=
  r ← load_Recorder recorder;
  store recorder (HRecorder {| rec_context := rec_context r;
                               rec_options := rec_options r;
                               rec_commands := rec_commands r ++ [cmd] |}).

(** A recording session on one Recorder: for each batch in turn, the
    rendering API records the commands of the batch and the caller snaps.
    The result lists the pointers the snaps returned, in order. *)
Fixpoint record_commands (recorder : addr) (cmds : list Command) : M unit :=
  match cmds with
  | [] => mret ()
  | cmd :: cmds' => record_command recorder cmd;; record_commands recorder cmds'
  end.

Fixpoint snap_session (self : addr) (batches : list (list Command))
  : M (list addr) :=
  match batches with
  | [] => mret []
  | b :: bs =>
      record_commands self b;;
      p ← C_Recorder_snap self;
      ps ← snap_session self bs;
      mret (p :: ps)
  end.

(** *** Sequences of calls *)

Inductive Call :=
| Call_TextureInfo_Construct (ti : addr)
| Call_TextureInfo_Destruct (ti : addr)
| Call_BackendTexture_Construct (bt : addr)
| Call_BackendTexture_Destruct (bt : addr)
| Call_ContextOptions_Construct (co : addr)
| Call_ContextOptions_Destruct (co : addr)
| Call_Context_Destruct (self : addr)
| Call_Recorder_Destruct (self : addr)
| Call_Recording_Destruct (self : addr)
| Call_MtlBackendContext_Construct (context : addr) (device queue : handle)
| Call_MtlBackendContext_Destruct (context : addr)
| Call_Context_MakeMetal (backendContext options : addr)
| Call_Context_MakeVulkan (backendContext : option VulkanBackendContext)
    (options : addr)
| Call_VulkanTextureInfo_Make (v : VulkanTextureInfo)
| Call_VulkanTextureInfo_Destruct (self : addr)
| Call_BackendTexture_MakeVulkan (self : addr) (dimensions : option SkISize)
    (info : addr) (layout queueFamilyIndex : N) (image : handle)
    (alloc : option VulkanAlloc)
| Call_Surface_Make (recorder : addr) (info : option SkImageInfo)
    (mipmapped : Mipmapped) (props : option SkSurfaceProps)
| Call_TextureInfo_isValid (self : addr)
| Call_BackendTexture_isValid (self : addr)
| Call_BackendTexture_info (self result : addr)
| Call_BackendTexture_dimensions (self : addr)
| Call_RecorderOptions_Construct (ro : addr)
| Call_RecorderOptions_Destruct (ro : addr)
| Call_Context_makeRecorder (self options : addr)
| Call_Recorder_snap (self : addr)
| Call_Context_insertRecording (self recording : addr)
| Call_Context_submit (self : addr) (syncToCpu : SyncToCpu)
| Call_TextureInfo_MakeMetal (self : addr) (texture : handle)
| Call_BackendTexture_MakeMetal (self : addr) (dimensions : option SkISize)
    (texture : handle)
| Call_Surface_MakeGraphiteWrapped (recorder backendTexture : addr) (colorType : N)
    (colorSpace : addr) (surfaceProps : option SkSurfaceProps)
| Call_GrDirectContext_MakeDawn (options : option GrContextOptions)
| Env_Alloca (p : addr)
| Env_Dealloca (p : addr)
| Env_PlatformCreate (h : handle)
| Env_RecordCommand (recorder : addr) (cmd : Command)
| Env_ColorSpaceMake
| Env_ColorSpaceUnref (p : addr).

(** A call run for its effect on the world; there is none to go on from
    when the call is undefined or an exception leaves it. *)
Definition effect {A} (m : M A) : World → option World :=
  λ w, world_of (m w).

Definition exec (c : Call) : World → option World :=
  match c with
  | Call_TextureInfo_Construct ti => effect (C_TextureInfo_Construct ti)
  | Call_TextureInfo_Destruct ti => effect (C_TextureInfo_Destruct ti)
  | Call_BackendTexture_Construct bt => effect (C_BackendTexture_Construct bt)
  | Call_BackendTexture_Destruct bt => effect (C_BackendTexture_Destruct bt)
  | Call_ContextOptions_Construct co => effect (C_ContextOptions_Construct co)
  | Call_ContextOptions_Destruct co => effect (C_ContextOptions_Destruct co)
  | Call_Context_Destruct self => effect (C_Context_Destruct self)
  | Call_Recorder_Destruct self => effect (C_Recorder_Destruct self)
  | Call_Recording_Destruct self => effect (C_Recording_Destruct self)
  | Call_MtlBackendContext_Construct context device queue =>
      effect (C_MtlBackendContext_Construct context device queue)
  | Call_MtlBackendContext_Destruct context =>
      effect (C_MtlBackendContext_Destruct context)
  | Call_Context_MakeMetal backendContext options =>
      effect (C_Context_MakeMetal backendContext options)
  | Call_Context_MakeVulkan backendContext options =>
      effect (C_Context_MakeVulkan backendContext options)
  | Call_VulkanTextureInfo_Make v =>
      effect (C_VulkanTextureInfo_Make (vti_sampleCount v) (vti_mipmapped v)
                (vti_flags v) (vti_format v) (vti_imageTiling v)
                (vti_imageUsageFlags v) (vti_sharingMode v) (vti_aspectMask v)
                (Some (vti_ycbcrConversionInfo v)))
  | Call_VulkanTextureInfo_Destruct self => effect (C_VulkanTextureInfo_Destruct self)
  | Call_BackendTexture_MakeVulkan self dimensions info layout queueFamilyIndex
      image alloc =>
      effect (C_BackendTexture_MakeVulkan self dimensions info layout
                queueFamilyIndex image alloc)
  | Call_Surface_Make recorder info mipmapped props =>
      effect (C_Surface_Make recorder info mipmapped props)
  | Call_TextureInfo_isValid self => effect (C_TextureInfo_isValid self)
  | Call_BackendTexture_isValid self => effect (C_BackendTexture_isValid self)
  | Call_BackendTexture_info self result => effect (C_BackendTexture_info self result)
  | Call_BackendTexture_dimensions self => effect (C_BackendTexture_dimensions self)
  | Call_RecorderOptions_Construct ro => effect (C_RecorderOptions_Construct ro)
  | Call_RecorderOptions_Destruct ro => effect (C_RecorderOptions_Destruct ro)
  | Call_Context_makeRecorder self options =>
      effect (C_Context_makeRecorder self options)
  | Call_Recorder_snap self => effect (C_Recorder_snap self)
  | Call_Context_insertRecording self recording =>
      effect (C_Context_insertRecording self recording)
  | Call_Context_submit self syncToCpu => effect (C_Context_submit self syncToCpu)
  | Call_TextureInfo_MakeMetal self texture =>
      effect (C_TextureInfo_MakeMetal self texture)
  | Call_BackendTexture_MakeMetal self dimensions texture =>
      effect (C_BackendTexture_MakeMetal self dimensions texture)
  | Call_Surface_MakeGraphiteWrapped recorder backendTexture colorType colorSpace
      surfaceProps =>
      effect (C_Surface_MakeGraphiteWrapped recorder backendTexture colorType
                colorSpace surfaceProps)
  | Call_GrDirectContext_MakeDawn options =>
      effect (C_GrDirectContext_MakeDawn options)
  | Env_Alloca p => effect (caller_alloca p)
  | Env_Dealloca p => effect (caller_dealloca p)
  | Env_PlatformCreate h => effect (platform_create h)
  | Env_RecordCommand recorder cmd => effect (record_command recorder cmd)
  | Env_ColorSpaceMake => effect colorspace_make
  | Env_ColorSpaceUnref p => effect (colorspace_unref p)
  end.

Fixpoint run (cs : list Call) (w : World) : option World :=
  match cs with
  | [] => Some w
  | c :: cs' =>
      match exec c w with
      | Some w' => run cs' w'
      | None => None
      end
  end.

End Bridge.

(** ** Two backends to run the bridge on *)

Definition metal_info : TextureInfo :=
  {| ti_backend := kMetal; ti_valid := true; ti_sampleCount := 1;
     ti_mipmapped := Mipmapped_kNo; ti_flags := 0 |}.

(** A backend on which everything works; its Metal textures retain their
    native handle, its Vulkan textures borrow the image. *)
Definition healthy : Backend :=
  {| operator_new_ok := λ _, true;
     MakeMetal_ok := λ _ _, true;
     MakeVulkan_ok := λ _ _, true;
     MakeDawn_ok := λ _, true;
     makeRecorder_ok := λ _ _, true;
     snap_ok := λ _, true;
     insertRecording_ok := λ _ _, true;
     submit_ok := λ _ _, true;
     RenderTarget_ok := λ _ _ _, true;
     WrapBackendTexture_ok := λ _ _ _, true;
     TextureInfos_MakeMetal_value := λ _, metal_info;
     BackendTextures_MakeMetal_value := λ d texture,
       {| bt_dimensions := d; bt_info := metal_info; bt_handle := texture;
          bt_retained := true |};
     BackendTextures_MakeVulkan_value := λ d info _ _ image _,
       {| bt_dimensions := d;
          bt_info := {| ti_backend := kVulkan; ti_valid := true;
                        ti_sampleCount := vti_sampleCount info;
                        ti_mipmapped := vti_mipmapped info;
                        ti_flags := vti_flags info |};
          bt_handle := image; bt_retained := false |} |}.

(** A backend whose device is lost: nothing can be created, inserted or
    submitted, and the texture factories hand back invalid descriptors. *)
Definition device_lost : Backend :=
  {| operator_new_ok := λ _, true;
     MakeMetal_ok := λ _ _, false;
     MakeVulkan_ok := λ _ _, false;
     MakeDawn_ok := λ _, false;
     makeRecorder_ok := λ _ _, false;
     snap_ok := λ _, false;
     insertRecording_ok := λ _ _, false;
     submit_ok := λ _ _, false;
     RenderTarget_ok := λ _ _ _, false;
     WrapBackendTexture_ok := λ _ _ _, false;
     TextureInfos_MakeMetal_value := λ _, TextureInfo_default;
     BackendTextures_MakeMetal_value := λ _ _, BackendTexture_default;
     BackendTextures_MakeVulkan_value := λ _ _ _ _ _ _, BackendTexture_default |}.

(** The healthy backend in a process that has run out of memory. *)
Definition out_of_memory : Backend :=
  {| operator_new_ok := λ _, false;
     MakeMetal_ok := @MakeMetal_ok healthy;
     MakeVulkan_ok := @MakeVulkan_ok healthy;
     MakeDawn_ok := @MakeDawn_ok healthy;
     makeRecorder_ok := @makeRecorder_ok healthy;
     snap_ok := @snap_ok healthy;
     insertRecording_ok := @insertRecording_ok healthy;
     submit_ok := @submit_ok healthy;
     RenderTarget_ok := @RenderTarget_ok healthy;
     WrapBackendTexture_ok := @WrapBackendTexture_ok healthy;
     TextureInfos_MakeMetal_value := @TextureInfos_MakeMetal_value healthy;
     BackendTextures_MakeMetal_value := @BackendTextures_MakeMetal_value healthy;
     BackendTextures_MakeVulkan_value :=
       @BackendTextures_MakeVulkan_value healthy |}.

Definition vulkan_info : VulkanTextureInfo :=
  {| vti_sampleCount := 1; vti_mipmapped := Mipmapped_kNo; vti_flags := 0;
     vti_format := 37; vti_imageTiling := 0; vti_imageUsageFlags := 6;
     vti_sharingMode := 0; vti_aspectMask := 1;
     vti_ycbcrConversionInfo := {| ycbcr_format := 0 |} |}.

(** A world to run the bridge in: raw storage at 1, constructed options and
    descriptors, a Metal Context with a Recorder that has two commands
    pending and a Recording not yet inserted, and four live platform
    objects.  [gallery] is the same world with an sRGB color space the
    caller holds one reference on. *)
Definition studio : World :=
  {| mem := list_to_map
       [ (1, Raw);
         (2, VContextOptions ContextOptions_default);
         (3, VMtlBackendContext {| fDevice := 10; fQueue := 11 |});
         (4, HContext {| ctx_backend := kMetal; ctx_queue := [] |});
         (5, HRecorder {| rec_context := 4; rec_options := None;
                          rec_commands := [70; 71] |});
         (6, HRecording {| rcg_commands := [72]; rcg_owner := None |});
         (7, VRecorderOptions RecorderOptions_default);
         (8, VTextureInfo TextureInfo_default);
         (9, VBackendTexture
               {| bt_dimensions := {| fWidth := 4; fHeight := 4 |};
                  bt_info := metal_info; bt_handle := 12;
                  bt_retained := true |});
         (13, HVulkanTextureInfo vulkan_info) ];
     refs := list_to_map [ (10, 1%nat); (11, 1%nat); (12, 1%nat); (14, 2%nat) ];
     device := nullptr;
     log := [] |}.

Definition gallery : World := with_mem (<[15 := HColorSpace 1]>) studio.

(** * Vocabulary of the statements *)

Section Vocabulary.
Context `{Backend}.

(** What [release()] of a factory result gives the caller: null exactly when
    the factory failed, otherwise the address of a new object that was not
    in memory before. *)
Definition factory_result (ok : bool) (c : Cell) (w : World) (p : addr)
    (w' : World) : Prop :=
  (p = nullptr ↔ ok = false) ∧
  (p ≠ nullptr → mem w !! p = None ∧ mem w' !! p = Some c).

(** What a call of [Context::makeRecorder] with options [o], followed by
    [release()], leaves behind. *)
Definition made_recorder (w : World) (self : addr) (c : Context)
    (o : option RecorderOptions) (p : addr) (w' : World) : Prop :=
  let ok := makeRecorder_ok c o in
  log w' = log w ++ [EvMakeRecorder self o ok] ∧
  factory_result ok (HRecorder {| rec_context := self; rec_options := o;
                                  rec_commands := [] |}) w p w' ∧
  (∀ q, q ≠ p → mem w' !! q = mem w !! q) ∧
  refs w' = refs w ∧ device w' = device w.

(** The RecorderOptions argument of [C_Context_makeRecorder]: the null
    pointer stands for no options, any other pointer must point at
    constructed RecorderOptions. *)
Definition options_arg (w : World) (options : addr)
    (o : option RecorderOptions) : Prop :=
  match o with
  | None => options = nullptr
  | Some ro => options ≠ nullptr ∧ mem w !! options = Some (VRecorderOptions ro)
  end.

(** The platform references a BackendTexture value holds. *)
Definition held (bt : BackendTexture) : list handle :=
  if bt_retained bt then [bt_handle bt] else [].

(** A handle names a platform object that is alive. *)
Definition live (w : World) (h : handle) : Prop :=
  h ≠ 0 ∧ (0 < refcount w h)%nat.

Definition occurrences (h : handle) (l : list handle) : nat :=
  length (filter (λ h', h' = h) l).

(** A BackendTexture [old] at [self] has been overwritten, where it is, by
    the value [v] a factory of backend [api] built: the factory took the
    references [v] holds, then the assignment gave back the ones [old] held,
    each once, and no cell came into being or went away. *)
Definition overwritten (w : World) (self : addr) (old v : BackendTexture)
    (api : BackendApi) (w' : World) : Prop :=
  mem w' = <[self := VBackendTexture v]> (mem w) ∧
  dom (mem w') = dom (mem w) ∧
  log w' = log w ++ EvMakeTexture api (BackendTexture_isValid v)
                 :: (EvCFRetain <$> held v) ++ (EvCFRelease <$> held old) ∧
  (∀ h, (refcount w' h + occurrences h (held old)
         = refcount w h + occurrences h (held v))%nat) ∧
  device w' = device w.

(** A Recorder that has [cmds] pending, and the same Recorder once idle. *)
Definition recorder_with (r : Recorder) (cmds : list Command) : Recorder :=
  {| rec_context := rec_context r; rec_options := rec_options r;
     rec_commands := cmds |}.

(** What the snaps of a session are to capture: the first one everything
    recorded since creation, each later one its own batch. *)
Definition captured (r : Recorder) (batches : list (list Command))
  : list (list Command) :=
  match batches with
  | [] => []
  | b :: bs => (rec_commands r ++ b) :: bs
  end.

(** The pointer one snap returned: null exactly when Skia made no
    Recording of the pending commands [cmds], otherwise a new Recording of
    them that the caller owns. *)
Definition snapped (w w' : World) (r : Recorder) (p : addr)
    (cmds : list Command) : Prop :=
  factory_result (snap_ok (recorder_with r cmds))
    (HRecording {| rcg_commands := cmds; rcg_owner := None |}) w p w'.

(** Whether a cell holds a descriptor that reports itself valid. *)
Definition cell_valid (c : Cell) : bool :=
  match c with
  | VTextureInfo ti => TextureInfo_isValid ti
  | VBackendTexture bt => BackendTexture_isValid bt
  | _ => false
  end.

(** One of the two isValid queries answers true on the pointer [p]. *)
Definition reports_valid (w : World) (p : addr) : Prop :=
  value_of (C_TextureInfo_isValid p w) = Some true ∨
  value_of (C_BackendTexture_isValid p w) = Some true.

(** The calls that write a descriptor value into the storage at [p]: the
    Make entry points of the backend factories on [p], and
    [C_BackendTexture_info], which copies the TextureInfo a backend factory
    put into a BackendTexture. *)
Definition populates (p : addr) (c : Call) : bool :=
  match c with
  | Call_TextureInfo_MakeMetal self _ => bool_decide (self = p)
  | Call_BackendTexture_MakeMetal self _ _ => bool_decide (self = p)
  | Call_BackendTexture_MakeVulkan self _ _ _ _ _ _ => bool_decide (self = p)
  | Call_BackendTexture_info _ result => bool_decide (result = p)
  | _ => false
  end.

(** The backend factory behind a populating call succeeded: the descriptor
    it built in the world [w], or the one a factory had put into the
    BackendTexture that is copied from, is valid. *)
Definition built_valid (c : Call) (w : World) : bool :=
  match c with
  | Call_TextureInfo_MakeMetal _ texture =>
      TextureInfo_isValid (TextureInfos_MakeMetal_value texture)
  | Call_BackendTexture_MakeMetal _ (Some d) texture =>
      BackendTexture_isValid (BackendTextures_MakeMetal_value d texture)
  | Call_BackendTexture_MakeVulkan _ (Some d) info layout queueFamilyIndex
      image (Some a) =>
      match mem w !! info with
      | Some (HVulkanTextureInfo i) =>
          BackendTexture_isValid
            (BackendTextures_MakeVulkan_value d i layout queueFamilyIndex
               image a)
      | _ => false
      end
  | Call_BackendTexture_info self _ =>
      match mem w !! self with
      | Some (VBackendTexture bt) => BackendTexture_isValid bt
      | _ => false
      end
  | _ => false
  end.


(** The static of dawn.cpp is unset, or points at the device it cached. *)
Definition device_cached (w : World) : Prop :=
  device w = nullptr ∨ mem w !! device w = Some HWgpuDevice.

End Vocabulary.

(** * Vocabulary of the further statements *)

(** What [delete] of a pointer to a [T] does, for the four entry points that
    are one [delete self]. *)
Definition deletes (is_T : Cell → bool) (destruct : addr → M unit) : Prop :=
  ∀ w,
    destruct nullptr w = Ok () w ∧
    ∀ p, p ≠ nullptr →
      (∀ c, mem w !! p = Some c → is_T c = true →
            destruct p w = Ok () (with_mem (delete p) w) ∧
            destruct p (with_mem (delete p) w) = UB) ∧
      ((∀ c, mem w !! p = Some c → is_T c = false) → destruct p w = UB).

(** The color space argument of [C_Surface_MakeGraphiteWrapped]: the null
    pointer stands for no color space, any other pointer must point at a live
    color space, on which [n] references are held. *)
Definition colorspace_arg (w : World) (colorSpace : addr)
    (o : option positive) : Prop :=
  match o with
  | None => colorSpace = nullptr
  | Some n => colorSpace ≠ nullptr ∧ mem w !! colorSpace = Some (HColorSpace n)
  end.




(** * Properties *)

(** ** Running a computation step by step *)

Ltac simpl_world :=
  unfold with_mem, with_refs, with_device, with_log; simpl.

(** The definitions a call unfolds into. *)
Create HintDb bridge discriminated.
#[local] Hint Unfold
  C_TextureInfo_Construct C_TextureInfo_Destruct C_BackendTexture_Construct
  C_BackendTexture_Destruct C_ContextOptions_Construct C_ContextOptions_Destruct
  C_Context_Destruct C_Recorder_Destruct C_Recording_Destruct
  C_MtlBackendContext_Construct C_MtlBackendContext_Destruct C_Context_MakeMetal
  C_Context_MakeVulkan C_VulkanTextureInfo_Make C_VulkanTextureInfo_Destruct
  C_BackendTexture_MakeVulkan C_Surface_Make C_TextureInfo_isValid
  C_BackendTexture_isValid C_BackendTexture_info C_BackendTexture_dimensions
  C_RecorderOptions_Construct C_RecorderOptions_Destruct C_Context_makeRecorder
  C_Recorder_snap C_Context_insertRecording C_Context_submit
  C_TextureInfo_MakeMetal C_BackendTexture_MakeMetal
  C_Surface_MakeGraphiteWrapped C_GrDirectContext_MakeDawn
  caller_alloca caller_dealloca platform_create record_command
  BackendTexture_drop BackendTexture_acquire TextureInfos_MakeMetal
  BackendTextures_MakeMetal BackendTextures_MakeVulkan TextureInfo_assign
  BackendTexture_assign fDevice_reset fQueue_reset MtlBackendContext_destroy
  ContextFactory_MakeMetal ContextFactory_MakeVulkan GrDirectContext_MakeDawn
  Context_makeRecorder Recorder_snap Context_insertRecording Context_submit
  SkSurfaces_RenderTarget SkSurfaces_WrapBackendTexture delete_
  load_TextureInfo load_BackendTexture load_ContextOptions load_RecorderOptions
  load_MtlBackendContext load_Context load_Recorder load_Recording
  load_VulkanTextureInfo load_WgpuDevice
  load_ColorSpace SkRefCnt_ref SkRefCnt_unref sk_ref_sp SkSafeUnref
  colorspace_make colorspace_unref operator_new
  placement_new new_ release fresh_addr free deref SkCFSafeRelease
  CFRetain CFRelease store load emit modify get_world undefined
  effect world_of with_mem with_refs with_device with_log
  : bridge.


Lemma run_bind {A B} (m : M A) (f : A → M B) w a w1 o :
  m w = Ok a w1 → f a w1 = o → (m ≫= f) w = o.
Proof. unfold mbind, M_bind. by intros -> ->. Qed.

Lemma run_bind_inv {A B} (m : M A) (f : A → M B) w b w2 :
  (m ≫= f) w = Ok b w2 → ∃ a w1, m w = Ok a w1 ∧ f a w1 = Ok b w2.
Proof. unfold mbind, M_bind. destruct (m w); [eauto | done | done]. Qed.

Lemma run_bind_UB {A B} (m : M A) (f : A → M B) w :
  m w = UB → (m ≫= f) w = UB.
Proof. unfold mbind, M_bind. by intros ->. Qed.

Lemma run_bind_Throw {A B} (m : M A) (f : A → M B) w e :
  m w = Throw e → (m ≫= f) w = Throw e.
Proof. unfold mbind, M_bind. by intros ->. Qed.

Lemma run_bind_Throw_inv {A B} (m : M A) (f : A → M B) w e :
  (m ≫= f) w = Throw e →
  m w = Throw e ∨ ∃ a w1, m w = Ok a w1 ∧ f a w1 = Throw e.
Proof.
  unfold mbind, M_bind. destruct (m w) as [a w1 | | e']; intros Hk.
  - right. by exists a, w1.
  - done.
  - left. by destruct e, e'.
Qed.

Lemma no_throw_bind {A B} (m : M A) (f : A → M B) :
  no_throw m → (∀ a, no_throw (f a)) → no_throw (m ≫= f).
Proof.
  intros Hm Hf w e Hthrow.
  apply run_bind_Throw_inv in Hthrow as [Hthrow | (a & w1 & _ & Hthrow)].
  - by apply (Hm w e).
  - by apply (Hf a w1 e).
Qed.

(** Goes through a computation bind by bind, down to the primitives. *)
Ltac no_throws :=
  autounfold with bridge; cbv zeta;
  repeat first
    [ apply no_throw_bind; [| intros ?]
    | match goal with
      | |- no_throw (match ?x with _ => _ end) => destruct x
      end
    | by (intros ? ?; unfold mret, M_ret; simpl; repeat case_match) ].

Lemma load_run p c w :
  p ≠ nullptr → mem w !! p = Some c → load p w = Ok c w.
Proof. intros Hp Hc. unfold load. by rewrite decide_False, Hc. Qed.

Lemma load_inv p c w w' :
  load p w = Ok c w' → p ≠ nullptr ∧ mem w !! p = Some c ∧ w' = w.
Proof.
  unfold load. case_decide; [done |].
  destruct (mem w !! p); naive_solver.
Qed.

Lemma placement_new_run p c w :
  p ≠ nullptr → mem w !! p = Some Raw →
  placement_new p c w = Ok () (with_mem (<[p := c]>) w).
Proof.
  intros Hp Hraw. unfold placement_new.
  eapply run_bind; [by apply load_run | done].
Qed.

Lemma CFRetain_run h n w :
  h ≠ 0 → refs w !! h = Some (S n) →
  CFRetain h w = Ok h (with_log (EvCFRetain h) (with_refs (<[h := S (S n)]>) w)).
Proof. intros Hh Hn. unfold CFRetain. by rewrite decide_False, Hn. Qed.

Lemma CFRelease_run h n w :
  h ≠ 0 → refs w !! h = Some (S n) →
  CFRelease h w = Ok () (with_log (EvCFRelease h) (with_refs (<[h := n]>) w)).
Proof. intros Hh Hn. unfold CFRelease. by rewrite decide_False, Hn. Qed.

Lemma SkCFSafeRelease_run h n w :
  h ≠ 0 → refs w !! h = Some (S n) →
  SkCFSafeRelease h w
  = Ok () (with_log (EvCFRelease h) (with_refs (<[h := n]>) w)).
Proof.
  intros Hh Hn. unfold SkCFSafeRelease. rewrite decide_False by done.
  by apply CFRelease_run.
Qed.

Lemma SkCFSafeRelease_null w : SkCFSafeRelease 0 w = Ok () w.
Proof. done. Qed.

Lemma fresh_for_spec (m : gmap N Cell) :
  fresh_for m ≠ nullptr ∧ m !! fresh_for m = None.
Proof.
  unfold fresh_for.
  pose proof (is_fresh ({[nullptr]} ∪ dom m)) as Hfresh.
  split.
  - intros Heq. apply Hfresh. rewrite Heq. set_solver.
  - apply not_elem_of_dom. set_solver.
Qed.

Lemma fresh_addr_spec w :
  fresh_addr w ≠ nullptr ∧ mem w !! fresh_addr w = None.
Proof. apply fresh_for_spec. Qed.

Lemma release_Some c w :
  release (Some c) w = Ok (fresh_addr w) (with_mem (<[fresh_addr w := c]>) w).
Proof. done. Qed.

Lemma release_None w : release None w = Ok nullptr w.
Proof. done. Qed.

Section Properties.
Context `{Backend}.

Lemma load_MtlBackendContext_run p bc w :
  p ≠ nullptr → mem w !! p = Some (VMtlBackendContext bc) →
  load_MtlBackendContext p w = Ok bc w.
Proof.
  intros. unfold load_MtlBackendContext.
  eapply run_bind; [by apply load_run | done].
Qed.

Lemma load_BackendTexture_run p bt w :
  p ≠ nullptr → mem w !! p = Some (VBackendTexture bt) →
  load_BackendTexture p w = Ok bt w.
Proof.
  intros. unfold load_BackendTexture.
  eapply run_bind; [by apply load_run | done].
Qed.

Lemma load_TextureInfo_run p ti w :
  p ≠ nullptr → mem w !! p = Some (VTextureInfo ti) →
  load_TextureInfo p w = Ok ti w.
Proof.
  intros. unfold load_TextureInfo.
  eapply run_bind; [by apply load_run | done].
Qed.

Lemma load_Context_run p c w :
  p ≠ nullptr → mem w !! p = Some (HContext c) →
  load_Context p w = Ok c w.
Proof.
  intros. unfold load_Context.
  eapply run_bind; [by apply load_run | done].
Qed.

Lemma load_Recorder_run p r w :
  p ≠ nullptr → mem w !! p = Some (HRecorder r) →
  load_Recorder p w = Ok r w.
Proof.
  intros. unfold load_Recorder.
  eapply run_bind; [by apply load_run | done].
Qed.

Lemma load_Recording_run p r w :
  p ≠ nullptr → mem w !! p = Some (HRecording r) →
  load_Recording p w = Ok r w.
Proof.
  intros. unfold load_Recording.
  eapply run_bind; [by apply load_run | done].
Qed.

(** *** Platform handles of a MtlBackendContext *)

Lemma C_MtlBackendContext_Construct_run w context dev que n m :
  context ≠ nullptr → mem w !! context = Some Raw →
  dev ≠ 0 → que ≠ 0 →
  refs w !! dev = Some (S n) → refs w !! que = Some (S m) →
  ∃ w1,
    C_MtlBackendContext_Construct context dev que w = Ok () w1 ∧
    mem w1 = <[context := VMtlBackendContext {| fDevice := dev; fQueue := que |}]>
               (mem w) ∧
    refs w1 = <[que := S (if decide (dev = que) then S (S m) else S m)]>
                (<[dev := S (S n)]> (refs w)) ∧
    device w1 = device w ∧
    log w1 = log w ++ [EvCFRetain dev; EvCFRetain que].
Proof.
  intros Hc Hraw Hd Hq Hrd Hrq.
  eexists. split.
  { unfold C_MtlBackendContext_Construct.
    eapply run_bind; [by apply placement_new_run |].
    eapply run_bind; [by eapply CFRetain_run |].
    eapply run_bind.
    { unfold fDevice_reset.
      eapply run_bind;
        [apply load_MtlBackendContext_run; [done | apply lookup_insert_eq] |].
      eapply run_bind; [done | apply SkCFSafeRelease_null]. }
    eapply run_bind.
    { eapply (CFRetain_run que (if decide (dev = que) then S n else m)); [done |].
      simpl. case_decide; simplify_map_eq; done. }
    unfold fQueue_reset.
    eapply run_bind;
      [apply load_MtlBackendContext_run; [done | apply lookup_insert_eq] |].
    eapply run_bind; [done | apply SkCFSafeRelease_null]. }
  simpl. split_and!; try done.
  - by rewrite !insert_insert_eq.
  - case_decide; simplify_eq; [| done]. by simplify_map_eq.
  - by rewrite <- app_assoc.
Qed.

(** C7.  Constructing a MtlBackendContext over a live device and a live
    queue retains each of the two handles exactly once and stores them;
    destructing it releases each stored handle exactly once.  Construct
    followed at once by Destruct therefore leaves every platform reference
    count, and the storage, as they were. *)
Theorem MtlBackendContext_Construct_Destruct_balanced w context dev que n m :
  context ≠ nullptr → mem w !! context = Some Raw →
  dev ≠ 0 → que ≠ 0 →
  refs w !! dev = Some (S n) → refs w !! que = Some (S m) →
  ∃ w1 w2,
    C_MtlBackendContext_Construct context dev que w = Ok () w1 ∧
    C_MtlBackendContext_Destruct context w1 = Ok () w2 ∧
    mem w1 !! context
      = Some (VMtlBackendContext {| fDevice := dev; fQueue := que |}) ∧
    log w1 = log w ++ [EvCFRetain dev; EvCFRetain que] ∧
    log w2 = log w1 ++ [EvCFRelease que; EvCFRelease dev] ∧
    (∀ h, refcount w1 h
          = (refcount w h + (if decide (h = dev) then 1 else 0)
             + (if decide (h = que) then 1 else 0))%nat) ∧
    refs w2 = refs w ∧
    mem w2 = mem w.
Proof.
  intros Hc Hraw Hd Hq Hrd Hrq.
  destruct (C_MtlBackendContext_Construct_run w context dev que n m)
    as (w1 & Hrun & Hmem & Hrefs & _ & Hlog); try done.
  assert (Hcell : mem w1 !! context
            = Some (VMtlBackendContext {| fDevice := dev; fQueue := que |}))
    by (rewrite Hmem; apply lookup_insert_eq).
  set (k := if decide (dev = que) then S (S m) else S m) in *.
  exists w1. eexists. split; [done |]. split.
  { unfold C_MtlBackendContext_Destruct, MtlBackendContext_destroy.
    eapply run_bind; [by apply load_MtlBackendContext_run |].
    eapply run_bind.
    { apply (SkCFSafeRelease_run que k); [done |].
      rewrite Hrefs. apply lookup_insert_eq. }
    eapply run_bind; [| done].
    apply (SkCFSafeRelease_run dev (S n)); [done |].
    simpl. rewrite Hrefs. subst k.
    case_decide; by simplify_map_eq. }
  simpl_world. split_and!; try done.
  - by rewrite <- app_assoc.
  - intros h. unfold refcount. rewrite Hrefs, !lookup_insert. subst k.
    repeat case_decide; simplify_eq; rewrite ?Hrd, ?Hrq; simpl; lia.
  - rewrite Hrefs. subst k. apply map_eq. intros h.
    rewrite !lookup_insert.
    repeat case_decide; simplify_eq; try done.
  - rewrite Hmem. rewrite insert_insert_eq. by apply insert_id.
Qed.

(** *** Reading a BackendTexture *)

(** C10.  [C_BackendTexture_info] constructs, in result storage that held no
    object, a TextureInfo equal to the one the BackendTexture carries; it
    changes no other cell, no reference count and calls nothing.  Neither it
    nor [C_BackendTexture_dimensions] modifies the BackendTexture read. *)
Theorem C_BackendTexture_info_copies w self result bt :
  self ≠ nullptr → result ≠ nullptr →
  mem w !! self = Some (VBackendTexture bt) →
  mem w !! result = Some Raw →
  ∃ w',
    C_BackendTexture_info self result w = Ok () w' ∧
    mem w' !! result = Some (VTextureInfo (bt_info bt)) ∧
    mem w' !! self = Some (VBackendTexture bt) ∧
    (∀ p, p ≠ result → mem w' !! p = mem w !! p) ∧
    refs w' = refs w ∧ log w' = log w ∧ device w' = device w ∧
    C_BackendTexture_dimensions self w = Ok (bt_dimensions bt) w ∧
    C_BackendTexture_dimensions self w' = Ok (bt_dimensions bt) w'.
Proof.
  intros Hself Hresult Hbt Hraw.
  assert (self ≠ result) by congruence.
  eexists. split.
  { unfold C_BackendTexture_info.
    eapply run_bind; [by apply load_BackendTexture_run |].
    by apply placement_new_run. }
  simpl_world. split_and!; try done.
  - apply lookup_insert_eq.
  - by rewrite lookup_insert_ne.
  - intros p Hp. by rewrite lookup_insert_ne.
  - unfold C_BackendTexture_dimensions.
    eapply run_bind; [by apply load_BackendTexture_run | done].
  - unfold C_BackendTexture_dimensions.
    eapply run_bind; [| done].
    apply load_BackendTexture_run; [done |].
    simpl. by rewrite lookup_insert_ne.
Qed.

(** *** Factories *)

Lemma release_run (ok : bool) c w :
  ∃ p, release (if ok then Some c else None) w
       = Ok p (if ok then with_mem (<[p := c]>) w else w) ∧
       (p = nullptr ↔ ok = false) ∧
       (p ≠ nullptr → mem w !! p = None).
Proof.
  destruct (fresh_addr_spec w) as [Hnull Hfresh].
  destruct ok.
  - exists (fresh_addr w). by rewrite release_Some.
  - exists nullptr. by rewrite release_None.
Qed.

Lemma Context_makeRecorder_run w self c o :
  self ≠ nullptr → mem w !! self = Some (HContext c) →
  Context_makeRecorder self o w
  = Ok (if makeRecorder_ok c o
        then Some (HRecorder {| rec_context := self; rec_options := o;
                                rec_commands := [] |})
        else None)
       (with_log (EvMakeRecorder self o (makeRecorder_ok c o)) w).
Proof.
  intros Hself Hc. unfold Context_makeRecorder.
  eapply run_bind; [by apply load_Context_run | done].
Qed.

Lemma makeRecorder_release_run w self c o :
  self ≠ nullptr → mem w !! self = Some (HContext c) →
  ∃ p w',
    (r ← Context_makeRecorder self o; release r) w = Ok p w' ∧
    made_recorder w self c o p w'.
Proof.
  intros Hself Hc.
  destruct (release_run (makeRecorder_ok c o)
              (HRecorder {| rec_context := self; rec_options := o;
                            rec_commands := [] |})
              (with_log (EvMakeRecorder self o (makeRecorder_ok c o)) w))
    as (p & Hrel & Hnull & Hfresh).
  exists p. eexists. split.
  { eapply run_bind; [by apply Context_makeRecorder_run |]. apply Hrel. }
  unfold made_recorder, factory_result.
  destruct (makeRecorder_ok c o); simpl_world.
  - split_and!; try done.
    + intros Hp. split; [by apply Hfresh |]. apply lookup_insert_eq.
    + intros q Hq. by rewrite lookup_insert_ne.
  - split_and!; try done. intros Hp. destruct Hp. by apply Hnull.
Qed.

Lemma C_Context_makeRecorder_run w self c options o :
  self ≠ nullptr → mem w !! self = Some (HContext c) →
  options_arg w options o →
  ∃ p w',
    C_Context_makeRecorder self options w = Ok p w' ∧
    made_recorder w self c o p w'.
Proof.
  intros Hself Hc Ho.
  destruct (makeRecorder_release_run w self c o)
    as (p & w' & Hrun & Hpost); [done.. |].
  exists p, w'. split; [| done].
  unfold C_Context_makeRecorder. destruct o as [ro |]; simpl in Ho.
  - destruct Ho as [Hne Hro]. rewrite decide_True by done.
    eapply run_bind; [| exact Hrun].
    unfold load_RecorderOptions.
    eapply run_bind; [by apply load_run | done].
  - subst options. by rewrite decide_False by (by intros []).
Qed.

(** C3.  On a live Context, [C_Context_makeRecorder] with a null options
    pointer is defined (nothing is read through the null pointer) and makes
    the one call [Context::makeRecorder()], which selects the backend
    defaults; with a pointer to constructed RecorderOptions it makes the one
    call [Context::makeRecorder(options)] with their value.  Either way it
    returns null when Skia made no Recorder, and otherwise the address of a
    new Recorder bound to that Context. *)
Theorem C_Context_makeRecorder_options w self c :
  self ≠ nullptr → mem w !! self = Some (HContext c) →
  (∃ p w',
     C_Context_makeRecorder self nullptr w = Ok p w' ∧
     made_recorder w self c None p w') ∧
  (∀ options ro,
     options ≠ nullptr → mem w !! options = Some (VRecorderOptions ro) →
     ∃ p w',
       C_Context_makeRecorder self options w = Ok p w' ∧
       made_recorder w self c (Some ro) p w').
Proof.
  intros Hself Hc. split.
  - by apply C_Context_makeRecorder_run.
  - intros options ro Hne Hro. by apply C_Context_makeRecorder_run.
Qed.

Lemma ContextOptions_load_run p o w :
  p ≠ nullptr → mem w !! p = Some (VContextOptions o) →
  load_ContextOptions p w = Ok o w.
Proof.
  intros. unfold load_ContextOptions.
  eapply run_bind; [by apply load_run | done].
Qed.

Lemma release_factory_result (ok : bool) c e w :
  ∃ p w',
    release (if ok then Some c else None) (with_log e w) = Ok p w' ∧
    factory_result ok c w p w' ∧
    log w' = log w ++ [e] ∧
    (∀ q, q ≠ p → mem w' !! q = mem w !! q) ∧
    refs w' = refs w ∧ device w' = device w ∧
    (∀ q, is_Some (mem w !! q) → mem w' !! q = mem w !! q).
Proof.
  destruct (release_run ok c (with_log e w)) as (p & Hrel & Hnull & Hfresh).
  exists p. eexists. split; [exact Hrel |].
  unfold factory_result. destruct ok; simpl_world.
  - assert (Hp : p ≠ nullptr) by (intros Hp; by apply Hnull in Hp).
    specialize (Hfresh Hp). simpl in Hfresh.
    split_and!; try done.
    + intros _. split; [done |]. apply lookup_insert_eq.
    + intros q Hq. by rewrite lookup_insert_ne.
    + intros q [c' Hc']. rewrite lookup_insert_ne; [done |]. congruence.
  - split_and!; try done. intros Hp. destruct Hp. by apply Hnull.
Qed.

Lemma C_Context_MakeMetal_run w backendContext options bc o :
  backendContext ≠ nullptr → options ≠ nullptr →
  mem w !! backendContext = Some (VMtlBackendContext bc) →
  mem w !! options = Some (VContextOptions o) →
  ∃ p w',
    C_Context_MakeMetal backendContext options w = Ok p w' ∧
    factory_result (MakeMetal_ok bc o)
      (HContext {| ctx_backend := kMetal; ctx_queue := [] |}) w p w'.
Proof.
  intros Hb Ho Hbc Hopt.
  destruct (release_factory_result (MakeMetal_ok bc o)
              (HContext {| ctx_backend := kMetal; ctx_queue := [] |})
              (EvMakeMetal (MakeMetal_ok bc o)) w)
    as (p & w' & Hrel & Hres & _).
  exists p, w'. split; [| done].
  unfold C_Context_MakeMetal.
  eapply run_bind; [by apply load_MtlBackendContext_run |].
  eapply run_bind; [by apply ContextOptions_load_run |].
  eapply run_bind; [| exact Hrel]. done.
Qed.

Lemma C_Context_MakeVulkan_run w bc options o :
  options ≠ nullptr → mem w !! options = Some (VContextOptions o) →
  ∃ p w',
    C_Context_MakeVulkan (Some bc) options w = Ok p w' ∧
    factory_result (MakeVulkan_ok bc o)
      (HContext {| ctx_backend := kVulkan; ctx_queue := [] |}) w p w'.
Proof.
  intros Ho Hopt.
  destruct (release_factory_result (MakeVulkan_ok bc o)
              (HContext {| ctx_backend := kVulkan; ctx_queue := [] |})
              (EvMakeVulkan (MakeVulkan_ok bc o)) w)
    as (p & w' & Hrel & Hres & _).
  exists p, w'. split; [| done].
  unfold C_Context_MakeVulkan.
  eapply run_bind; [done |].
  eapply run_bind; [by apply ContextOptions_load_run |].
  eapply run_bind; [| exact Hrel]. done.
Qed.

(** One call of [C_GrDirectContext_MakeDawn]: [d] is the device the static
    points at afterwards. *)
Lemma C_GrDirectContext_MakeDawn_run w options :
  device_cached w →
  device w ≠ nullptr ∨ operator_new_ok w = true →
  ∃ p w',
    C_GrDirectContext_MakeDawn options w = Ok p w' ∧
    device w' ≠ nullptr ∧
    mem w' !! device w' = Some HWgpuDevice ∧
    (device w ≠ nullptr → device w' = device w) ∧
    (device w = nullptr → mem w !! device w' = None) ∧
    log w' = log w ++ [EvMakeDawn (device w') options (MakeDawn_ok options)] ∧
    factory_result (MakeDawn_ok options) HGrDirectContext w p w' ∧
    p ≠ device w' ∧
    (∀ q, q ≠ p → q ≠ device w' → mem w' !! q = mem w !! q) ∧
    refs w' = refs w.
Proof.
  intros Hdev Hroom.
  (* the world once the static is set *)
  set (w1 := if decide (device w = nullptr)
             then with_device (fresh_addr w)
                    (with_mem (<[fresh_addr w := HWgpuDevice]>) w)
             else w).
  destruct (fresh_addr_spec w) as [Hfnull Hffresh].
  assert (Hd1 : device w1 ≠ nullptr ∧ mem w1 !! device w1 = Some HWgpuDevice).
  { subst w1. case_decide as Hd; simpl_world.
    - split; [done | apply lookup_insert_eq].
    - destruct Hdev; done. }
  destruct Hd1 as [Hd1 Hcell1].
  destruct (release_factory_result (MakeDawn_ok options) HGrDirectContext
              (EvMakeDawn (device w1) options (MakeDawn_ok options)) w1)
    as (p & w' & Hrel & [Hnull Hnew] & Hlog & Hframe & Hrefs & Hdevice & Hkeep).
  assert (Hpd : p ≠ device w1).
  { intros ->. destruct (Hnew Hd1) as [Hnone _]. congruence. }
  exists p, w'. split.
  { unfold C_GrDirectContext_MakeDawn.
    eapply run_bind; [done |].
    eapply (run_bind _ _ _ () w1).
    { subst w1. case_decide; [| done].
      destruct Hroom as [Hset | Hroom]; [done |].
      eapply run_bind; [| done].
      unfold operator_new. by rewrite Hroom. }
    eapply run_bind; [done |].
    assert (Hload : load_WgpuDevice (device w1) w1 = Ok () w1).
    { unfold load_WgpuDevice.
      eapply run_bind; [by apply load_run | done]. }
    destruct options;
      (eapply run_bind; [exact Hload |];
       eapply run_bind; [| exact Hrel]; done). }
  rewrite Hdevice, Hlog, Hrefs. split_and!; try done.
  - by rewrite Hframe.
  - subst w1. intros Hne. by rewrite decide_False.
  - subst w1. intros Heq. by rewrite decide_True.
  - subst w1. case_decide; done.
  - split; [done |]. intros Hp. destruct (Hnew Hp) as [Hnone Hsome].
    split; [| done]. subst w1. case_decide; [| done].
    simpl_world. simpl in Hnone.
    destruct (decide (p = fresh_addr w)) as [-> |]; [done |].
    by rewrite lookup_insert_ne in Hnone.
  - intros q Hqp Hqd. rewrite Hframe by done.
    subst w1. case_decide; [| done].
    simpl_world. simpl in Hqd. by rewrite lookup_insert_ne.
  - subst w1. by case_decide.
Qed.

Lemma C_Recorder_snap_run w self r :
  self ≠ nullptr → mem w !! self = Some (HRecorder r) →
  ∃ p w',
    C_Recorder_snap self w = Ok p w' ∧
    factory_result (snap_ok r)
      (HRecording {| rcg_commands := rec_commands r; rcg_owner := None |})
      w p w' ∧
    p ≠ self ∧
    mem w' !! self = Some (HRecorder {| rec_context := rec_context r;
                                        rec_options := rec_options r;
                                        rec_commands := [] |}) ∧
    (∀ q, q ≠ self → is_Some (mem w !! q) → mem w' !! q = mem w !! q) ∧
    log w' = log w ++ [EvSnap self (snap_ok r)] ∧
    refs w' = refs w ∧ device w' = device w.
Proof.
  intros Hself Hr.
  set (idle := HRecorder {| rec_context := rec_context r;
                            rec_options := rec_options r;
                            rec_commands := [] |}).
  destruct (release_factory_result (snap_ok r)
              (HRecording {| rcg_commands := rec_commands r;
                             rcg_owner := None |})
              (EvSnap self (snap_ok r))
              (with_mem (<[self := idle]>) w))
    as (p & w' & Hrel & [Hnull Hnew] & Hlog & Hframe & Hrefs & Hdevice & Hkeep).
  simpl in *.
  assert (Hps : p ≠ self).
  { intros ->. destruct (Hnew Hself) as [Hnone _].
    by rewrite lookup_insert_eq in Hnone. }
  exists p, w'. split.
  { unfold C_Recorder_snap, Recorder_snap.
    eapply run_bind; [| exact Hrel].
    eapply run_bind; [by apply load_Recorder_run |].
    eapply run_bind; [done |].
    eapply run_bind; done. }
  split_and!; try done.
  - split; [done |]. intros Hp. destruct (Hnew Hp) as [Hnone Hsome].
    split; [| done]. by rewrite lookup_insert_ne in Hnone.
  - rewrite Hframe by done. apply lookup_insert_eq.
  - intros q Hqs Hq. rewrite Hkeep.
    + by rewrite lookup_insert_ne.
    + by rewrite lookup_insert_ne.
Qed.

(** The first call of [C_GrDirectContext_MakeDawn] in a process that is out
    of memory: [new wgpu::Device()] throws, and nothing catches it. *)
Lemma C_GrDirectContext_MakeDawn_throws w options e :
  C_GrDirectContext_MakeDawn options w = Throw e
  ↔ device w = nullptr ∧ operator_new_ok w = false.
Proof.
  unfold C_GrDirectContext_MakeDawn. split.
  - intros Hthrow.
    apply run_bind_Throw_inv in Hthrow as [Hthrow | (w0 & w1 & Hw & Hthrow)];
      [done |].
    inversion Hw; subst w0 w1; clear Hw.
    apply run_bind_Throw_inv in Hthrow as [Hthrow | (a & w1 & _ & Hthrow)].
    + case_decide as Hdev; [| done]. split; [done |].
      apply run_bind_Throw_inv in Hthrow as [Hthrow | (a & w1 & _ & Hthrow)];
        [| done].
      unfold operator_new in Hthrow. by destruct (operator_new_ok w).
    + exfalso. revert Hthrow. generalize w1 e. clear. no_throws.
  - intros [Hdev Hroom].
    eapply run_bind; [done |]. apply run_bind_Throw.
    rewrite decide_True by done. apply run_bind_Throw.
    unfold operator_new. destruct e. by rewrite Hroom.
Qed.

Lemma no_throw_entry {A} (m : M A) w : no_throw m → ∀ e, m w ≠ Throw e.
Proof. intros Hm e. apply Hm. Qed.

(** C5.  Each factory entry point, called with arguments that point at what
    they should, returns: the null pointer exactly when the Skia factory
    behind it produced nothing, and otherwise the address of the new object,
    which was not in memory before.  [C_Context_MakeMetal],
    [C_Context_MakeVulkan], [C_Context_makeRecorder] and [C_Recorder_snap]
    let no exception out, whatever their arguments.
    [C_GrDirectContext_MakeDawn] lets one out in exactly one case: the static
    is still null and [operator new] finds no memory for the device. *)
Theorem factories_return_null_iff_failed w :
  (∀ backendContext options,
     (∀ e, C_Context_MakeMetal backendContext options w ≠ Throw e) ∧
     ∀ bc o,
       backendContext ≠ nullptr → options ≠ nullptr →
       mem w !! backendContext = Some (VMtlBackendContext bc) →
       mem w !! options = Some (VContextOptions o) →
       ∃ p w',
         C_Context_MakeMetal backendContext options w = Ok p w' ∧
         factory_result (MakeMetal_ok bc o)
           (HContext {| ctx_backend := kMetal; ctx_queue := [] |}) w p w') ∧
  (∀ backendContext options,
     (∀ e, C_Context_MakeVulkan backendContext options w ≠ Throw e) ∧
     ∀ bc o,
       backendContext = Some bc →
       options ≠ nullptr → mem w !! options = Some (VContextOptions o) →
       ∃ p w',
         C_Context_MakeVulkan backendContext options w = Ok p w' ∧
         factory_result (MakeVulkan_ok bc o)
           (HContext {| ctx_backend := kVulkan; ctx_queue := [] |}) w p w') ∧
  (∀ options,
     (∀ e, C_GrDirectContext_MakeDawn options w = Throw e
           ↔ device w = nullptr ∧ operator_new_ok w = false) ∧
     (device_cached w →
      device w ≠ nullptr ∨ operator_new_ok w = true →
      ∃ p w',
        C_GrDirectContext_MakeDawn options w = Ok p w' ∧
        factory_result (MakeDawn_ok options) HGrDirectContext w p w')) ∧
  (∀ self options,
     (∀ e, C_Context_makeRecorder self options w ≠ Throw e) ∧
     ∀ c o,
       self ≠ nullptr → mem w !! self = Some (HContext c) →
       options_arg w options o →
       ∃ p w',
         C_Context_makeRecorder self options w = Ok p w' ∧
         factory_result (makeRecorder_ok c o)
           (HRecorder {| rec_context := self; rec_options := o;
                         rec_commands := [] |}) w p w') ∧
  (∀ self,
     (∀ e, C_Recorder_snap self w ≠ Throw e) ∧
     ∀ r,
       self ≠ nullptr → mem w !! self = Some (HRecorder r) →
       ∃ p w',
         C_Recorder_snap self w = Ok p w' ∧
         factory_result (snap_ok r)
           (HRecording {| rcg_commands := rec_commands r; rcg_owner := None |})
           w p w').
Proof.
  split_and!.
  - intros backendContext options. split; [apply no_throw_entry; no_throws |].
    intros. by eapply C_Context_MakeMetal_run.
  - intros backendContext options. split; [apply no_throw_entry; no_throws |].
    intros bc o -> Ho Hopt. by eapply C_Context_MakeVulkan_run.
  - intros options. split.
    { intros e. apply C_GrDirectContext_MakeDawn_throws. }
    intros Hdev Hroom.
    destruct (C_GrDirectContext_MakeDawn_run w options Hdev Hroom)
      as (p & w' & Hrun & _ & _ & _ & _ & _ & Hres & _).
    by exists p, w'.
  - intros self options. split; [apply no_throw_entry; no_throws |].
    intros c o Hself Hc Ho.
    destruct (C_Context_makeRecorder_run w self c options o)
      as (p & w' & Hrun & _ & Hres & _); [done.. |].
    by exists p, w'.
  - intros self. split; [apply no_throw_entry; no_throws |].
    intros r Hself Hr.
    destruct (C_Recorder_snap_run w self r)
      as (p & w' & Hrun & Hres & _); [done.. |].
    by exists p, w'.
Qed.

(** *** Submission *)

(** C2.  [C_Context_insertRecording] on a live Context and a live Recording
    is exactly [Context::insertRecording] on an InsertRecordingInfo naming
    that Recording: the flag the caller receives is the flag Skia answered,
    unchanged.  Whatever the flag, the Recording has passed to the Context:
    the Context holds it, and the pointer no longer names an object, so
    destructing it or inserting it again, into any Context, is undefined.
    The Context needs nothing more from the caller: it can submit and be
    destructed, and then nothing of the Recording is left behind. *)
Theorem C_Context_insertRecording_consumes w self recording c r :
  self ≠ nullptr → recording ≠ nullptr →
  mem w !! self = Some (HContext c) →
  mem w !! recording = Some (HRecording r) →
  let ok := insertRecording_ok c r in
  let taken := {| rcg_commands := rcg_commands r; rcg_owner := Some self |} in
  let c' := {| ctx_backend := ctx_backend c;
               ctx_queue := ctx_queue c ++ [(taken, ok)] |} in
  ∃ w',
    C_Context_insertRecording self recording w = Ok ok w' ∧
    Context_insertRecording self {| fRecording := recording |} w = Ok ok w' ∧
    log w' = log w ++ [EvInsertRecording self recording ok] ∧
    mem w' = <[self := HContext c']> (delete recording (mem w)) ∧
    refs w' = refs w ∧ device w' = device w ∧
    mem w' !! recording = None ∧
    C_Recording_Destruct recording w' = UB ∧
    (∀ self', C_Context_insertRecording self' recording w' = UB) ∧
    (∀ syncToCpu, ∃ w'',
       C_Context_submit self syncToCpu w' = Ok () w'' ∧
       mem w'' = <[self := HContext {| ctx_backend := ctx_backend c;
                                       ctx_queue := [] |}]>
                   (delete recording (mem w))) ∧
    (∃ w'',
       C_Context_Destruct self w' = Ok () w'' ∧
       mem w'' = delete self (delete recording (mem w))).
Proof.
  intros Hself Hrec Hc Hr ok taken c'.
  assert (Hne : self ≠ recording) by congruence.
  set (w' := with_mem (<[self := HContext c']>)
               (with_mem (delete recording)
                  (with_log (EvInsertRecording self recording ok) w))).
  assert (Hrun : Context_insertRecording self {| fRecording := recording |} w
                 = Ok ok w').
  { unfold Context_insertRecording. simpl.
    eapply run_bind; [by apply load_Context_run |].
    eapply run_bind; [by apply load_Recording_run |].
    fold ok.
    eapply run_bind; [done |].
    eapply run_bind; [done |].
    eapply run_bind; done. }
  assert (Hgone : mem w' !! recording = None).
  { subst w'. simpl. rewrite lookup_insert_ne by done.
    apply lookup_delete_eq. }
  assert (Hctx : mem w' !! self = Some (HContext c')).
  { subst w'. simpl. apply lookup_insert_eq. }
  exists w'. split_and!; try done.
  - unfold C_Recording_Destruct, delete_. rewrite decide_False by done.
    apply run_bind_UB. unfold load. by rewrite decide_False, Hgone.
  - intros self'. unfold C_Context_insertRecording, Context_insertRecording.
    simpl. destruct (load_Context self' w') as [c1 w1 | | e] eqn:Hload.
    + eapply run_bind; [exact Hload |].
      assert (w1 = w') as ->.
      { unfold load_Context in Hload.
        apply run_bind_inv in Hload as (x & w2 & Hl & Hk).
        apply load_inv in Hl as (_ & _ & ->).
        destruct x; by inversion Hk. }
      apply run_bind_UB. unfold load_Recording. apply run_bind_UB.
      unfold load. by rewrite decide_False, Hgone.
    + by apply run_bind_UB.
    + exfalso. revert Hload. generalize w' e. clear. no_throws.
  - intros syncToCpu. eexists. split.
    + unfold C_Context_submit, Context_submit.
      eapply run_bind; [| done].
      eapply run_bind; [by apply load_Context_run |].
      eapply run_bind; [done |].
      eapply run_bind; done.
    + subst w'. simpl. by rewrite insert_insert_eq.
  - eexists. split.
    + unfold C_Context_Destruct, delete_. rewrite decide_False by done.
      eapply run_bind; [by apply load_run | done].
    + subst w'. simpl. by rewrite delete_insert_eq.
Qed.

(** *** Overwriting a descriptor in place *)

Lemma CFRetain_live h w :
  live w h →
  CFRetain h w
  = Ok h (with_log (EvCFRetain h) (with_refs (<[h := S (refcount w h)]>) w)).
Proof.
  intros [Hh Hn]. unfold refcount in *.
  destruct (refs w !! h) as [[| n] |] eqn:Hl; simpl in *; try lia.
  by apply CFRetain_run.
Qed.

Lemma CFRelease_live h w :
  live w h →
  CFRelease h w
  = Ok () (with_log (EvCFRelease h)
             (with_refs (<[h := Nat.pred (refcount w h)]>) w)).
Proof.
  intros [Hh Hn]. unfold refcount in *.
  destruct (refs w !! h) as [[| n] |] eqn:Hl; simpl in *; try lia.
  by apply CFRelease_run.
Qed.

Lemma refcount_insert w h k h' :
  default O (<[h := k]> (refs w) !! h')
  = if decide (h' = h) then k else refcount w h'.
Proof.
  unfold refcount. rewrite lookup_insert.
  repeat case_decide; simplify_eq; done.
Qed.

Lemma occurrences_nil h : occurrences h [] = O.
Proof. done. Qed.

Lemma occurrences_singleton h h' :
  occurrences h [h'] = if decide (h' = h) then 1%nat else O.
Proof.
  unfold occurrences. rewrite filter_cons, filter_nil. by case_decide.
Qed.

Lemma BackendTexture_acquire_run w v :
  Forall (live w) (held v) →
  ∃ w',
    BackendTexture_acquire v w = Ok v w' ∧
    mem w' = mem w ∧ device w' = device w ∧
    log w' = log w ++ (EvCFRetain <$> held v) ∧
    (∀ h, refcount w' h = (refcount w h + occurrences h (held v))%nat).
Proof.
  unfold BackendTexture_acquire, held. intros Hlive.
  destruct (bt_retained v).
  - apply Forall_cons in Hlive as [Hlive _]. eexists. split.
    { eapply run_bind; [by apply CFRetain_live | done]. }
    simpl_world. split_and!; try done.
    intros h. rewrite occurrences_singleton.
    unfold refcount at 1. simpl. rewrite refcount_insert.
    repeat case_decide; simplify_eq; lia.
  - exists w. simpl. rewrite app_nil_r. split_and!; try done.
    all: intros h; rewrite occurrences_nil; lia.
Qed.

Lemma BackendTexture_drop_run w old :
  Forall (live w) (held old) →
  ∃ w',
    BackendTexture_drop old w = Ok () w' ∧
    mem w' = mem w ∧ device w' = device w ∧
    log w' = log w ++ (EvCFRelease <$> held old) ∧
    (∀ h, (refcount w' h + occurrences h (held old))%nat = refcount w h).
Proof.
  unfold BackendTexture_drop, held. intros Hlive.
  destruct (bt_retained old).
  - apply Forall_cons in Hlive as [Hlive _]. eexists. split.
    { by apply CFRelease_live. }
    simpl_world. split_and!; try done.
    intros h. rewrite occurrences_singleton.
    unfold refcount at 1. simpl. rewrite refcount_insert.
    destruct Hlive as [_ Hpos].
    repeat case_decide; simplify_eq; lia.
  - exists w. simpl. rewrite app_nil_r. split_and!; try done.
    all: intros h; rewrite occurrences_nil; lia.
Qed.

Lemma make_assign_run w self old v api :
  self ≠ nullptr → mem w !! self = Some (VBackendTexture old) →
  Forall (live w) (held v) → Forall (live w) (held old) →
  ∃ w',
    (v' ← (emit (EvMakeTexture api (BackendTexture_isValid v));;
           BackendTexture_acquire v);
     BackendTexture_assign self v') w = Ok () w' ∧
    overwritten w self old v api w'.
Proof.
  intros Hself Hold Hv Ho.
  set (w1 := with_log (EvMakeTexture api (BackendTexture_isValid v)) w).
  destruct (BackendTexture_acquire_run w1 v)
    as (w2 & Hacq & Hmem2 & Hdev2 & Hlog2 & Hrc2); [done |].
  destruct (BackendTexture_drop_run w2 old)
    as (w3 & Hdrop & Hmem3 & Hdev3 & Hlog3 & Hrc3).
  { eapply Forall_impl; [exact Ho |]. intros h [Hh Hpos].
    split; [done |]. rewrite Hrc2.
    change (refcount w1 h) with (refcount w h). lia. }
  exists (with_mem (<[self := VBackendTexture v]>) w3). split.
  { eapply run_bind.
    { eapply run_bind; [done | exact Hacq]. }
    unfold BackendTexture_assign.
    eapply run_bind;
      [apply load_BackendTexture_run; [done | by rewrite Hmem2] |].
    eapply run_bind; [exact Hdrop | done]. }
  unfold overwritten. simpl_world. split_and!.
  - by rewrite Hmem3, Hmem2.
  - rewrite Hmem3, Hmem2. simpl. rewrite dom_insert_L.
    apply elem_of_dom_2 in Hold. set_solver.
  - rewrite Hlog3, Hlog2. simpl. by rewrite <- !app_assoc.
  - intros h. specialize (Hrc2 h). specialize (Hrc3 h).
    change (refcount w1 h) with (refcount w h) in Hrc2.
    change (refcount _ h) with (refcount w3 h) at 1.
    lia.
  - by rewrite Hdev3, Hdev2.
Qed.

Lemma assign_unconstructed (m : M BackendTexture) w self :
  no_throw m →
  (∀ a w', m w = Ok a w' → mem w' = mem w) →
  (∀ bt, mem w !! self ≠ Some (VBackendTexture bt)) →
  (v ← m; BackendTexture_assign self v) w = UB.
Proof.
  intros Hno Hm Hself. unfold mbind at 1, M_bind.
  destruct (m w) as [a w' | | e] eqn:Hrun; [| done | by destruct (Hno w e)].
  specialize (Hm a w' eq_refl).
  unfold BackendTexture_assign, load_BackendTexture, load.
  unfold mbind, M_bind. case_decide; [done |]. rewrite Hm.
  destruct (mem w !! self) as [[] |] eqn:Hcell; try done.
  by destruct (Hself bt).
Qed.

Lemma factory_keeps_mem e v w a w' :
  (emit e;; BackendTexture_acquire v) w = Ok a w' → mem w' = mem w.
Proof.
  intros Hrun. apply run_bind_inv in Hrun as (? & w1 & Hemit & Hacq).
  inversion Hemit; subst. unfold BackendTexture_acquire in Hacq.
  destruct (bt_retained v); [| by inversion Hacq].
  apply run_bind_inv in Hacq as (? & w2 & Hret & Hret').
  inversion Hret'; subst. unfold CFRetain in Hret.
  case_decide; [done |].
  destruct (refs _ !! _) as [[| n] |]; try done. by inversion Hret.
Qed.

Lemma load_VulkanTextureInfo_inv p i w w' :
  load_VulkanTextureInfo p w = Ok i w' →
  p ≠ nullptr ∧ mem w !! p = Some (HVulkanTextureInfo i) ∧ w' = w.
Proof.
  unfold load_VulkanTextureInfo. intros Hrun.
  apply run_bind_inv in Hrun as (c & w1 & Hload & Hk).
  apply load_inv in Hload as (Hp & Hc & ->).
  destruct c; inversion Hk; by subst.
Qed.

(** C8.  Each backend-specific Make entry point overwrites a descriptor that
    is already constructed, where it is: the cell at [self] takes the value
    the factory built and no cell is added or removed.  For a
    BackendTexture the assignment gives back, exactly once, each platform
    reference the old value held, after the factory took the references of
    the new value and before the new value is stored.  On a target that is
    not a constructed descriptor of the right type the call is undefined. *)
Theorem Make_overwrites_in_place w self :
  (∀ texture old,
     self ≠ nullptr → mem w !! self = Some (VTextureInfo old) →
     let v := TextureInfos_MakeMetal_value texture in
     ∃ w',
       C_TextureInfo_MakeMetal self texture w = Ok () w' ∧
       mem w' = <[self := VTextureInfo v]> (mem w) ∧
       dom (mem w') = dom (mem w) ∧
       log w' = log w ++ [EvMakeTexture kMetal (TextureInfo_isValid v)] ∧
       refs w' = refs w) ∧
  (∀ texture,
     (∀ ti, mem w !! self ≠ Some (VTextureInfo ti)) →
     C_TextureInfo_MakeMetal self texture w = UB) ∧
  (∀ d texture old,
     self ≠ nullptr → mem w !! self = Some (VBackendTexture old) →
     let v := BackendTextures_MakeMetal_value d texture in
     Forall (live w) (held v) → Forall (live w) (held old) →
     ∃ w',
       C_BackendTexture_MakeMetal self (Some d) texture w = Ok () w' ∧
       overwritten w self old v kMetal w') ∧
  (∀ dimensions texture,
     (∀ bt, mem w !! self ≠ Some (VBackendTexture bt)) →
     C_BackendTexture_MakeMetal self dimensions texture w = UB) ∧
  (∀ d info i layout queueFamilyIndex image a old,
     self ≠ nullptr → mem w !! self = Some (VBackendTexture old) →
     info ≠ nullptr → mem w !! info = Some (HVulkanTextureInfo i) →
     let v := BackendTextures_MakeVulkan_value d i layout queueFamilyIndex
                image a in
     Forall (live w) (held v) → Forall (live w) (held old) →
     ∃ w',
       C_BackendTexture_MakeVulkan self (Some d) info layout queueFamilyIndex
         image (Some a) w = Ok () w' ∧
       overwritten w self old v kVulkan w') ∧
  (∀ dimensions info layout queueFamilyIndex image alloc,
     (∀ bt, mem w !! self ≠ Some (VBackendTexture bt)) →
     C_BackendTexture_MakeVulkan self dimensions info layout queueFamilyIndex
       image alloc w = UB).
Proof.
  split_and!.
  - intros texture old Hself Hold v. eexists. split.
    { unfold C_TextureInfo_MakeMetal, TextureInfos_MakeMetal.
      eapply run_bind; [eapply run_bind; done |].
      unfold TextureInfo_assign.
      eapply run_bind; [by apply load_TextureInfo_run | done]. }
    simpl_world. split_and!; try done.
    rewrite dom_insert_L. apply elem_of_dom_2 in Hold. set_solver.
  - intros texture Hself.
    unfold C_TextureInfo_MakeMetal, TextureInfos_MakeMetal.
    eapply run_bind; [eapply run_bind; done |].
    unfold TextureInfo_assign, load_TextureInfo, load.
    unfold mbind, M_bind. case_decide; [done |]. simpl.
    destruct (mem w !! self) as [[] |] eqn:Hcell; try done.
    by destruct (Hself ti).
  - intros d texture old Hself Hold v Hv Ho.
    destruct (make_assign_run w self old v kMetal) as (w' & Hrun & Hpost);
      [done.. |].
    exists w'. split; [| done].
    unfold C_BackendTexture_MakeMetal.
    eapply run_bind; [done |]. exact Hrun.
  - intros dimensions texture Hself.
    unfold C_BackendTexture_MakeMetal.
    destruct dimensions as [d |]; [| done].
    eapply run_bind; [done |].
    apply assign_unconstructed; [no_throws | | done].
    intros a w'. apply factory_keeps_mem.
  - intros d info i layout queueFamilyIndex image a old
      Hself Hold Hinfo Hi v Hv Ho.
    destruct (make_assign_run w self old v kVulkan) as (w' & Hrun & Hpost);
      [done.. |].
    exists w'. split; [| done].
    unfold C_BackendTexture_MakeVulkan.
    eapply run_bind; [done |].
    eapply run_bind.
    { unfold load_VulkanTextureInfo.
      eapply run_bind; [by apply load_run | done]. }
    eapply run_bind; [done |]. exact Hrun.
  - intros dimensions info layout queueFamilyIndex image alloc Hself.
    unfold C_BackendTexture_MakeVulkan.
    destruct dimensions as [d |]; [| done].
    eapply run_bind; [done |].
    destruct (load_VulkanTextureInfo info w) as [i w1 | | e] eqn:Hload;
      [| by apply run_bind_UB |].
    2: { exfalso. revert Hload. generalize w e. clear. no_throws. }
    eapply run_bind; [exact Hload |].
    apply load_VulkanTextureInfo_inv in Hload as (_ & _ & ->).
    destruct alloc as [a |]; [| done].
    eapply run_bind; [done |].
    apply assign_unconstructed; [no_throws | | done].
    intros b w'. apply factory_keeps_mem.
Qed.

(** *** Snapping a Recorder *)

Lemma record_commands_run cmds w self r :
  self ≠ nullptr → mem w !! self = Some (HRecorder r) →
  ∃ w',
    record_commands self cmds w = Ok () w' ∧
    mem w' = <[self := HRecorder (recorder_with r (rec_commands r ++ cmds))]>
               (mem w) ∧
    log w' = log w.
Proof.
  intros Hself. revert w r.
  induction cmds as [| cmd cmds IH]; intros w r Hr.
  - exists w. split_and!; try done. unfold recorder_with.
    rewrite app_nil_r. destruct r. symmetry. by apply insert_id.
  - set (r1 := recorder_with r (rec_commands r ++ [cmd])).
    destruct (IH (with_mem (<[self := HRecorder r1]>) w) r1)
      as (w' & Hrun & Hmem & Hlog); [apply lookup_insert_eq |].
    exists w'. split_and!; try done.
    + simpl. eapply run_bind; [| exact Hrun].
      unfold record_command.
      eapply run_bind; [by apply load_Recorder_run | done].
    + rewrite Hmem. simpl. rewrite insert_insert_eq.
      unfold recorder_with. simpl. by rewrite <- app_assoc.
Qed.

Lemma snap_session_run batches w self r :
  self ≠ nullptr → mem w !! self = Some (HRecorder r) →
  ∃ ps w',
    snap_session self batches w = Ok ps w' ∧
    Forall2 (snapped w w' r) ps (captured r batches) ∧
    NoDup (filter (λ p, p ≠ nullptr) ps) ∧
    (∃ r', mem w' !! self = Some (HRecorder r') ∧
           rec_context r' = rec_context r ∧ rec_options r' = rec_options r ∧
           rec_commands r' = match batches with
                             | [] => rec_commands r
                             | _ :: _ => []
                             end) ∧
    (∀ q, q ≠ self → is_Some (mem w !! q) → mem w' !! q = mem w !! q).
Proof.
  intros Hself. revert w r.
  induction batches as [| b bs IH]; intros w r Hr.
  - exists [], w.
    split_and!; [done | constructor | constructor | by exists r | done].
  - destruct (record_commands_run b w self r) as (w1 & Hrec & Hmem1 & _);
      [done.. |].
    set (r1 := recorder_with r (rec_commands r ++ b)) in *.
    destruct (C_Recorder_snap_run w1 self r1)
      as (p & w2 & Hsnap & [Hnull Hnew] & Hps & Hidle & Hframe2 & _);
      [done | rewrite Hmem1; apply lookup_insert_eq |].
    set (r2 := {| rec_context := rec_context r1; rec_options := rec_options r1;
                  rec_commands := [] |}) in *.
    destruct (IH w2 r2 Hidle)
      as (ps & w' & Hrun & Hall & Hdup & (r' & Hr' & Hctx & Hopt & Hcmds) & Hframe).
    assert (Hw1 : ∀ q, q ≠ self → mem w1 !! q = mem w !! q).
    { intros q Hq. rewrite Hmem1. by rewrite lookup_insert_ne. }
    (* the tail's pointers were free when the first snap returned *)
    assert (Htail : ∀ q, q ∈ ps → q ≠ nullptr → mem w2 !! q = None).
    { intros q Hq Hqn.
      apply list_elem_of_lookup in Hq as [i Hi].
      destruct (Forall2_lookup_l _ _ _ _ _ Hall Hi) as (cmds & _ & _ & Hq).
      by apply Hq. }
    exists (p :: ps), w'. split_and!.
    + simpl. eapply run_bind; [exact Hrec |].
      eapply run_bind; [exact Hsnap |].
      eapply run_bind; [exact Hrun | done].
    + simpl. constructor.
      * split; [done |]. intros Hp. destruct (Hnew Hp) as [Hnone Hsome].
        assert (p ≠ self) by done.
        split; [by rewrite <- Hw1 |].
        rewrite Hframe; [done.. |]. by rewrite Hsome.
      * change (captured r2 bs) with
          (match bs with [] => [] | b' :: bs' => b' :: bs' end) in Hall.
        replace (match bs with [] => [] | b' :: bs' => b' :: bs' end)
          with bs in Hall by (by destruct bs).
        eapply Forall2_impl; [exact Hall |].
        intros q cmds [Hqnull Hqnew]. split; [done |].
        intros Hq. destruct (Hqnew Hq) as [Hnone Hsome].
        split; [| done].
        assert (q ≠ self) by (intros ->; congruence).
        destruct (mem w !! q) as [c |] eqn:Hc; [| done].
        assert (Hc1 : mem w1 !! q = Some c) by (by rewrite Hw1).
        rewrite Hframe2 in Hnone by done. congruence.
    + rewrite filter_cons. case_decide as Hp; [| done].
      constructor; [| done].
      intros Hin. apply list_elem_of_filter in Hin as [_ Hin].
      destruct (Hnew Hp) as [_ Hsome].
      specialize (Htail p Hin Hp). congruence.
    + exists r'. split_and!; try done. rewrite Hcmds. by destruct bs.
    + intros q Hq [c Hc].
      assert (Hc1 : mem w1 !! q = Some c) by (by rewrite Hw1).
      assert (Hc2 : mem w2 !! q = Some c) by (by rewrite Hframe2).
      rewrite Hframe by done. congruence.
Qed.

Lemma filter_all {A} (P : A → Prop) `{∀ x, Decision (P x)} (l : list A) :
  Forall P l → filter P l = l.
Proof.
  induction 1 as [| x l Hx Hl IH]; [done |].
  by rewrite filter_cons_True, IH.
Qed.

(** C9, as the code has it.  A session of snaps on a live Recorder is
    defined whatever is recorded in between.  Each snap returns null exactly
    when Skia made no Recording, and otherwise a pointer to a new Recording,
    owned by the caller, of exactly the commands recorded since the previous
    snap (since creation, for the first).  The non-null pointers are distinct
    from one another; when every snap succeeds, the N snaps give N distinct
    non-null pointers.  After the session the Recorder is live, bound to the
    same Context, has nothing pending, and a further session is defined. *)
Theorem snap_session_fresh_recordings batches w self r :
  self ≠ nullptr → mem w !! self = Some (HRecorder r) →
  ∃ ps w',
    snap_session self batches w = Ok ps w' ∧
    Forall2 (snapped w w' r) ps (captured r batches) ∧
    NoDup (filter (λ p, p ≠ nullptr) ps) ∧
    ((∀ r', snap_ok r' = true) →
     NoDup ps ∧ (nullptr ∉ ps) ∧ length ps = length batches) ∧
    (∃ r', mem w' !! self = Some (HRecorder r') ∧
           rec_context r' = rec_context r ∧ rec_options r' = rec_options r ∧
           rec_commands r' = match batches with
                             | [] => rec_commands r
                             | _ :: _ => []
                             end) ∧
    (∀ more, ∃ ps2 w2, snap_session self more w' = Ok ps2 w2).
Proof.
  intros Hself Hr.
  destruct (snap_session_run batches w self r)
    as (ps & w' & Hrun & Hall & Hdup & (r' & Hr' & Hrest) & _); [done.. |].
  exists ps, w'. split_and!; try done.
  - intros Hok.
    assert (Hnn : Forall (λ p, p ≠ nullptr) ps).
    { apply list.Forall_forall. intros p Hp.
      apply list_elem_of_lookup in Hp as [i Hi].
      destruct (Forall2_lookup_l _ _ _ _ _ Hall Hi)
        as (cmds & _ & [Hnull _]).
      intros Heq. apply Hnull in Heq. by rewrite Hok in Heq. }
    split_and!.
    + by rewrite <- (filter_all _ ps Hnn).
    + intros Hin. by eapply list.Forall_forall in Hnn.
    + apply Forall2_length in Hall. rewrite Hall. by destruct batches.
  - by exists r'.
  - intros more.
    destruct (snap_session_run more w' self r')
      as (ps2 & w2 & Hrun2 & _); [done.. |].
    by exists ps2, w2.
Qed.

End Properties.

(** ** What every call leaves alone *)

(** Takes a defined run of one call apart, down to the world it ends in. *)
Ltac invert_exec H :=
  simpl in H; autounfold with bridge in H;
  unfold mbind, M_bind, mret, M_ret in H; simpl in H;
  try (simplify_eq/=);
  repeat (case_match; simplify_eq/=; try done);
  repeat match goal with
    | Hc : is_Context ?c = true |- _ => is_var c; destruct c; try done
    | Hc : is_Recorder ?c = true |- _ => is_var c; destruct c; try done
    | Hc : is_Recording ?c = true |- _ => is_var c; destruct c; try done
    | Hc : is_VulkanTextureInfo ?c = true |- _ =>
        is_var c; destruct c; try done
    end;
  repeat match goal with
    | |- context [fresh_for ?m] =>
        let Hn := fresh "Hn" in
        let Hf := fresh "Hf" in
        destruct (fresh_for_spec m) as [Hn Hf];
        generalize dependent (fresh_for m); intros
    end;
  repeat match goal with
    | Hd : decide _ = _ |- _ => clear Hd
    | Hr : context [refs _] |- _ => clear Hr
    end;
  try match goal with
    | Hs : <[?a := HColorSpace (Pos.succ ?n)]> _ !! ?a = Some (HColorSpace 1)
      |- _ =>
        rewrite lookup_insert_eq in Hs; injection Hs as Hs;
        by destruct (Pos.succ_not_1 n)
    end.


Section Traces.
Context `{Backend}.


(** A call that does not populate the storage at [p] cannot make the
    descriptor there valid; a call that populates it and leaves it valid is
    one whose factory succeeded. *)
Lemma exec_validity c w w' p :
  exec c w = Some w' →
  (∃ x, mem w' !! p = Some x ∧ cell_valid x = true) →
  (populates p c = false ∧ ∃ x, mem w !! p = Some x ∧ cell_valid x = true) ∨
  (populates p c = true ∧ built_valid c w = true).
Proof.
  intros Hexec (x & Hx & Hv).
  destruct c; invert_exec Hexec.
  all: simpl in *.
  all: rewrite ?lookup_insert, ?lookup_delete in Hx.
  all: repeat case_decide; simplify_eq/=; try done.
  all: try (left; split; [done | by eauto]).
  all: try (left; split; [by rewrite bool_decide_eq_false | by eauto]).
  all: by right.
Qed.

(** A descriptor stays as it is over every call that neither populates nor
    destructs it. *)
Lemma exec_keeps_descriptor c w w' p x d :
  exec c w = Some w' →
  mem w !! p = Some x →
  (∃ ti, x = VTextureInfo ti ∧ d = Call_TextureInfo_Destruct p) ∨
  (∃ bt, x = VBackendTexture bt ∧ d = Call_BackendTexture_Destruct p) →
  populates p c = false → c ≠ d →
  mem w' !! p = Some x.
Proof.
  intros Hexec Hx Hkind Hpop Hd.
  destruct c; invert_exec Hexec.
  all: simpl in *.
  all: try rewrite bool_decide_eq_false in Hpop.
  all: rewrite ?lookup_insert, ?lookup_delete in *.
  all: repeat case_decide; simplify_eq/=; try done.
  all: destruct Hkind as [(? & ? & ?) | (? & ? & ?)]; simplify_eq/=; done.
Qed.

Lemma run_cons c cs w w' :
  run (c :: cs) w = Some w' ↔ ∃ w1, exec c w = Some w1 ∧ run cs w1 = Some w'.
Proof.
  simpl. destruct (exec c w) as [w1 |]; naive_solver.
Qed.






Lemma run_validity cs w w' p :
  run cs w = Some w' →
  (∃ x, mem w' !! p = Some x ∧ cell_valid x = true) →
  (Forall (λ c, populates p c = false) cs ∧
   ∃ x, mem w !! p = Some x ∧ cell_valid x = true) ∨
  (∃ cs1 c cs2 w1,
     cs = cs1 ++ c :: cs2 ∧ run cs1 w = Some w1 ∧
     populates p c = true ∧ built_valid c w1 = true ∧
     Forall (λ c, populates p c = false) cs2).
Proof.
  revert w. induction cs as [| c cs IH]; intros w Hrun Hvalid.
  - inversion Hrun; subst. left. by split.
  - apply run_cons in Hrun as (w1 & Hexec & Hrun).
    destruct (IH w1 Hrun Hvalid)
      as [[Hnone Hvalid1] | (cs1 & c0 & cs2 & w2 & -> & Hrun1 & Hpop & Hok & Hrest)].
    + destruct (exec_validity c w w1 p Hexec Hvalid1)
        as [[Hpop Hvalid0] | [Hpop Hok]].
      * left. split; [by constructor | done].
      * right. by exists [], c, cs, w.
    + right. exists (c :: cs1), c0, cs2, w2. split_and!; try done.
      apply run_cons. by exists w1.
Qed.

Lemma run_keeps_descriptor cs w w' p x d :
  run cs w = Some w' →
  mem w !! p = Some x →
  (∃ ti, x = VTextureInfo ti ∧ d = Call_TextureInfo_Destruct p) ∨
  (∃ bt, x = VBackendTexture bt ∧ d = Call_BackendTexture_Destruct p) →
  Forall (λ c, populates p c = false) cs → d ∉ cs →
  mem w' !! p = Some x.
Proof.
  revert w. induction cs as [| c cs IH]; intros w Hrun Hx Hkind Hpop Hd.
  - by inversion Hrun; subst.
  - apply run_cons in Hrun as (w1 & Hexec & Hrun).
    apply Forall_cons in Hpop as [Hpop Hrest].
    apply (IH w1); try done.
    + eapply exec_keeps_descriptor; try done.
      intros ->. apply Hd. left.
    + intros Hin. apply Hd. by right.
Qed.


(** *** The device of the Dawn factory *)


(** *** Validity of descriptors *)

Lemma C_TextureInfo_isValid_run w self ti :
  self ≠ nullptr → mem w !! self = Some (VTextureInfo ti) →
  C_TextureInfo_isValid self w = Ok (TextureInfo_isValid ti) w.
Proof.
  intros Hself Hti. unfold C_TextureInfo_isValid.
  eapply run_bind; [by apply load_TextureInfo_run | done].
Qed.

Lemma C_BackendTexture_isValid_run w self bt :
  self ≠ nullptr → mem w !! self = Some (VBackendTexture bt) →
  C_BackendTexture_isValid self w = Ok (BackendTexture_isValid bt) w.
Proof.
  intros Hself Hbt. unfold C_BackendTexture_isValid.
  eapply run_bind; [by apply load_BackendTexture_run | done].
Qed.

Lemma reports_valid_iff w p :
  reports_valid w p
  ↔ p ≠ nullptr ∧ ∃ x, mem w !! p = Some x ∧ cell_valid x = true.
Proof.
  unfold reports_valid, C_TextureInfo_isValid, C_BackendTexture_isValid,
    load_TextureInfo, load_BackendTexture, load.
  unfold mbind, M_bind, mret, M_ret, undefined. split.
  - intros [Hv | Hv]; case_decide; try done;
      destruct (mem w !! p) as [[] |]; simplify_eq/=; eauto.
  - intros (Hp & x & Hx & Hv). rewrite decide_False, Hx by done.
    destruct x; simplify_eq/=; rewrite Hv; auto.
Qed.

(** C4.  A TextureInfo or BackendTexture that has just been default
    constructed reports itself invalid, and goes on doing so, whatever calls
    are made, for as long as no call populates it and it is not destructed.
    Once a Make entry point has overwritten it, it reports the validity of
    what the backend factory built.  After a default construction neither
    isValid query answers true on that storage before a call has populated
    it.  And whenever a query answers true at the end of a sequence of calls,
    either no call of the sequence populated that storage and it was valid
    from the start, or the last call that populated it was one whose backend
    factory succeeded. *)
Theorem valid_only_after_factory :
  (∀ w ti,
     ti ≠ nullptr → mem w !! ti = Some Raw →
     ∃ w', C_TextureInfo_Construct ti w = Ok () w' ∧
           C_TextureInfo_isValid ti w' = Ok false w' ∧
           ∀ cs w'',
             run cs w' = Some w'' →
             Forall (λ c, populates ti c = false) cs →
             Call_TextureInfo_Destruct ti ∉ cs →
             C_TextureInfo_isValid ti w'' = Ok false w'') ∧
  (∀ w bt,
     bt ≠ nullptr → mem w !! bt = Some Raw →
     ∃ w', C_BackendTexture_Construct bt w = Ok () w' ∧
           C_BackendTexture_isValid bt w' = Ok false w' ∧
           ∀ cs w'',
             run cs w' = Some w'' →
             Forall (λ c, populates bt c = false) cs →
             Call_BackendTexture_Destruct bt ∉ cs →
             C_BackendTexture_isValid bt w'' = Ok false w'') ∧
  (∀ w self texture old,
     self ≠ nullptr → mem w !! self = Some (VTextureInfo old) →
     ∃ w', C_TextureInfo_MakeMetal self texture w = Ok () w' ∧
           C_TextureInfo_isValid self w'
           = Ok (TextureInfo_isValid (TextureInfos_MakeMetal_value texture))
                w') ∧
  (∀ w self d texture old,
     self ≠ nullptr → mem w !! self = Some (VBackendTexture old) →
     let v := BackendTextures_MakeMetal_value d texture in
     Forall (live w) (held v) → Forall (live w) (held old) →
     ∃ w', C_BackendTexture_MakeMetal self (Some d) texture w = Ok () w' ∧
           C_BackendTexture_isValid self w'
           = Ok (BackendTexture_isValid v) w') ∧
  (∀ c cs w w' p,
     c = Call_TextureInfo_Construct p ∨ c = Call_BackendTexture_Construct p →
     run (c :: cs) w = Some w' →
     Forall (λ c, populates p c = false) cs →
     ¬ reports_valid w' p) ∧
  (∀ cs w w' p,
     run cs w = Some w' → reports_valid w' p →
     (Forall (λ c, populates p c = false) cs ∧ reports_valid w p) ∨
     (∃ cs1 c cs2 w1,
        cs = cs1 ++ c :: cs2 ∧ run cs1 w = Some w1 ∧
        populates p c = true ∧ built_valid c w1 = true ∧
        Forall (λ c, populates p c = false) cs2)).
Proof.
  assert (Hlast : ∀ cs w w' p,
     run cs w = Some w' → reports_valid w' p →
     (Forall (λ c, populates p c = false) cs ∧ reports_valid w p) ∨
     (∃ cs1 c cs2 w1,
        cs = cs1 ++ c :: cs2 ∧ run cs1 w = Some w1 ∧
        populates p c = true ∧ built_valid c w1 = true ∧
        Forall (λ c, populates p c = false) cs2)).
  { intros cs w w' p Hrun Hvalid.
    apply reports_valid_iff in Hvalid as [Hp Hvalid].
    destruct (run_validity cs w w' p Hrun Hvalid) as [[Hnone Hw] | Hsome].
    - left. split; [done |]. by apply reports_valid_iff.
    - by right. }
  assert (Hfresh : ∀ c cs w w' p,
     c = Call_TextureInfo_Construct p ∨ c = Call_BackendTexture_Construct p →
     run (c :: cs) w = Some w' →
     Forall (λ c, populates p c = false) cs →
     ¬ reports_valid w' p).
  { intros c cs w w' p Hc Hrun Hpop Hvalid.
    apply run_cons in Hrun as (w1 & Hexec & Hrun).
    assert (Hinvalid : ¬ reports_valid w1 p).
    { rewrite reports_valid_iff. intros (_ & x & Hx & Hv).
      destruct Hc as [-> | ->]; invert_exec Hexec;
        rewrite lookup_insert_eq in Hx; by simplify_eq/=. }
    destruct (Hlast cs w1 w' p Hrun Hvalid)
      as [[_ Hw1] | (cs1 & c0 & cs2 & w2 & -> & _ & Hc0 & _)]; [done |].
    apply Forall_app in Hpop as [_ Hpop].
    apply Forall_cons in Hpop as [Hpop _]. congruence. }
  split_and!.
  - intros w ti Hti Hraw. eexists. split; [by apply placement_new_run |].
    split.
    { apply C_TextureInfo_isValid_run with (ti := TextureInfo_default);
        [done | apply lookup_insert_eq]. }
    intros cs w'' Hrun Hpop Hdes.
    apply C_TextureInfo_isValid_run with (ti := TextureInfo_default);
      [done |].
    eapply run_keeps_descriptor; try done.
    + apply lookup_insert_eq.
    + left. by eexists.
  - intros w bt Hbt Hraw. eexists.
    split; [by apply placement_new_run |]. split.
    { apply C_BackendTexture_isValid_run with (bt := BackendTexture_default);
        [done | apply lookup_insert_eq]. }
    intros cs w'' Hrun Hpop Hdes.
    apply C_BackendTexture_isValid_run with (bt := BackendTexture_default);
      [done |].
    eapply run_keeps_descriptor; try done.
    + apply lookup_insert_eq.
    + right. by eexists.
  - intros w self texture old Hself Hold. eexists. split.
    { unfold C_TextureInfo_MakeMetal, TextureInfos_MakeMetal.
      eapply run_bind; [eapply run_bind; done |].
      unfold TextureInfo_assign.
      eapply run_bind; [by apply load_TextureInfo_run | done]. }
    apply C_TextureInfo_isValid_run; [done | apply lookup_insert_eq].
  - intros w self d texture old Hself Hold v Hv Ho.
    destruct (make_assign_run w self old v kMetal)
      as (w' & Hrun & Hmem & _); [done.. |].
    exists w'. split.
    { unfold C_BackendTexture_MakeMetal.
      eapply run_bind; [done | exact Hrun]. }
    apply C_BackendTexture_isValid_run; [done |].
    rewrite Hmem. apply lookup_insert_eq.
  - exact Hfresh.
  - exact Hlast.
Qed.

End Traces.

(** * The bridge at work *)

(** Reads a reference count off an equation between counts in [studio]. *)
Ltac count_at Hcount h :=
  specialize (Hcount h);
  repeat match type of Hcount with
    | context [refcount studio ?x] =>
        let v := eval vm_compute in (refcount studio x) in
        change (refcount studio x) with v in Hcount
    | context [occurrences ?x ?l] =>
        let v := eval vm_compute in (occurrences x l) in
        change (occurrences x l) with v in Hcount
    end;
  lia.

(** The handles in a concrete list are alive in a concrete world. *)
Ltac live_handles :=
  unfold held; simpl;
  repeat (apply Forall_cons; split; [split; [done | vm_compute; lia] |]);
  try apply Forall_nil; try done.

(** C1.  Skia's [Context::submit] answers false on a lost device and true on
    a healthy one; [C_Context_submit] hands the caller the same nothing in
    both cases. *)
Lemma C_Context_submit_drops_the_flag :
  value_of (@Context_submit device_lost 4 SyncToCpu_kYes studio) = Some false ∧
  value_of (@C_Context_submit device_lost 4 SyncToCpu_kYes studio) = Some () ∧
  value_of (@Context_submit healthy 4 SyncToCpu_kYes studio) = Some true ∧
  value_of (@C_Context_submit healthy 4 SyncToCpu_kYes studio) = Some ().
Proof. by vm_compute. Qed.

(** C9, as stated, fails: two snaps on a backend that makes no Recording
    return the same pointer, null, and leave no Recording behind. *)
Lemma snap_twice_on_lost_device_same_pointer :
  ∃ w', @snap_session device_lost 5 [[]; []] studio
        = Ok [nullptr; nullptr] w' ∧
        ¬ NoDup [nullptr; nullptr] ∧
        mem w' !! nullptr = None.
Proof.
  eexists. split; [vm_compute; reflexivity |]. split.
  - intros Hdup. apply NoDup_cons in Hdup as [Hin _]. apply Hin. left.
  - by vm_compute.
Qed.

(** C2 at work: an insertion the lost device refuses still consumes the
    Recording: the Context holds it, the caller can neither destruct it nor
    insert it again, and destructing the Context leaves nothing of it
    behind. *)
Lemma insertRecording_on_lost_device :
  4 ≠ nullptr ∧ 6 ≠ nullptr ∧
  ∃ w',
    @C_Context_insertRecording device_lost 4 6 studio = Ok false w' ∧
    mem w' !! 6 = None ∧
    mem w' !! 4
    = Some (HContext
              {| ctx_backend := kMetal;
                 ctx_queue := [({| rcg_commands := [72];
                                   rcg_owner := Some 4 |}, false)] |}) ∧
    C_Recording_Destruct 6 w' = UB ∧
    @C_Context_insertRecording device_lost 4 6 w' = UB ∧
    ∃ w'', C_Context_Destruct 4 w' = Ok () w'' ∧
           mem w'' = delete 4 (delete 6 (mem studio)).
Proof.
  split; [done |]. split; [done |].
  destruct (@C_Context_insertRecording_consumes device_lost studio 4 6
              {| ctx_backend := kMetal; ctx_queue := [] |}
              {| rcg_commands := [72]; rcg_owner := None |})
    as (w' & Hrun & _ & _ & Hmem & _ & _ & Hgone & Hdel & Hagain & _ & Hctx);
    [done | done | reflexivity | reflexivity |].
  exists w'. split_and!;
    [exact Hrun | exact Hgone | | exact Hdel | apply Hagain | exact Hctx].
  rewrite Hmem. apply lookup_insert_eq.
Defined.

(** C3 at work: a Recorder with backend defaults, and one with options. *)
Lemma makeRecorder_in_studio :
  4 ≠ nullptr ∧ 7 ≠ nullptr ∧
  (∃ p w', @C_Context_makeRecorder healthy 4 nullptr studio = Ok p w' ∧
           p ≠ nullptr) ∧
  (∃ p w', @C_Context_makeRecorder healthy 4 7 studio = Ok p w' ∧
           mem w' !! p = Some (HRecorder
             {| rec_context := 4;
                rec_options := Some RecorderOptions_default;
                rec_commands := [] |})).
Proof.
  split; [done |]. split; [done |].
  destruct (@C_Context_makeRecorder_options healthy studio 4
              {| ctx_backend := kMetal; ctx_queue := [] |})
    as [Hnull Hopts]; [done | reflexivity |].
  split.
  - destruct Hnull as (p & w' & Hrun & _ & [Hiff _] & _).
    exists p, w'. split; [exact Hrun |].
    intros Hp. apply Hiff in Hp. discriminate Hp.
  - destruct (Hopts 7 RecorderOptions_default) as
      (p & w' & Hrun & _ & [Hiff Hnew] & _); [done | reflexivity |].
    exists p, w'. split; [exact Hrun |].
    apply Hnew. intros Hp. apply Hiff in Hp. discriminate Hp.
Defined.

(** C4 at work: construct, ask, populate, ask again; a TextureInfo that
    stays invalid while other descriptors are populated; and the call behind
    a TextureInfo that reports itself valid. *)
Lemma construct_then_populate_in_studio :
  (∃ w', @C_TextureInfo_Construct 1 studio = Ok () w' ∧
         C_TextureInfo_isValid 1 w' = Ok false w' ∧
         ∃ w'', @run healthy [Call_TextureInfo_MakeMetal 8 12;
                              Call_BackendTexture_Destruct 9] w' = Some w'' ∧
                C_TextureInfo_isValid 1 w'' = Ok false w'') ∧
  (∃ w', @C_BackendTexture_Construct 1 studio = Ok () w' ∧
         C_BackendTexture_isValid 1 w' = Ok false w') ∧
  (∃ w', @C_TextureInfo_MakeMetal healthy 8 12 studio = Ok () w' ∧
         C_TextureInfo_isValid 8 w' = Ok true w') ∧
  (∃ w', @C_BackendTexture_MakeMetal healthy 9
           (Some {| fWidth := 2; fHeight := 2 |}) 14 studio = Ok () w' ∧
         C_BackendTexture_isValid 9 w' = Ok true w') ∧
  (∃ w', @run healthy [Call_TextureInfo_Construct 1;
                       Call_TextureInfo_Destruct 1;
                       Call_BackendTexture_Construct 1] studio = Some w' ∧
         ¬ @reports_valid w' 1) ∧
  (∃ w', @run healthy [Call_BackendTexture_info 9 1;
                       Call_TextureInfo_isValid 1] studio = Some w' ∧
         @reports_valid w' 1 ∧
         ∃ cs1 c cs2 w1,
           [Call_BackendTexture_info 9 1; Call_TextureInfo_isValid 1]
           = cs1 ++ c :: cs2 ∧
           @run healthy cs1 studio = Some w1 ∧
           populates 1 c = true ∧ @built_valid healthy c w1 = true).
Proof.
  destruct (@valid_only_after_factory healthy)
    as (Hti & Hbt & Hmake & Hmakebt & Hfresh & Hlast).
  split_and!.
  - destruct (Hti studio 1) as (w' & Hnew & Hask & Hlater);
      [done | reflexivity |].
    exists w'. split; [exact Hnew |]. split; [exact Hask |].
    assert (Hrun : ∃ w'', @run healthy [Call_TextureInfo_MakeMetal 8 12;
                                        Call_BackendTexture_Destruct 9] w'
                          = Some w'').
    { unfold C_TextureInfo_Construct in Hnew. inversion Hnew; subst w'.
      eexists. vm_compute; reflexivity. }
    destruct Hrun as [w'' Hrun]. exists w''. split; [exact Hrun |].
    apply (Hlater _ w'' Hrun).
    + by repeat constructor.
    + intros Hin. repeat (apply elem_of_cons in Hin as [Heq | Hin];
                          [discriminate Heq |]).
      by apply elem_of_nil in Hin.
  - destruct (Hbt studio 1) as (w' & Hnew & Hask & _);
      [done | reflexivity |].
    by exists w'.
  - apply (Hmake studio 8 12 TextureInfo_default); [done | reflexivity].
  - eapply (Hmakebt studio 9 _ 14); [done | reflexivity | |].
    + live_handles.
    + live_handles.
  - assert (Hrun : ∃ w', @run healthy [Call_TextureInfo_Construct 1;
                                       Call_TextureInfo_Destruct 1;
                                       Call_BackendTexture_Construct 1] studio
                         = Some w').
    { eexists. vm_compute; reflexivity. }
    destruct Hrun as [w' Hrun]. exists w'. split; [exact Hrun |].
    apply (Hfresh (Call_TextureInfo_Construct 1)
             [Call_TextureInfo_Destruct 1; Call_BackendTexture_Construct 1]
             studio w' 1); [by left | exact Hrun | by repeat constructor].
  - assert (Hrun : ∃ w', @run healthy [Call_BackendTexture_info 9 1;
                                       Call_TextureInfo_isValid 1] studio
                         = Some w' ∧ @reports_valid w' 1).
    { eexists. split; [vm_compute; reflexivity |]. left. by vm_compute. }
    destruct Hrun as (w' & Hrun & Hvalid).
    exists w'. split; [exact Hrun |]. split; [exact Hvalid |].
    destruct (Hlast _ studio w' 1 Hrun Hvalid)
      as [[Hnone _] | (cs1 & c & cs2 & w1 & Hcs & Hrun1 & Hpop & Hok & _)].
    + apply Forall_cons in Hnone as [Hnone _]. discriminate Hnone.
    + by exists cs1, c, cs2, w1.
Defined.

(** C5, as stated, fails: in a process that is out of memory, the first
    call of [C_GrDirectContext_MakeDawn] ends in [std::bad_alloc], not in a
    returned pointer. *)
Lemma MakeDawn_throws_when_out_of_memory :
  @C_GrDirectContext_MakeDawn out_of_memory None initial = Throw bad_alloc ∧
  ¬ ∃ p w', @C_GrDirectContext_MakeDawn out_of_memory None initial = Ok p w'.
Proof.
  split; [by vm_compute |]. intros (p & w' & Hrun). by vm_compute in Hrun.
Qed.

(** C5 at work: the five factories on a healthy backend, one on a lost
    device, and the Dawn factory out of memory, before and after its device
    exists. *)
Lemma factories_in_studio :
  (∃ p w', @C_Context_MakeMetal healthy 3 2 studio = Ok p w' ∧ p ≠ nullptr) ∧
  (∃ w', @C_Context_MakeMetal device_lost 3 2 studio = Ok nullptr w') ∧
  (∃ p w', @C_Context_MakeVulkan healthy (Some {| vk_instance := 1 |}) 2 studio
           = Ok p w' ∧ p ≠ nullptr) ∧
  (∃ p w', @C_GrDirectContext_MakeDawn healthy None studio = Ok p w' ∧
           p ≠ nullptr) ∧
  (∃ p w', @C_Context_makeRecorder healthy 4 nullptr studio = Ok p w' ∧
           p ≠ nullptr) ∧
  (∃ p w', @C_Recorder_snap healthy 5 studio = Ok p w' ∧ p ≠ nullptr) ∧
  @C_GrDirectContext_MakeDawn out_of_memory None studio = Throw bad_alloc ∧
  (∀ e, @C_Context_MakeMetal out_of_memory nullptr 2 studio ≠ Throw e) ∧
  (∃ p w', @C_GrDirectContext_MakeDawn out_of_memory None
             (with_device 16 (with_mem (<[16 := HWgpuDevice]>) studio))
           = Ok p w' ∧ p ≠ nullptr).
Proof.
  destruct (@factories_return_null_iff_failed healthy studio)
    as (Hmetal & Hvulkan & Hdawn & Hrecorder & Hsnap).
  destruct (@factories_return_null_iff_failed device_lost studio)
    as (Hlost & _).
  destruct (@factories_return_null_iff_failed out_of_memory studio)
    as (Hmetal_oom & _ & Hdawn_oom & _).
  destruct (@factories_return_null_iff_failed out_of_memory
              (with_device 16 (with_mem (<[16 := HWgpuDevice]>) studio)))
    as (_ & _ & Hdawn_set & _).
  split_and!.
  - destruct (Hmetal 3 2) as [_ Hok].
    destruct (Hok {| fDevice := 10; fQueue := 11 |} ContextOptions_default)
      as (p & w' & Hrun & [Hiff _]); [done | done | reflexivity.. |].
    exists p, w'. split; [exact Hrun |].
    intros Hp. apply Hiff in Hp. discriminate Hp.
  - destruct (Hlost 3 2) as [_ Hok].
    destruct (Hok {| fDevice := 10; fQueue := 11 |} ContextOptions_default)
      as (p & w' & Hrun & [Hiff _]); [done | done | reflexivity.. |].
    exists w'. destruct Hiff as [_ Hnull]. by rewrite <- (Hnull eq_refl).
  - destruct (Hvulkan (Some {| vk_instance := 1 |}) 2) as [_ Hok].
    destruct (Hok {| vk_instance := 1 |} ContextOptions_default)
      as (p & w' & Hrun & [Hiff _]); [done | done | reflexivity |].
    exists p, w'. split; [exact Hrun |].
    intros Hp. apply Hiff in Hp. discriminate Hp.
  - destruct (Hdawn None) as [_ Hok].
    destruct Hok as (p & w' & Hrun & [Hiff _]); [by left | by right |].
    exists p, w'. split; [exact Hrun |].
    intros Hp. apply Hiff in Hp. discriminate Hp.
  - destruct (Hrecorder 4 nullptr) as [_ Hok].
    destruct (Hok {| ctx_backend := kMetal; ctx_queue := [] |} None)
      as (p & w' & Hrun & [Hiff _]); [done | reflexivity | reflexivity |].
    exists p, w'. split; [exact Hrun |].
    intros Hp. apply Hiff in Hp. discriminate Hp.
  - destruct (Hsnap 5) as [_ Hok].
    destruct (Hok {| rec_context := 4; rec_options := None;
                     rec_commands := [70; 71] |})
      as (p & w' & Hrun & [Hiff _]); [done | reflexivity |].
    exists p, w'. split; [exact Hrun |].
    intros Hp. apply Hiff in Hp. discriminate Hp.
  - destruct (Hdawn_oom None) as [Hthrow _]. by apply Hthrow.
  - destruct (Hmetal_oom nullptr 2) as [Hno _]. exact Hno.
  - destruct (Hdawn_set None) as [_ Hok].
    destruct Hok as (p & w' & Hrun & [Hiff _]);
      [right; reflexivity | by left |].
    exists p, w'. split; [exact Hrun |].
    intros Hp. apply Hiff in Hp. discriminate Hp.
Defined.


(** C7 at work: the device and the queue go from one reference to two and
    back to one. *)
Lemma MtlBackendContext_balanced_in_studio :
  1 ≠ nullptr ∧ 10 ≠ 0 ∧ 11 ≠ 0 ∧
  ∃ w1 w2,
    @C_MtlBackendContext_Construct 1 10 11 studio = Ok () w1 ∧
    @C_MtlBackendContext_Destruct 1 w1 = Ok () w2 ∧
    refcount w1 10 = 2%nat ∧ refcount w1 11 = 2%nat ∧
    refs w2 = refs studio ∧ mem w2 = mem studio.
Proof.
  split; [done |]. split; [done |]. split; [done |].
  destruct (MtlBackendContext_Construct_Destruct_balanced studio 1 10 11 0 0)
    as (w1 & w2 & Hc & Hd & _ & _ & _ & Hcount & Hrefs & Hmem);
    [done | reflexivity | done | done | reflexivity | reflexivity |].
  exists w1, w2. split_and!; try done; by rewrite Hcount.
Defined.

(** C8 at work: the texture at 9 gives up handle 12 and takes a reference on
    handle 14 when Metal retains it, none when Vulkan borrows it; raw storage
    and descriptors of another type are no target. *)
Lemma Make_in_studio :
  (∃ w', @C_TextureInfo_MakeMetal healthy 8 12 studio = Ok () w' ∧
         mem w' !! 8 = Some (VTextureInfo metal_info)) ∧
  @C_TextureInfo_MakeMetal healthy 1 12 studio = UB ∧
  (∃ w', @C_BackendTexture_MakeMetal healthy 9
           (Some {| fWidth := 2; fHeight := 2 |}) 14 studio = Ok () w' ∧
         refcount w' 12 = O ∧ refcount w' 14 = 3%nat ∧
         dom (mem w') = dom (mem studio)) ∧
  @C_BackendTexture_MakeMetal healthy 1
    (Some {| fWidth := 2; fHeight := 2 |}) 14 studio = UB ∧
  (∃ w', @C_BackendTexture_MakeVulkan healthy 9
           (Some {| fWidth := 2; fHeight := 2 |}) 13 0 0 14
           (Some {| va_memory := 0 |}) studio = Ok () w' ∧
         refcount w' 12 = O ∧ refcount w' 14 = 2%nat) ∧
  @C_BackendTexture_MakeVulkan healthy 8
    (Some {| fWidth := 2; fHeight := 2 |}) 13 0 0 14
    (Some {| va_memory := 0 |}) studio = UB.
Proof.
  destruct (@Make_overwrites_in_place healthy studio 8)
    as (Hti & _ & _ & _ & _ & Hvk_ub).
  destruct (@Make_overwrites_in_place healthy studio 1)
    as (_ & Hti_ub & _ & Hbt_ub & _ & _).
  destruct (@Make_overwrites_in_place healthy studio 9)
    as (_ & _ & Hbt & _ & Hvk & _).
  split_and!.
  - destruct (Hti 12 TextureInfo_default) as (w' & Hrun & Hmem & _);
      [done | reflexivity |].
    exists w'. split; [exact Hrun |]. rewrite Hmem. apply lookup_insert_eq.
  - apply Hti_ub. intros ti. by vm_compute.
  - edestruct (Hbt {| fWidth := 2; fHeight := 2 |} 14)
      as (w' & Hrun & _ & Hdom & _ & Hcount & _);
      [done | reflexivity | live_handles | live_handles |].
    exists w'. split; [exact Hrun |]. split_and!; [| | exact Hdom].
    + count_at Hcount 12.
    + count_at Hcount 14.
  - apply Hbt_ub. intros bt. by vm_compute.
  - edestruct (Hvk {| fWidth := 2; fHeight := 2 |} 13 vulkan_info 0 0 14
                 {| va_memory := 0 |})
      as (w' & Hrun & _ & _ & _ & Hcount & _);
      [done | reflexivity | done | reflexivity | live_handles
      | live_handles |].
    exists w'. split; [exact Hrun |]. split.
    + count_at Hcount 12.
    + count_at Hcount 14.
  - apply Hvk_ub. intros bt. by vm_compute.
Defined.

(** C9 at work: three snaps, three Recordings, each of its own commands. *)
Lemma snap_session_in_studio :
  5 ≠ nullptr ∧
  ∃ ps w',
    @snap_session healthy 5 [[73]; []; [74; 75]] studio = Ok ps w' ∧
    NoDup ps ∧ (nullptr ∉ ps) ∧ length ps = 3%nat ∧
    Forall2 (λ p cmds,
               mem w' !! p = Some (HRecording {| rcg_commands := cmds;
                                                 rcg_owner := None |}))
      ps [[70; 71; 73]; []; [74; 75]].
Proof.
  split; [done |].
  destruct (@snap_session_fresh_recordings healthy [[73]; []; [74; 75]]
              studio 5 {| rec_context := 4; rec_options := None;
                          rec_commands := [70; 71] |})
    as (ps & w' & Hrun & Hall & _ & Hok & _); [done | reflexivity |].
  destruct Hok as (Hdup & Hnn & Hlen); [done |].
  exists ps, w'. split_and!; try done.
  eapply Forall2_impl; [exact Hall |].
  intros p cmds [Hiff Hnew]. apply Hnew.
  intros Hp. apply Hiff in Hp. discriminate Hp.
Defined.

(** C10 at work: the TextureInfo of the texture at 9, copied into 1. *)
Lemma BackendTexture_info_in_studio :
  9 ≠ nullptr ∧ 1 ≠ nullptr ∧
  ∃ w',
    @C_BackendTexture_info 9 1 studio = Ok () w' ∧
    mem w' !! 1 = Some (VTextureInfo metal_info) ∧
    mem w' !! 9 = mem studio !! 9 ∧
    @C_BackendTexture_dimensions 9 studio
    = Ok {| fWidth := 4; fHeight := 4 |} studio.
Proof.
  split; [done |]. split; [done |].
  edestruct (C_BackendTexture_info_copies studio 9 1)
    as (w' & Hrun & Hresult & Hself & _ & _ & _ & _ & Hdim & _);
    [done | done | reflexivity | reflexivity |].
  exists w'. split_and!; try done.
Defined.

(** * More of the bridge *)

(** ** Putting a cell back *)

Lemma world_eq w w' :
  mem w' = mem w → refs w' = refs w → device w' = device w → log w' = log w →
  w' = w.
Proof. destruct w, w'. simpl. by intros -> -> -> ->. Qed.

Lemma restore_cell w p c c0 :
  mem w !! p = Some c0 →
  with_mem (<[p := c0]>) (with_mem (<[p := c]>) w) = w.
Proof.
  intros Hc0. apply world_eq; try done.
  simpl. rewrite insert_insert_eq. by apply insert_id.
Qed.

Lemma free_fresh_cell w p c :
  mem w !! p = None →
  with_mem (delete p) (with_mem (<[p := c]>) w) = w.
Proof.
  intros Hnone. apply world_eq; try done.
  simpl. rewrite delete_insert_eq. by apply delete_id.
Qed.

(** Takes a defined run of a computation apart. *)
Ltac invert_exec_in H :=
  autounfold with bridge in H;
  unfold mbind, M_bind, mret, M_ret in H; simpl in H;
  try (simplify_eq/=);
  repeat (case_match; simplify_eq/=; try done).

Section Lifecycle.
Context `{Backend}.

(** ** Value descriptors: construct, destruct *)

(** X1.  On raw storage, each Construct entry point followed by its Destruct
    gives back exactly the world it started from: no cell, reference count
    or log entry is left behind.  Destruct on storage in which nothing was
    constructed (or was already destructed) is undefined. *)
Theorem Construct_Destruct_restores w p :
  p ≠ nullptr → mem w !! p = Some Raw →
  (∃ w1, C_TextureInfo_Construct p w = Ok () w1 ∧
         C_TextureInfo_Destruct p w1 = Ok () w) ∧
  (∃ w1, C_BackendTexture_Construct p w = Ok () w1 ∧
         C_BackendTexture_Destruct p w1 = Ok () w) ∧
  (∃ w1, C_ContextOptions_Construct p w = Ok () w1 ∧
         C_ContextOptions_Destruct p w1 = Ok () w) ∧
  (∃ w1, C_RecorderOptions_Construct p w = Ok () w1 ∧
         C_RecorderOptions_Destruct p w1 = Ok () w) ∧
  C_TextureInfo_Destruct p w = UB ∧
  C_BackendTexture_Destruct p w = UB ∧
  C_ContextOptions_Destruct p w = UB ∧
  C_RecorderOptions_Destruct p w = UB.
Proof.
  intros Hp Hraw.
  assert (Hload : ∀ c, load p (with_mem (<[p := c]>) w)
                       = Ok c (with_mem (<[p := c]>) w))
    by (intros c; apply load_run; [done | apply lookup_insert_eq]).
  split_and!.
  - eexists. split; [by apply placement_new_run |].
    unfold C_TextureInfo_Destruct, load_TextureInfo.
    eapply run_bind; [eapply run_bind; [apply Hload | done] |].
    unfold store, modify. by rewrite restore_cell.
  - eexists. split; [by apply placement_new_run |].
    unfold C_BackendTexture_Destruct, load_BackendTexture.
    eapply run_bind; [eapply run_bind; [apply Hload | done] |].
    eapply run_bind; [done |].
    unfold store, modify. by rewrite restore_cell.
  - eexists. split; [by apply placement_new_run |].
    unfold C_ContextOptions_Destruct, load_ContextOptions.
    eapply run_bind; [eapply run_bind; [apply Hload | done] |].
    unfold store, modify. by rewrite restore_cell.
  - eexists. split; [by apply placement_new_run |].
    unfold C_RecorderOptions_Destruct, load_RecorderOptions.
    eapply run_bind; [eapply run_bind; [apply Hload | done] |].
    unfold store, modify. by rewrite restore_cell.
  - unfold C_TextureInfo_Destruct, load_TextureInfo.
    apply run_bind_UB. eapply run_bind; [by apply load_run | done].
  - unfold C_BackendTexture_Destruct, load_BackendTexture.
    apply run_bind_UB. eapply run_bind; [by apply load_run | done].
  - unfold C_ContextOptions_Destruct, load_ContextOptions.
    apply run_bind_UB. eapply run_bind; [by apply load_run | done].
  - unfold C_RecorderOptions_Destruct, load_RecorderOptions.
    apply run_bind_UB. eapply run_bind; [by apply load_run | done].
Qed.

(** ** Heap objects: delete *)

Lemma delete_null is_T w : delete_ is_T nullptr w = Ok () w.
Proof. done. Qed.

Lemma delete_live is_T p c w :
  p ≠ nullptr → mem w !! p = Some c → is_T c = true →
  delete_ is_T p w = Ok () (with_mem (delete p) w) ∧
  delete_ is_T p (with_mem (delete p) w) = UB.
Proof.
  intros Hp Hc HT. unfold delete_. rewrite !decide_False by done. split.
  - eapply run_bind; [by apply load_run |]. by rewrite HT.
  - apply run_bind_UB. unfold load. rewrite decide_False by done.
    simpl. by rewrite lookup_delete_eq.
Qed.

Lemma delete_other is_T p w :
  p ≠ nullptr →
  (∀ c, mem w !! p = Some c → is_T c = false) →
  delete_ is_T p w = UB.
Proof.
  intros Hp Hc. unfold delete_, load. rewrite decide_False by done.
  unfold mbind, M_bind. rewrite decide_False by done.
  destruct (mem w !! p) as [c |] eqn:Hcell; simpl; [| done].
  by rewrite (Hc c).
Qed.

(** X2.  [C_Context_Destruct], [C_Recorder_Destruct], [C_Recording_Destruct]
    and [C_VulkanTextureInfo_Destruct] do nothing on a null pointer; on a
    live object of their type they free that cell and change nothing else,
    after which the same pointer must not be destructed again; on a dangling
    pointer or an object of another type they are undefined. *)
Theorem Destruct_deletes :
  deletes is_Context C_Context_Destruct ∧
  deletes is_Recorder C_Recorder_Destruct ∧
  deletes is_Recording C_Recording_Destruct ∧
  deletes is_VulkanTextureInfo C_VulkanTextureInfo_Destruct.
Proof.
  split_and!; intros w; (split; [apply delete_null |]); intros p Hp;
    (split; [intros c Hc HT; by eapply delete_live | by apply delete_other]).
Qed.

(** ** The Vulkan texture descriptor on the heap *)


(** ** Pointers the bridge reads through without a check *)

(** Runs a call that is bound to fail into its failure. *)
Ltac hits_UB :=
  autounfold with bridge; unfold mbind, M_bind, mret, M_ret; simpl;
  repeat (case_match; simplify_eq/=; try done);
  try done.

(** X4.  The context factories dereference both of their arguments, and the
    surface and Vulkan texture entry points their descriptor arguments,
    without a null check: a null pointer there is undefined, whatever the
    other arguments are.  (Only [C_Context_makeRecorder] and
    [C_GrDirectContext_MakeDawn] test their options pointer.) *)
Theorem unchecked_pointer_arguments w :
  (∀ backendContext, C_Context_MakeMetal backendContext nullptr w = UB) ∧
  (∀ options, C_Context_MakeMetal nullptr options w = UB) ∧
  (∀ backendContext, C_Context_MakeVulkan backendContext nullptr w = UB) ∧
  (∀ options, C_Context_MakeVulkan None options w = UB) ∧
  (∀ recorder mipmapped props,
     C_Surface_Make recorder None mipmapped props w = UB) ∧
  (∀ recorder colorType colorSpace surfaceProps,
     C_Surface_MakeGraphiteWrapped recorder nullptr colorType colorSpace
       surfaceProps w = UB) ∧
  (∀ self texture, C_BackendTexture_MakeMetal self None texture w = UB) ∧
  (∀ self info layout queueFamilyIndex image alloc,
     C_BackendTexture_MakeVulkan self None info layout queueFamilyIndex image
       alloc w = UB) ∧
  (∀ self dimensions layout queueFamilyIndex image alloc,
     C_BackendTexture_MakeVulkan self dimensions nullptr layout
       queueFamilyIndex image alloc w = UB) ∧
  (∀ self dimensions info layout queueFamilyIndex image,
     C_BackendTexture_MakeVulkan self dimensions info layout queueFamilyIndex
       image None w = UB).
Proof.
  split_and!; intros; hits_UB.
Qed.

(** X5.  Every entry point that calls a member function or a destructor
    through [self] is undefined on a null [self]; none of them tests it. *)
Theorem null_self_undefined w :
  C_TextureInfo_Destruct nullptr w = UB ∧
  C_BackendTexture_Destruct nullptr w = UB ∧
  C_ContextOptions_Destruct nullptr w = UB ∧
  C_RecorderOptions_Destruct nullptr w = UB ∧
  C_MtlBackendContext_Destruct nullptr w = UB ∧
  C_TextureInfo_isValid nullptr w = UB ∧
  C_BackendTexture_isValid nullptr w = UB ∧
  (∀ result, C_BackendTexture_info nullptr result w = UB) ∧
  C_BackendTexture_dimensions nullptr w = UB ∧
  (∀ options, C_Context_makeRecorder nullptr options w = UB) ∧
  C_Recorder_snap nullptr w = UB ∧
  (∀ recording, C_Context_insertRecording nullptr recording w = UB) ∧
  (∀ syncToCpu, C_Context_submit nullptr syncToCpu w = UB) ∧
  (∀ texture, C_TextureInfo_MakeMetal nullptr texture w = UB) ∧
  (∀ dimensions texture,
     C_BackendTexture_MakeMetal nullptr dimensions texture w = UB) ∧
  (∀ dimensions info layout queueFamilyIndex image alloc,
     C_BackendTexture_MakeVulkan nullptr dimensions info layout
       queueFamilyIndex image alloc w = UB).
Proof.
  split_and!; intros; hits_UB.
Qed.

(** X6.  [C_MtlBackendContext_Construct] passes [device] and [queue] to
    CFRetain as they come: if either is NULL, or names no live platform
    object, the call is undefined. *)
Theorem C_MtlBackendContext_Construct_needs_live_handles w context dev que :
  dev = 0 ∨ refcount w dev = O ∨ que = 0 ∨ refcount w que = O →
  C_MtlBackendContext_Construct context dev que w = UB.
Proof.
  unfold refcount. intros Hdead. hits_UB.
  all: exfalso.
  all: repeat match goal with
    | Hd : decide _ = _ |- _ => clear Hd
    | Hm : context [mem _] |- _ => clear Hm
    end.
  all: rewrite ?lookup_insert in *; repeat case_decide; simplify_eq.
  all: destruct Hdead as [? | [Hd | [? | Hq]]]; simplify_eq; try done.
  all: repeat match goal with
    | Hx : refs _ !! ?k = Some _, Hq : context [refs _ !! ?k] |- _ =>
        rewrite Hx in Hq; simpl in Hq
    end; try done.
Qed.

(** ** The queries *)

(** X7.  The three query entry points are defined exactly on a pointer to a
    constructed object of their type; they return the stored value and
    leave the world as it is. *)
Theorem queries_read_only w self :
  (∀ v w', C_TextureInfo_isValid self w = Ok v w' ↔
           w' = w ∧ self ≠ nullptr ∧
           ∃ ti, mem w !! self = Some (VTextureInfo ti) ∧
                 v = TextureInfo_isValid ti) ∧
  (∀ v w', C_BackendTexture_isValid self w = Ok v w' ↔
           w' = w ∧ self ≠ nullptr ∧
           ∃ bt, mem w !! self = Some (VBackendTexture bt) ∧
                 v = BackendTexture_isValid bt) ∧
  (∀ v w', C_BackendTexture_dimensions self w = Ok v w' ↔
           w' = w ∧ self ≠ nullptr ∧
           ∃ bt, mem w !! self = Some (VBackendTexture bt) ∧
                 v = bt_dimensions bt).
Proof.
  split_and!; intros v w'; split.
  - intros Hrun. invert_exec_in Hrun. eauto 6.
  - intros (-> & Hself & ti & Hti & ->).
    by apply C_TextureInfo_isValid_run.
  - intros Hrun. invert_exec_in Hrun. eauto 6.
  - intros (-> & Hself & bt & Hbt & ->).
    by apply C_BackendTexture_isValid_run.
  - intros Hrun. invert_exec_in Hrun. eauto 6.
  - intros (-> & Hself & bt & Hbt & ->).
    unfold C_BackendTexture_dimensions.
    eapply run_bind; [by apply load_BackendTexture_run | done].
Qed.

End Lifecycle.

(** ** What sequences of calls keep *)

Section Frames.
Context `{Backend}.

Ltac solve_lookup :=
  rewrite ?lookup_insert, ?lookup_delete in *;
  repeat case_decide; simplify_eq; eauto.

(** X8.  Null never names an object: in every world reachable from the
    start of the process no cell lives at address zero, so a null result of
    an entry point cannot be mistaken for an object. *)
Theorem null_is_never_allocated cs w :
  run cs initial = Some w → mem w !! nullptr = None.
Proof.
  assert (Hstep : ∀ c w w', mem w !! nullptr = None → exec c w = Some w' →
                            mem w' !! nullptr = None).
  { intros c w0 w' Hnull Hexec.
    destruct c; invert_exec Hexec; solve_lookup. }
  assert (Hruns : ∀ cs w0 w', mem w0 !! nullptr = None →
                              run cs w0 = Some w' → mem w' !! nullptr = None).
  { clear cs w. induction cs as [| c cs IH]; intros w0 w' Hnull Hrun.
    - by inversion Hrun; subst.
    - apply run_cons in Hrun as (w1 & Hexec & Hrun). eauto. }
  intros Hrun. apply (Hruns cs initial w); [done | exact Hrun].
Qed.

(** One call, seen from a live Context or Recorder. *)
Lemma exec_keeps_Context c w w' p x :
  exec c w = Some w' → mem w !! p = Some (HContext x) →
  (∃ x', mem w' !! p = Some (HContext x') ∧ ctx_backend x' = ctx_backend x) ∨
  c = Call_Context_Destruct p.
Proof.
  intros Hexec Hp.
  destruct c; invert_exec Hexec; solve_lookup.
Qed.

Lemma exec_keeps_Recorder c w w' p r :
  exec c w = Some w' → mem w !! p = Some (HRecorder r) →
  (∃ r', mem w' !! p = Some (HRecorder r') ∧
         rec_context r' = rec_context r ∧ rec_options r' = rec_options r) ∨
  c = Call_Recorder_Destruct p.
Proof.
  intros Hexec Hp.
  destruct c; invert_exec Hexec; solve_lookup.
Qed.

(** X9.  A Context or a Recorder lives until its own Destruct: over any
    sequence of calls that does not destruct it, a live Context is still a
    live Context of the same backend, and a live Recorder is still a live
    Recorder bound to the same Context with the same options. *)
Theorem lives_until_Destruct cs w w' p :
  run cs w = Some w' →
  (∀ x, mem w !! p = Some (HContext x) → Call_Context_Destruct p ∉ cs →
        ∃ x', mem w' !! p = Some (HContext x') ∧
              ctx_backend x' = ctx_backend x) ∧
  (∀ r, mem w !! p = Some (HRecorder r) → Call_Recorder_Destruct p ∉ cs →
        ∃ r', mem w' !! p = Some (HRecorder r') ∧
              rec_context r' = rec_context r ∧
              rec_options r' = rec_options r).
Proof.
  revert w. induction cs as [| c cs IH]; intros w Hrun.
  - inversion Hrun; subst.
    split; [intros x Hp _; by exists x | intros r Hp _; by exists r].
  - apply run_cons in Hrun as (w1 & Hexec & Hrun).
    destruct (IH w1 Hrun) as [IHc IHr]. split.
    + intros x Hp Hnot.
      destruct (exec_keeps_Context c w w1 p x Hexec Hp)
        as [(x1 & Hp1 & Hb1) | ->]; [| by destruct Hnot; left].
      destruct (IHc x1 Hp1) as (x' & Hp' & Hb').
      { intros Hin. apply Hnot. by right. }
      exists x'. split; [done | congruence].
    + intros r Hp Hnot.
      destruct (exec_keeps_Recorder c w w1 p r Hexec Hp)
        as [(r1 & Hp1 & Hc1 & Ho1) | ->]; [| by destruct Hnot; left].
      destruct (IHr r1 Hp1) as (r' & Hp' & Hc' & Ho').
      { intros Hin. apply Hnot. by right. }
      exists r'. split_and!; [done | congruence | congruence].
Qed.


End Frames.

Section RoundTrips.
Context `{Backend}.

(** ** Creating, then destroying *)

Lemma release_then_delete (o : option Cell) is_T w :
  (∀ c, o = Some c → is_T c = true) →
  ∃ p w1, release o w = Ok p w1 ∧ delete_ is_T p w1 = Ok () w ∧
          (p = nullptr ↔ o = None).
Proof.
  intros HT. destruct o as [c |].
  - destruct (fresh_addr_spec w) as [Hnull Hfresh].
    exists (fresh_addr w). eexists. split; [apply release_Some |].
    split; [| done].
    unfold delete_. rewrite decide_False by done.
    eapply run_bind; [apply load_run; [done | apply lookup_insert_eq] |].
    rewrite (HT c eq_refl). unfold free, modify.
    by rewrite free_fresh_cell.
  - exists nullptr, w. by split_and!.
Qed.

(** X11.  What a factory returns can always be handed to the matching
    Destruct, null included: a Context from [C_Context_MakeMetal] or
    [C_Context_MakeVulkan] to [C_Context_Destruct], a Recorder from
    [C_Context_makeRecorder] to [C_Recorder_Destruct], a Recording from
    [C_Recorder_snap] to [C_Recording_Destruct].  The pair leaves memory and
    the reference counts as they were; after snap, the Recorder has been
    reset. *)
Theorem factory_then_Destruct w :
  (∀ backendContext options bc o,
     backendContext ≠ nullptr → options ≠ nullptr →
     mem w !! backendContext = Some (VMtlBackendContext bc) →
     mem w !! options = Some (VContextOptions o) →
     ∃ p w1 w2,
       C_Context_MakeMetal backendContext options w = Ok p w1 ∧
       C_Context_Destruct p w1 = Ok () w2 ∧
       mem w2 = mem w ∧ refs w2 = refs w) ∧
  (∀ bc options o,
     options ≠ nullptr → mem w !! options = Some (VContextOptions o) →
     ∃ p w1 w2,
       C_Context_MakeVulkan (Some bc) options w = Ok p w1 ∧
       C_Context_Destruct p w1 = Ok () w2 ∧
       mem w2 = mem w ∧ refs w2 = refs w) ∧
  (∀ self c options o,
     self ≠ nullptr → mem w !! self = Some (HContext c) →
     options_arg w options o →
     ∃ p w1 w2,
       C_Context_makeRecorder self options w = Ok p w1 ∧
       C_Recorder_Destruct p w1 = Ok () w2 ∧
       mem w2 = mem w ∧ refs w2 = refs w) ∧
  (∀ self r,
     self ≠ nullptr → mem w !! self = Some (HRecorder r) →
     ∃ p w1 w2,
       C_Recorder_snap self w = Ok p w1 ∧
       C_Recording_Destruct p w1 = Ok () w2 ∧
       mem w2 = <[self := HRecorder (recorder_with r [])]> (mem w) ∧
       refs w2 = refs w).
Proof.
  split_and!.
  - intros backendContext options bc o Hb Ho Hbc Hopt.
    destruct (release_then_delete
                (if MakeMetal_ok bc o
                 then Some (HContext {| ctx_backend := kMetal;
                                        ctx_queue := [] |})
                 else None) is_Context
                (with_log (EvMakeMetal (MakeMetal_ok bc o)) w))
      as (p & w1 & Hrel & Hdel & _).
    { intros c Hc. by destruct (MakeMetal_ok bc o); simplify_eq. }
    exists p, w1. eexists. split_and!; [| exact Hdel | done | done].
    unfold C_Context_MakeMetal.
    eapply run_bind; [by apply load_MtlBackendContext_run |].
    eapply run_bind; [by apply ContextOptions_load_run |].
    eapply run_bind; [| exact Hrel]. done.
  - intros bc options o Ho Hopt.
    destruct (release_then_delete
                (if MakeVulkan_ok bc o
                 then Some (HContext {| ctx_backend := kVulkan;
                                        ctx_queue := [] |})
                 else None) is_Context
                (with_log (EvMakeVulkan (MakeVulkan_ok bc o)) w))
      as (p & w1 & Hrel & Hdel & _).
    { intros c Hc. by destruct (MakeVulkan_ok bc o); simplify_eq. }
    exists p, w1. eexists. split_and!; [| exact Hdel | done | done].
    unfold C_Context_MakeVulkan.
    eapply run_bind; [done |].
    eapply run_bind; [by apply ContextOptions_load_run |].
    eapply run_bind; [| exact Hrel]. done.
  - intros self c options o Hself Hc Ho.
    destruct (release_then_delete
                (if makeRecorder_ok c o
                 then Some (HRecorder {| rec_context := self;
                                         rec_options := o;
                                         rec_commands := [] |})
                 else None) is_Recorder
                (with_log (EvMakeRecorder self o (makeRecorder_ok c o)) w))
      as (p & w1 & Hrel & Hdel & _).
    { intros x Hx. by destruct (makeRecorder_ok c o); simplify_eq. }
    exists p, w1. eexists. split_and!; [| exact Hdel | done | done].
    unfold C_Context_makeRecorder. destruct o as [ro |]; simpl in Ho.
    + destruct Ho as [Hne Hro]. rewrite decide_True by done.
      eapply run_bind.
      { unfold load_RecorderOptions.
        eapply run_bind; [by apply load_run | done]. }
      eapply run_bind; [by apply Context_makeRecorder_run | exact Hrel].
    + subst options. rewrite decide_False by (by intros []).
      eapply run_bind; [by apply Context_makeRecorder_run | exact Hrel].
  - intros self r Hself Hr.
    destruct (release_then_delete
                (if snap_ok r
                 then Some (HRecording {| rcg_commands := rec_commands r;
                                          rcg_owner := None |})
                 else None) is_Recording
                (with_mem (<[self := HRecorder (recorder_with r [])]>)
                   (with_log (EvSnap self (snap_ok r)) w)))
      as (p & w1 & Hrel & Hdel & _).
    { intros x Hx. by destruct (snap_ok r); simplify_eq. }
    exists p, w1. eexists. split_and!; [| exact Hdel | done | done].
    unfold C_Recorder_snap, Recorder_snap.
    eapply run_bind; [| exact Hrel].
    eapply run_bind; [by apply load_Recorder_run |].
    eapply run_bind; [done |].
    eapply run_bind; done.
Qed.

(** ** Surfaces *)

(** X12.  [C_Surface_Make] on a live Recorder and a non-null image info is
    defined whether or not surface properties are passed; it returns null
    exactly when Skia made no render target, and otherwise a pointer to a
    new surface bound to that Recorder.  It leaves every existing cell, the
    Recorder included, as it was. *)
Theorem C_Surface_Make_result w recorder r info mipmapped props :
  recorder ≠ nullptr → mem w !! recorder = Some (HRecorder r) →
  ∃ p w',
    C_Surface_Make recorder (Some info) mipmapped props w = Ok p w' ∧
    factory_result (RenderTarget_ok r info mipmapped)
      (HSurface {| sf_recorder := recorder; sf_wrapped := None |}) w p w' ∧
    (∀ q, is_Some (mem w !! q) → mem w' !! q = mem w !! q).
Proof.
  intros Hrec Hr.
  destruct (release_run (RenderTarget_ok r info mipmapped)
              (HSurface {| sf_recorder := recorder; sf_wrapped := None |}) w)
    as (p & Hrel & Hnull & Hfresh).
  exists p. eexists. split.
  { unfold C_Surface_Make, SkSurfaces_RenderTarget.
    eapply run_bind; [done |].
    eapply run_bind; [| exact Hrel].
    eapply run_bind; [by apply load_Recorder_run | done]. }
  unfold factory_result.
  destruct (RenderTarget_ok r info mipmapped); simpl_world.
  - assert (Hp : p ≠ nullptr) by (intros Hp; by apply Hnull in Hp).
    specialize (Hfresh Hp). split_and!; try done.
    + intros _. split; [done | apply lookup_insert_eq].
    + intros q [c Hc]. rewrite lookup_insert_ne; [done | congruence].
  - split_and!; try done. intros Hp. destruct Hp. by apply Hnull.
Qed.

Lemma sk_ref_sp_run w colorSpace o :
  colorspace_arg w colorSpace o →
  sk_ref_sp colorSpace w
  = Ok colorSpace
       (match o with
        | Some n => with_mem (<[colorSpace := HColorSpace (Pos.succ n)]>) w
        | None => w
        end).
Proof.
  unfold sk_ref_sp. destruct o as [n |]; simpl.
  - intros [Hcs Hcell]. rewrite decide_False by done.
    eapply run_bind; [| done]. unfold SkRefCnt_ref, load_ColorSpace.
    eapply run_bind; [| done].
    eapply run_bind; [by apply load_run | done].
  - intros ->. by rewrite decide_True.
Qed.

Lemma SkSafeUnref_run w colorSpace n :
  colorSpace ≠ nullptr →
  mem w !! colorSpace = Some (HColorSpace (Pos.succ n)) →
  SkSafeUnref colorSpace w
  = Ok () (with_mem (<[colorSpace := HColorSpace n]>) w).
Proof.
  intros Hcs Hcell. unfold SkSafeUnref, SkRefCnt_unref, load_ColorSpace.
  rewrite decide_False by done.
  eapply run_bind; [eapply run_bind; [by apply load_run | done] |].
  rewrite decide_False by apply Pos.succ_not_1.
  by rewrite Pos.pred_succ.
Qed.

(** X13.  [C_Surface_MakeGraphiteWrapped] reads the BackendTexture through
    a const pointer and takes a reference on the color space.  On a live
    Recorder, a constructed BackendTexture and a color space pointer that is
    null or points at a live color space, it is defined whatever surface
    properties pointer it is given; it returns null exactly when Skia made
    no surface, and otherwise a pointer to a new surface naming the texture's
    native handle.  The BackendTexture and every other existing cell are as
    they were, but for the color space: when a surface was made it holds one
    more reference on it, and when none was made the reference taken has
    been given back.  A color space pointer that is not null and points at
    no color space is undefined. *)
Theorem C_Surface_MakeGraphiteWrapped_reads_texture w recorder r
    backendTexture bt colorType colorSpace surfaceProps :
  recorder ≠ nullptr → mem w !! recorder = Some (HRecorder r) →
  backendTexture ≠ nullptr →
  mem w !! backendTexture = Some (VBackendTexture bt) →
  let made :=
    BackendTexture_isValid bt && WrapBackendTexture_ok r bt colorType in
  (∀ o,
     colorspace_arg w colorSpace o →
     ∃ p w',
       C_Surface_MakeGraphiteWrapped recorder backendTexture colorType
         colorSpace surfaceProps w = Ok p w' ∧
       factory_result made
         (HSurface {| sf_recorder := recorder;
                      sf_wrapped := Some (bt_handle bt) |}) w p w' ∧
       mem w' !! backendTexture = Some (VBackendTexture bt) ∧
       (∀ q, is_Some (mem w !! q) → (is_Some o → q ≠ colorSpace) →
             mem w' !! q = mem w !! q) ∧
       (∀ n, o = Some n →
             mem w' !! colorSpace
             = Some (HColorSpace (if made then Pos.succ n else n)))) ∧
  (colorSpace ≠ nullptr →
   (∀ n, mem w !! colorSpace ≠ Some (HColorSpace n)) →
   C_Surface_MakeGraphiteWrapped recorder backendTexture colorType
     colorSpace surfaceProps w = UB).
Proof.
  intros Hrec Hr Hbt Hcell made. split.
  - intros o Ho.
    set (w1 := match o with
               | Some n =>
                   with_mem (<[colorSpace := HColorSpace (Pos.succ n)]>) w
               | None => w
               end).
    assert (Hw1 : ∀ q, (is_Some o → q ≠ colorSpace) →
                       mem w1 !! q = mem w !! q).
    { intros q Hq. subst w1. destruct o as [n |]; [| done].
      simpl. rewrite lookup_insert_ne; [done |].
      intros ->. by apply Hq. }
    assert (Hdiff : ∀ q c, mem w !! q = Some c →
                           (∀ n, c ≠ HColorSpace n) →
                           is_Some o → q ≠ colorSpace).
    { intros q c Hq Hc [n ->] ->. destruct Ho as [_ Ho]. naive_solver. }
    assert (Hr1 : mem w1 !! recorder = Some (HRecorder r)).
    { rewrite Hw1; [done |]. by eapply Hdiff. }
    set (w2 := if made then w1
               else match o with
                    | Some n => with_mem (<[colorSpace := HColorSpace n]>) w1
                    | None => w1
                    end).
    destruct (release_run made
                (HSurface {| sf_recorder := recorder;
                             sf_wrapped := Some (bt_handle bt) |}) w2)
      as (p & Hrel & Hnull & Hfresh).
    exists p. eexists. split.
    { unfold C_Surface_MakeGraphiteWrapped, SkSurfaces_WrapBackendTexture.
      eapply run_bind; [by apply load_BackendTexture_run |].
      eapply run_bind; [by apply sk_ref_sp_run |]. fold w1.
      eapply run_bind; [| exact Hrel].
      eapply run_bind; [by apply load_Recorder_run |].
      fold made. subst w2. destruct made; [done |].
      destruct o as [n |]; simpl in Ho.
      - destruct Ho as [Hcs Ho].
        eapply run_bind; [| done].
        apply SkSafeUnref_run; [done |]. subst w1. apply lookup_insert_eq.
      - subst colorSpace. done. }
    assert (Hw2 : ∀ q, (is_Some o → q ≠ colorSpace) →
                       mem w2 !! q = mem w !! q).
    { intros q Hq. subst w2. destruct made; [by apply Hw1 |].
      destruct o as [n |]; [| by apply Hw1].
      simpl. rewrite lookup_insert_ne; [by apply Hw1 |].
      intros ->. by apply Hq. }
    assert (Hcs2 : ∀ n, o = Some n →
              mem w2 !! colorSpace
              = Some (HColorSpace (if made then Pos.succ n else n))).
    { intros n ->. subst w2 w1. destruct made; apply lookup_insert_eq. }
    assert (Hdom : ∀ q, mem w2 !! q = None → mem w !! q = None).
    { intros q Hq. destruct o as [n |].
      - destruct (decide (q = colorSpace)) as [-> | Hne].
        + by rewrite (Hcs2 n eq_refl) in Hq.
        + rewrite <- Hw2; [done | by intros _].
      - rewrite <- Hw2; [done |]. by intros [? ?]. }
    unfold factory_result. destruct made; simpl_world.
    + assert (Hp : p ≠ nullptr) by (intros Hp; by apply Hnull in Hp).
      specialize (Hfresh Hp).
      assert (Hpw : mem w !! p = None) by by apply Hdom.
      split_and!; try done.
      * intros _. split; [done | apply lookup_insert_eq].
      * rewrite lookup_insert_ne by congruence.
        rewrite Hw2; [done |]. by eapply Hdiff.
      * intros q [c Hc] Hq. rewrite lookup_insert_ne by congruence.
        by apply Hw2.
      * intros n Hn. rewrite lookup_insert_ne; [by apply Hcs2 |].
        intros ->. rewrite (Hcs2 n Hn) in Hfresh. done.
    + split_and!; try done.
      * intros Hp. destruct Hp. by apply Hnull.
      * rewrite Hw2; [done |]. by eapply Hdiff.
      * intros q _ Hq. by apply Hw2.
  - intros Hcs Hnot.
    unfold C_Surface_MakeGraphiteWrapped.
    eapply run_bind; [by apply load_BackendTexture_run |].
    apply run_bind_UB. unfold sk_ref_sp. rewrite decide_False by done.
    apply run_bind_UB. unfold SkRefCnt_ref. apply run_bind_UB.
    unfold load_ColorSpace, load. unfold mbind, M_bind.
    rewrite decide_False by done.
    destruct (mem w !! colorSpace) as [[] |] eqn:Hc; try done.
    by destruct (Hnot refcnt).
Qed.

(** ** A BackendTexture from construction to destruction *)

(** X14.  The whole life of a Metal BackendTexture is balanced: Construct
    on raw storage, [C_BackendTexture_MakeMetal] over a live native texture,
    then Destruct, leave the storage raw again and every platform reference
    count where it started. *)
Theorem BackendTexture_life_balanced w p d texture :
  p ≠ nullptr → mem w !! p = Some Raw →
  Forall (live w) (held (BackendTextures_MakeMetal_value d texture)) →
  ∃ w1 w2 w3,
    C_BackendTexture_Construct p w = Ok () w1 ∧
    C_BackendTexture_MakeMetal p (Some d) texture w1 = Ok () w2 ∧
    C_BackendTexture_isValid p w2
    = Ok (BackendTexture_isValid (BackendTextures_MakeMetal_value d texture))
         w2 ∧
    C_BackendTexture_Destruct p w2 = Ok () w3 ∧
    mem w3 = mem w ∧
    (∀ h, refcount w3 h = refcount w h).
Proof.
  intros Hp Hraw Hlive.
  set (v := BackendTextures_MakeMetal_value d texture) in *.
  set (w1 := with_mem (<[p := VBackendTexture BackendTexture_default]>) w).
  destruct (make_assign_run w1 p BackendTexture_default v kMetal)
    as (w2 & Hmake & Hmem2 & _ & _ & Hrc2 & _);
    [done | apply lookup_insert_eq | done | by constructor |].
  assert (Hcell2 : mem w2 !! p = Some (VBackendTexture v))
    by (rewrite Hmem2; apply lookup_insert_eq).
  destruct (BackendTexture_drop_run w2 v)
    as (w3 & Hdrop & Hmem3 & _ & _ & Hrc3).
  { eapply Forall_impl; [exact Hlive |]. intros h [Hh Hpos].
    split; [done |]. specialize (Hrc2 h).
    change (refcount w1 h) with (refcount w h) in Hrc2.
    rewrite occurrences_nil in Hrc2. lia. }
  exists w1, w2. eexists. split_and!.
  - by apply placement_new_run.
  - unfold C_BackendTexture_MakeMetal.
    eapply run_bind; [done | exact Hmake].
  - by apply C_BackendTexture_isValid_run.
  - unfold C_BackendTexture_Destruct.
    eapply run_bind; [by apply load_BackendTexture_run |].
    eapply run_bind; [exact Hdrop | done].
  - simpl. rewrite Hmem3, Hmem2. simpl.
    rewrite !insert_insert_eq. by apply insert_id.
  - intros h. specialize (Hrc2 h). specialize (Hrc3 h).
    change (refcount w1 h) with (refcount w h) in Hrc2.
    rewrite occurrences_nil in Hrc2.
    change (refcount _ h) with (refcount w3 h) at 1. lia.
Qed.

(** ** The copy that [C_BackendTexture_info] makes *)

(** X15.  The TextureInfo that [C_BackendTexture_info] constructs is a copy
    of its own: it reports the validity the BackendTexture reports,
    overwriting it leaves the BackendTexture as it was, and destructing it
    gives back the world from before the call. *)
Theorem C_BackendTexture_info_independent w self result bt :
  self ≠ nullptr → result ≠ nullptr →
  mem w !! self = Some (VBackendTexture bt) →
  mem w !! result = Some Raw →
  ∃ w1,
    C_BackendTexture_info self result w = Ok () w1 ∧
    C_TextureInfo_isValid result w1 = Ok (BackendTexture_isValid bt) w1 ∧
    C_BackendTexture_isValid self w1 = Ok (BackendTexture_isValid bt) w1 ∧
    C_TextureInfo_Destruct result w1 = Ok () w ∧
    (∀ texture, ∃ w2,
       C_TextureInfo_MakeMetal result texture w1 = Ok () w2 ∧
       mem w2 !! self = Some (VBackendTexture bt) ∧
       C_TextureInfo_isValid result w2
       = Ok (TextureInfo_isValid (TextureInfos_MakeMetal_value texture)) w2).
Proof.
  intros Hself Hresult Hbt Hraw.
  assert (Hne : self ≠ result) by congruence.
  set (w1 := with_mem (<[result := VTextureInfo (bt_info bt)]>) w).
  assert (Hres1 : mem w1 !! result = Some (VTextureInfo (bt_info bt)))
    by apply lookup_insert_eq.
  assert (Hself1 : mem w1 !! self = Some (VBackendTexture bt))
    by (simpl; by rewrite lookup_insert_ne).
  exists w1. split_and!.
  - unfold C_BackendTexture_info.
    eapply run_bind; [by apply load_BackendTexture_run |].
    by apply placement_new_run.
  - by apply C_TextureInfo_isValid_run.
  - by apply C_BackendTexture_isValid_run.
  - unfold C_TextureInfo_Destruct.
    eapply run_bind; [by apply load_TextureInfo_run |].
    unfold store, modify. subst w1. by rewrite restore_cell.
  - intros texture. eexists. split_and!.
    + unfold C_TextureInfo_MakeMetal, TextureInfos_MakeMetal.
      eapply run_bind; [eapply run_bind; done |].
      unfold TextureInfo_assign.
      eapply run_bind; [by apply load_TextureInfo_run | done].
    + simpl. by rewrite !lookup_insert_ne.
    + apply C_TextureInfo_isValid_run; [done | apply lookup_insert_eq].
Qed.

(** ** Overwriting twice *)

Lemma occurrences_held_le bt h : (occurrences h (held bt) ≤ 1)%nat.
Proof.
  unfold held. destruct (bt_retained bt).
  - rewrite occurrences_singleton. case_decide; lia.
  - rewrite occurrences_nil. lia.
Qed.

Lemma occurrences_held_in bt h :
  h ∈ held bt → occurrences h (held bt) = 1%nat.
Proof.
  unfold held. destruct (bt_retained bt).
  - intros ->%list_elem_of_singleton. rewrite occurrences_singleton.
    by rewrite decide_True.
  - by intros ?%not_elem_of_nil.
Qed.

(** X16.  Calling [C_BackendTexture_MakeMetal] twice on the same target
    leaks nothing: the reference the first call took is given back by the
    second, and the texture, the memory and every reference count end up as
    after the second call alone. *)
Theorem C_BackendTexture_MakeMetal_twice w self old d1 t1 d2 t2 :
  let v1 := BackendTextures_MakeMetal_value d1 t1 in
  let v2 := BackendTextures_MakeMetal_value d2 t2 in
  self ≠ nullptr → mem w !! self = Some (VBackendTexture old) →
  Forall (live w) (held old) → Forall (live w) (held v1) →
  Forall (live w) (held v2) →
  (∀ h, h ∈ held v2 → h ∈ held old → (2 ≤ refcount w h)%nat) →
  ∃ w1 w2,
    C_BackendTexture_MakeMetal self (Some d1) t1 w = Ok () w1 ∧
    C_BackendTexture_MakeMetal self (Some d2) t2 w1 = Ok () w2 ∧
    mem w2 = <[self := VBackendTexture v2]> (mem w) ∧
    (∀ h, (refcount w2 h + occurrences h (held old)
           = refcount w h + occurrences h (held v2))%nat).
Proof.
  intros v1 v2 Hself Hold Ho Hv1 Hv2 Hshared.
  destruct (make_assign_run w self old v1 kMetal)
    as (w1 & Hrun1 & Hmem1 & _ & _ & Hrc1 & _); [done.. |].
  assert (Hcell1 : mem w1 !! self = Some (VBackendTexture v1))
    by (rewrite Hmem1; apply lookup_insert_eq).
  destruct (make_assign_run w1 self v1 v2 kMetal)
    as (w2 & Hrun2 & Hmem2 & _ & _ & Hrc2 & _); [done | done | | |].
  { apply list.Forall_forall. intros h Hh.
    pose proof (proj1 (list.Forall_forall _ _) Hv2 h Hh) as [Hnz Hpos].
    split; [done |]. specialize (Hrc1 h).
    pose proof (occurrences_held_le old h).
    destruct (decide (h ∈ held old)) as [Hin | Hout].
    - specialize (Hshared h Hh Hin). lia.
    - assert (occurrences h (held old) = O).
      { unfold held in *. destruct (bt_retained old).
        - rewrite occurrences_singleton. case_decide; [| done].
          destruct Hout. subst. by left.
        - apply occurrences_nil. }
      lia. }
  { apply list.Forall_forall. intros h Hh.
    pose proof (proj1 (list.Forall_forall _ _) Hv1 h Hh) as [Hnz Hpos].
    split; [done |]. specialize (Hrc1 h).
    pose proof (occurrences_held_le old h).
    rewrite (occurrences_held_in v1 h Hh) in Hrc1. lia. }
  exists w1, w2. split_and!.
  - unfold C_BackendTexture_MakeMetal.
    eapply run_bind; [done | exact Hrun1].
  - unfold C_BackendTexture_MakeMetal.
    eapply run_bind; [done | exact Hrun2].
  - rewrite Hmem2, Hmem1. apply insert_insert_eq.
  - intros h. specialize (Hrc1 h). specialize (Hrc2 h). lia.
Qed.

(** ** Two descriptors over the same platform objects *)

Lemma C_MtlBackendContext_Construct_counts w context dev que :
  context ≠ nullptr → mem w !! context = Some Raw →
  live w dev → live w que →
  ∃ w1,
    C_MtlBackendContext_Construct context dev que w = Ok () w1 ∧
    mem w1 = <[context := VMtlBackendContext
                 {| fDevice := dev; fQueue := que |}]> (mem w) ∧
    (∀ h, refcount w1 h
          = (refcount w h + (if decide (h = dev) then 1 else 0)
             + (if decide (h = que) then 1 else 0))%nat).
Proof.
  intros Hc Hraw [Hd Hdl] [Hq Hql]. unfold refcount in Hdl, Hql.
  destruct (refs w !! dev) as [[| n] |] eqn:Hrd; simpl in Hdl; try lia.
  destruct (refs w !! que) as [[| m] |] eqn:Hrq; simpl in Hql; try lia.
  destruct (C_MtlBackendContext_Construct_run w context dev que n m)
    as (w1 & Hrun & Hmem & Hrefs & _); [done.. |].
  exists w1. split_and!; try done.
  intros h. unfold refcount. rewrite Hrefs, !lookup_insert.
  repeat case_decide; simplify_eq; rewrite ?Hrd, ?Hrq; simpl; lia.
Qed.

Lemma C_MtlBackendContext_Destruct_counts w context dev que :
  context ≠ nullptr →
  mem w !! context
    = Some (VMtlBackendContext {| fDevice := dev; fQueue := que |}) →
  live w dev → live w que → (dev = que → 2 ≤ refcount w dev)%nat →
  ∃ w1,
    C_MtlBackendContext_Destruct context w = Ok () w1 ∧
    mem w1 = <[context := Raw]> (mem w) ∧
    (∀ h, (refcount w1 h + (if decide (h = dev) then 1 else 0)
           + (if decide (h = que) then 1 else 0))%nat = refcount w h).
Proof.
  intros Hc Hcell [Hd Hdl] [Hq Hql] Hsame. unfold refcount in *.
  destruct (refs w !! que) as [[| m] |] eqn:Hrq; simpl in Hql; try lia.
  destruct (refs w !! dev) as [[| n] |] eqn:Hrd; simpl in Hdl; try lia.
  set (n' := if decide (dev = que) then Nat.pred n else n).
  eexists. split.
  { unfold C_MtlBackendContext_Destruct, MtlBackendContext_destroy.
    eapply run_bind; [by apply load_MtlBackendContext_run |].
    eapply run_bind; [by apply (SkCFSafeRelease_run que m) |].
    eapply run_bind; [| done].
    apply (SkCFSafeRelease_run dev n'); [done |].
    simpl. rewrite lookup_insert. subst n'.
    repeat case_decide; simplify_eq; try done.
    all: specialize (Hsame eq_refl); simpl in Hsame; f_equal; lia. }
  simpl_world. split; [done |].
  intros h. rewrite !lookup_insert. subst n'.
  repeat case_decide; simplify_eq; rewrite ?Hrd, ?Hrq; simpl; try lia.
  all: specialize (Hsame eq_refl); simpl in Hsame; lia.
Qed.

(** X17.  Descriptors hold their references independently: two
    MtlBackendContexts constructed over the same device and queue can be
    destructed in either order, and once both are gone every platform
    reference count is back where it started. *)
Theorem two_MtlBackendContexts_balanced w c1 c2 dev que :
  c1 ≠ nullptr → c2 ≠ nullptr → c1 ≠ c2 →
  mem w !! c1 = Some Raw → mem w !! c2 = Some Raw →
  live w dev → live w que →
  ∃ w1 w2,
    C_MtlBackendContext_Construct c1 dev que w = Ok () w1 ∧
    C_MtlBackendContext_Construct c2 dev que w1 = Ok () w2 ∧
    (∀ h, refcount w2 h
          = (refcount w h + (if decide (h = dev) then 2 else 0)
             + (if decide (h = que) then 2 else 0))%nat) ∧
    (∃ w3 w4,
       C_MtlBackendContext_Destruct c1 w2 = Ok () w3 ∧
       C_MtlBackendContext_Destruct c2 w3 = Ok () w4 ∧
       mem w4 = mem w ∧ ∀ h, refcount w4 h = refcount w h) ∧
    (∃ w3 w4,
       C_MtlBackendContext_Destruct c2 w2 = Ok () w3 ∧
       C_MtlBackendContext_Destruct c1 w3 = Ok () w4 ∧
       mem w4 = mem w ∧ ∀ h, refcount w4 h = refcount w h).
Proof.
  intros Hc1 Hc2 Hne Hraw1 Hraw2 Hdev Hque.
  destruct (C_MtlBackendContext_Construct_counts w c1 dev que)
    as (w1 & Hrun1 & Hmem1 & Hrc1); [done.. |].
  assert (Hlive1 : ∀ h, live w h → live w1 h).
  { intros h [Hh Hpos]. split; [done |]. rewrite Hrc1. lia. }
  destruct (C_MtlBackendContext_Construct_counts w1 c2 dev que)
    as (w2 & Hrun2 & Hmem2 & Hrc2); [done | | by apply Hlive1.. |].
  { rewrite Hmem1. by rewrite lookup_insert_ne. }
  assert (Hcount2 : ∀ h, refcount w2 h
            = (refcount w h + (if decide (h = dev) then 2 else 0)
               + (if decide (h = que) then 2 else 0))%nat).
  { intros h. rewrite Hrc2, Hrc1. repeat case_decide; lia. }
  assert (Hlive2 : ∀ h, live w h → live w2 h).
  { intros h [Hh Hpos]. split; [done |]. rewrite Hcount2. lia. }
  assert (Hcell1 : mem w2 !! c1 = Some (VMtlBackendContext
                     {| fDevice := dev; fQueue := que |})).
  { rewrite Hmem2, Hmem1. rewrite lookup_insert_ne by done.
    apply lookup_insert_eq. }
  assert (Hcell2 : mem w2 !! c2 = Some (VMtlBackendContext
                     {| fDevice := dev; fQueue := que |})).
  { rewrite Hmem2. apply lookup_insert_eq. }
  assert (Hmem : ∀ a b, a ≠ b → mem w !! a = Some Raw → mem w !! b = Some Raw →
            ∀ x y, <[b := Raw]> (<[a := Raw]> (<[b := y]> (<[a := x]> (mem w))))
                   = mem w).
  { intros a b Hab Ha Hb x y. apply map_eq. intros q.
    rewrite !lookup_insert. repeat case_decide; simplify_eq; done. }
  assert (Hboth : ∀ a b, a ≠ nullptr → b ≠ nullptr → a ≠ b →
            mem w2 !! a = Some (VMtlBackendContext
                                  {| fDevice := dev; fQueue := que |}) →
            mem w2 !! b = Some (VMtlBackendContext
                                  {| fDevice := dev; fQueue := que |}) →
            ∃ w3 w4,
              C_MtlBackendContext_Destruct a w2 = Ok () w3 ∧
              C_MtlBackendContext_Destruct b w3 = Ok () w4 ∧
              mem w4 = <[b := Raw]> (<[a := Raw]> (mem w2)) ∧
              ∀ h, refcount w4 h = refcount w h).
  { intros a b Ha Hb Hab Hcella Hcellb.
    destruct (C_MtlBackendContext_Destruct_counts w2 a dev que)
      as (w3 & Hrun3 & Hmem3 & Hrc3); [done | done | by apply Hlive2.. | |].
    { intros ->. rewrite Hcount2. rewrite !decide_True by done.
      destruct Hdev. lia. }
    assert (Hcount3 : ∀ h, refcount w3 h
              = (refcount w h + (if decide (h = dev) then 1 else 0)
                 + (if decide (h = que) then 1 else 0))%nat).
    { intros h. specialize (Hrc3 h). rewrite Hcount2 in Hrc3.
      repeat case_decide; lia. }
    destruct (C_MtlBackendContext_Destruct_counts w3 b dev que)
      as (w4 & Hrun4 & Hmem4 & Hrc4); [done | | | | |].
    { rewrite Hmem3. by rewrite lookup_insert_ne. }
    { destruct Hdev. split; [done |]. rewrite Hcount3. lia. }
    { destruct Hque. split; [done |]. rewrite Hcount3. lia. }
    { intros ->. rewrite Hcount3. rewrite !decide_True by done.
      destruct Hdev. lia. }
    exists w3, w4. split_and!; try done.
    - by rewrite Hmem4, Hmem3.
    - intros h. specialize (Hrc4 h). rewrite Hcount3 in Hrc4.
      repeat case_decide; lia. }
  exists w1, w2. split_and!; try done.
  - destruct (Hboth c1 c2) as (w3 & w4 & H3 & H4 & Hm & Hr); [done.. |].
    exists w3, w4. split_and!; try done.
    rewrite Hm, Hmem2, Hmem1. apply map_eq. intros q.
    rewrite !lookup_insert. repeat case_decide; simplify_eq; done.
  - destruct (Hboth c2 c1) as (w3 & w4 & H3 & H4 & Hm & Hr); [done.. |].
    exists w3, w4. split_and!; try done.
    rewrite Hm, Hmem2, Hmem1. apply map_eq. intros q.
    rewrite !lookup_insert. repeat case_decide; simplify_eq; done.
Qed.

End RoundTrips.

(** * The further properties at work *)

(** X1 at work: the raw cell of [studio]. *)
Lemma Construct_Destruct_in_studio :
  1 ≠ nullptr ∧ mem studio !! 1 = Some Raw ∧
  (∃ w1, C_BackendTexture_Construct 1 studio = Ok () w1 ∧
         C_BackendTexture_Destruct 1 w1 = Ok () studio) ∧
  C_RecorderOptions_Destruct 1 studio = UB.
Proof.
  split; [done |]. split; [reflexivity |].
  destruct (Construct_Destruct_restores studio 1)
    as (_ & Hbt & _ & _ & _ & _ & _ & Hro); [done | reflexivity |].
  by split.
Defined.

(** X2 at work: the Context of [studio] is deleted once; the Recorder is not
    a Context. *)
Lemma Destruct_in_studio :
  C_Context_Destruct nullptr studio = Ok () studio ∧
  C_Context_Destruct 4 studio = Ok () (with_mem (delete 4) studio) ∧
  C_Context_Destruct 4 (with_mem (delete 4) studio) = UB ∧
  C_Context_Destruct 5 studio = UB ∧
  C_Recording_Destruct 6 studio = Ok () (with_mem (delete 6) studio).
Proof.
  destruct Destruct_deletes as (Hcontext & _ & Hrecording & _).
  destruct (Hcontext studio) as [Hnull Hlive].
  destruct (Hlive 4) as [Hfour _]; [done |].
  destruct (Hfour (HContext {| ctx_backend := kMetal; ctx_queue := [] |}))
    as [Hdel Hagain]; [reflexivity | reflexivity |].
  destruct (Hlive 5) as [_ Hfive]; [done |].
  destruct (Hrecording studio) as [_ Hlive6].
  destruct (Hlive6 6) as [Hsix _]; [done |].
  destruct (Hsix (HRecording {| rcg_commands := [72]; rcg_owner := None |}))
    as [Hdel6 _]; [reflexivity | reflexivity |].
  split_and!; [exact Hnull | exact Hdel | exact Hagain | | exact Hdel6].
  apply Hfive. intros c Hc. vm_compute in Hc. by simplify_eq.
Defined.


(** X6 at work: a NULL device, and a queue that was never created. *)
Lemma MtlBackendContext_Construct_dead_handles :
  C_MtlBackendContext_Construct 1 0 11 studio = UB ∧
  C_MtlBackendContext_Construct 1 10 99 studio = UB.
Proof.
  split.
  - apply C_MtlBackendContext_Construct_needs_live_handles. by left.
  - apply C_MtlBackendContext_Construct_needs_live_handles.
    right. right. right. reflexivity.
Defined.

(** X7 at work: the queries on the descriptors of [studio]. *)
Lemma queries_in_studio :
  C_TextureInfo_isValid 8 studio = Ok false studio ∧
  C_BackendTexture_isValid 9 studio = Ok true studio ∧
  C_BackendTexture_dimensions 9 studio
  = Ok {| fWidth := 4; fHeight := 4 |} studio ∧
  C_BackendTexture_isValid 8 studio ≠ Ok true studio.
Proof.
  destruct (queries_read_only studio 8) as (Hti & Hnot & _).
  destruct (queries_read_only studio 9) as (_ & Hbt & Hdim).
  split_and!.
  - apply Hti. split; [done |]. split; [done |].
    exists TextureInfo_default. by split.
  - apply Hbt. split; [done |]. split; [done |]. eexists. by split.
  - apply Hdim. split; [done |]. split; [done |]. eexists. by split.
  - intros Hrun. apply Hnot in Hrun as (_ & _ & bt & Hcell & _).
    vm_compute in Hcell. discriminate Hcell.
Defined.

(** X8 at work: after a failed factory call null is still no object. *)
Lemma null_after_failed_factories :
  ∃ w, @run device_lost
         [Env_Alloca 1; Call_ContextOptions_Construct 1;
          Call_Context_MakeVulkan (Some {| vk_instance := 1 |}) 1;
          Call_GrDirectContext_MakeDawn None] initial = Some w ∧
       mem w !! nullptr = None.
Proof.
  eexists. split; [vm_compute; reflexivity |].
  apply (@null_is_never_allocated device_lost
           [Env_Alloca 1; Call_ContextOptions_Construct 1;
            Call_Context_MakeVulkan (Some {| vk_instance := 1 |}) 1;
            Call_GrDirectContext_MakeDawn None]).
  vm_compute; reflexivity.
Defined.

(** X9 at work: the Context and the Recorder of [studio] outlive a session
    that destructs neither. *)
Lemma studio_objects_outlive_a_session :
  ∃ w', @run healthy
          [Env_RecordCommand 5 73; Call_Recorder_snap 5;
           Call_Context_insertRecording 4 6;
           Call_Context_submit 4 SyncToCpu_kYes] studio = Some w' ∧
        (∃ x', mem w' !! 4 = Some (HContext x') ∧ ctx_backend x' = kMetal) ∧
        (∃ r', mem w' !! 5 = Some (HRecorder r') ∧ rec_context r' = 4 ∧
               rec_options r' = None).
Proof.
  assert (Hrun : ∃ w', @run healthy
                   [Env_RecordCommand 5 73; Call_Recorder_snap 5;
                    Call_Context_insertRecording 4 6;
                    Call_Context_submit 4 SyncToCpu_kYes] studio = Some w').
  { eexists. vm_compute; reflexivity. }
  destruct Hrun as [w' Hrun]. exists w'. split; [exact Hrun |].
  split.
  - destruct (@lives_until_Destruct healthy _ studio w' 4 Hrun) as [Hctx _].
    apply (Hctx {| ctx_backend := kMetal; ctx_queue := [] |});
      [reflexivity |].
    intros Hin. repeat (apply elem_of_cons in Hin as [Heq | Hin];
                        [discriminate Heq |]).
    by apply elem_of_nil in Hin.
  - destruct (@lives_until_Destruct healthy _ studio w' 5 Hrun) as [_ Hrec].
    apply (Hrec {| rec_context := 4; rec_options := None;
                   rec_commands := [70; 71] |}); [reflexivity |].
    intros Hin. repeat (apply elem_of_cons in Hin as [Heq | Hin];
                        [discriminate Heq |]).
    by apply elem_of_nil in Hin.
Defined.


(** X11 at work: make and destruct, on a healthy backend and on a lost
    device. *)
Lemma factory_then_Destruct_in_studio :
  (∃ p w1 w2, @C_Context_MakeMetal healthy 3 2 studio = Ok p w1 ∧
              C_Context_Destruct p w1 = Ok () w2 ∧ mem w2 = mem studio) ∧
  (∃ p w1 w2, @C_Context_makeRecorder device_lost 4 7 studio = Ok p w1 ∧
              C_Recorder_Destruct p w1 = Ok () w2 ∧ mem w2 = mem studio) ∧
  (∃ p w1 w2, @C_Recorder_snap healthy 5 studio = Ok p w1 ∧
              C_Recording_Destruct p w1 = Ok () w2 ∧
              refs w2 = refs studio).
Proof.
  destruct (@factory_then_Destruct healthy studio)
    as (Hmetal & _ & _ & Hsnap).
  destruct (@factory_then_Destruct device_lost studio)
    as (_ & _ & Hrecorder & _).
  split_and!.
  - destruct (Hmetal 3 2 {| fDevice := 10; fQueue := 11 |}
                ContextOptions_default)
      as (p & w1 & w2 & Hmake & Hdel & Hmem & _);
      [done | done | reflexivity | reflexivity |].
    by exists p, w1, w2.
  - destruct (Hrecorder 4 {| ctx_backend := kMetal; ctx_queue := [] |} 7
                (Some RecorderOptions_default))
      as (p & w1 & w2 & Hmake & Hdel & Hmem & _);
      [done | reflexivity | by split |].
    by exists p, w1, w2.
  - destruct (Hsnap 5 {| rec_context := 4; rec_options := None;
                         rec_commands := [70; 71] |})
      as (p & w1 & w2 & Hmake & Hdel & _ & Hrefs); [done | reflexivity |].
    by exists p, w1, w2.
Defined.

(** X12 at work: a render target for the Recorder of [studio], without
    surface properties. *)
Lemma Surface_Make_in_studio :
  5 ≠ nullptr ∧
  ∃ p w', @C_Surface_Make healthy 5
            (Some {| ii_dimensions := {| fWidth := 8; fHeight := 8 |};
                     ii_colorType := 4 |})
            Mipmapped_kNo None studio = Ok p w' ∧
          p ≠ nullptr ∧
          mem w' !! p = Some (HSurface {| sf_recorder := 5;
                                          sf_wrapped := None |}) ∧
          mem w' !! 5 = mem studio !! 5.
Proof.
  split; [done |].
  destruct (@C_Surface_Make_result healthy studio 5
              {| rec_context := 4; rec_options := None;
                 rec_commands := [70; 71] |}
              {| ii_dimensions := {| fWidth := 8; fHeight := 8 |};
                 ii_colorType := 4 |} Mipmapped_kNo None)
    as (p & w' & Hrun & [Hiff Hnew] & Hkeep); [done | reflexivity |].
  assert (Hp : p ≠ nullptr).
  { intros Hp. apply Hiff in Hp. discriminate Hp. }
  exists p, w'. split_and!; [exact Hrun | exact Hp | by apply Hnew |].
  apply Hkeep. by eexists.
Defined.

(** X13 at work: wrapping the BackendTexture of [gallery] with its color
    space on a healthy backend and on a lost device, with no color space,
    and with a pointer that is no color space. *)
Lemma Surface_MakeGraphiteWrapped_in_studio :
  5 ≠ nullptr ∧ 9 ≠ nullptr ∧
  (∃ p w', @C_Surface_MakeGraphiteWrapped healthy 5 9 4 15 None gallery
           = Ok p w' ∧ p ≠ nullptr ∧
           mem w' !! 9 = mem gallery !! 9 ∧
           mem w' !! 15 = Some (HColorSpace 2)) ∧
  (∃ w', @C_Surface_MakeGraphiteWrapped device_lost 5 9 4 15 None gallery
         = Ok nullptr w' ∧
         mem w' !! 15 = Some (HColorSpace 1)) ∧
  (∃ p w', @C_Surface_MakeGraphiteWrapped healthy 5 9 4 nullptr None gallery
           = Ok p w' ∧ mem w' !! 15 = Some (HColorSpace 1)) ∧
  @C_Surface_MakeGraphiteWrapped healthy 5 9 4 9 None gallery = UB.
Proof.
  split; [done |]. split; [done |].
  pose (bt := {| bt_dimensions := {| fWidth := 4; fHeight := 4 |};
                 bt_info := metal_info; bt_handle := 12;
                 bt_retained := true |}).
  pose (r := {| rec_context := 4; rec_options := None;
                rec_commands := [70; 71] |}).
  split_and!.
  - destruct (@C_Surface_MakeGraphiteWrapped_reads_texture healthy gallery 5
                r 9 bt 4 15 None) as [Hok _];
      [done | reflexivity | done | reflexivity |].
    destruct (Hok (Some 1%positive))
      as (p & w' & Hrun & [Hiff _] & Hbt & _ & Hcount);
      [by split |].
    exists p, w'. split_and!; [exact Hrun | | exact Hbt |].
    + intros Hp. apply Hiff in Hp. discriminate Hp.
    + rewrite (Hcount 1%positive eq_refl). reflexivity.
  - destruct (@C_Surface_MakeGraphiteWrapped_reads_texture device_lost
                gallery 5 r 9 bt 4 15 None) as [Hok _];
      [done | reflexivity | done | reflexivity |].
    destruct (Hok (Some 1%positive))
      as (p & w' & Hrun & [Hiff _] & _ & _ & Hcount);
      [by split |].
    exists w'. destruct Hiff as [_ Hnull].
    rewrite <- (Hnull eq_refl). split; [exact Hrun |].
    rewrite (Hcount 1%positive eq_refl). reflexivity.
  - destruct (@C_Surface_MakeGraphiteWrapped_reads_texture healthy gallery 5
                r 9 bt 4 nullptr None) as [Hok _];
      [done | reflexivity | done | reflexivity |].
    destruct (Hok None) as (p & w' & Hrun & _ & _ & Hkeep & _);
      [reflexivity |].
    exists p, w'. split; [exact Hrun |].
    rewrite Hkeep; [done | by eexists | by intros [? ?]].
  - destruct (@C_Surface_MakeGraphiteWrapped_reads_texture healthy gallery 5
                r 9 bt 4 9 None) as [_ Hub];
      [done | reflexivity | done | reflexivity |].
    apply Hub; [done |]. intros n Hn. vm_compute in Hn. discriminate Hn.
Defined.

(** X14 at work: a BackendTexture over the native texture 14, from raw
    storage back to raw storage. *)
Lemma BackendTexture_life_in_studio :
  1 ≠ nullptr ∧
  ∃ w1 w2 w3,
    @C_BackendTexture_Construct 1 studio = Ok () w1 ∧
    @C_BackendTexture_MakeMetal healthy 1
      (Some {| fWidth := 2; fHeight := 2 |}) 14 w1 = Ok () w2 ∧
    C_BackendTexture_isValid 1 w2 = Ok true w2 ∧
    C_BackendTexture_Destruct 1 w2 = Ok () w3 ∧
    mem w3 = mem studio ∧ refcount w3 14 = 2%nat.
Proof.
  split; [done |].
  destruct (@BackendTexture_life_balanced healthy studio 1
              {| fWidth := 2; fHeight := 2 |} 14)
    as (w1 & w2 & w3 & Hnew & Hmake & Hvalid & Hdel & Hmem & Hcount);
    [done | reflexivity | live_handles |].
  exists w1, w2, w3. split_and!; try done; rewrite Hcount; reflexivity.
Defined.

(** X15 at work: the TextureInfo copied out of the BackendTexture of
    [studio]. *)
Lemma BackendTexture_info_copy_in_studio :
  9 ≠ nullptr ∧ 1 ≠ nullptr ∧
  ∃ w1, @C_BackendTexture_info 9 1 studio = Ok () w1 ∧
        C_TextureInfo_isValid 1 w1 = Ok true w1 ∧
        C_TextureInfo_Destruct 1 w1 = Ok () studio ∧
        ∃ w2, @C_TextureInfo_MakeMetal device_lost 1 12 w1 = Ok () w2 ∧
              C_TextureInfo_isValid 1 w2 = Ok false w2 ∧
              mem w2 !! 9 = mem studio !! 9.
Proof.
  split; [done |]. split; [done |].
  destruct (@C_BackendTexture_info_independent device_lost studio 9 1
              {| bt_dimensions := {| fWidth := 4; fHeight := 4 |};
                 bt_info := metal_info; bt_handle := 12;
                 bt_retained := true |})
    as (w1 & Hinfo & Hvalid & _ & Hdel & Hover);
    [done | done | reflexivity | reflexivity |].
  exists w1. split_and!; [exact Hinfo | exact Hvalid | exact Hdel |].
  destruct (Hover 12) as (w2 & Hmake & Hself & Hvalid2).
  exists w2. split_and!; [exact Hmake | exact Hvalid2 | exact Hself].
Defined.

(** X16 at work: two textures in a row into the BackendTexture of
    [studio]; the first one, 14, ends with the count it started with. *)
Lemma BackendTexture_MakeMetal_twice_in_studio :
  9 ≠ nullptr ∧
  ∃ w1 w2,
    @C_BackendTexture_MakeMetal healthy 9
      (Some {| fWidth := 2; fHeight := 2 |}) 14 studio = Ok () w1 ∧
    @C_BackendTexture_MakeMetal healthy 9
      (Some {| fWidth := 8; fHeight := 8 |}) 10 w1 = Ok () w2 ∧
    refcount w2 14 = 2%nat ∧ refcount w2 10 = 2%nat ∧
    refcount w2 12 = 0%nat.
Proof.
  split; [done |].
  destruct (@C_BackendTexture_MakeMetal_twice healthy studio 9
              {| bt_dimensions := {| fWidth := 4; fHeight := 4 |};
                 bt_info := metal_info; bt_handle := 12;
                 bt_retained := true |}
              {| fWidth := 2; fHeight := 2 |} 14
              {| fWidth := 8; fHeight := 8 |} 10)
    as (w1 & w2 & Hfirst & Hsecond & _ & Hcount);
    [done | reflexivity | live_handles | live_handles | live_handles | |].
  - intros h Hnew Hold. vm_compute in Hnew, Hold.
    apply list_elem_of_singleton in Hnew, Hold. by simplify_eq.
  - exists w1, w2. split_and!; [exact Hfirst | exact Hsecond | | |].
    + count_at Hcount 14.
    + count_at Hcount 10.
    + count_at Hcount 12.
Defined.

(** X17 at work: two descriptors over the device and the queue of
    [studio]. *)
Lemma two_MtlBackendContexts_in_studio :
  let w := with_mem (insert 20 Raw) studio in
  ∃ w1 w2 w3 w4,
    C_MtlBackendContext_Construct 1 10 11 w = Ok () w1 ∧
    C_MtlBackendContext_Construct 20 10 11 w1 = Ok () w2 ∧
    refcount w2 10 = 3%nat ∧
    C_MtlBackendContext_Destruct 20 w2 = Ok () w3 ∧
    C_MtlBackendContext_Destruct 1 w3 = Ok () w4 ∧
    refcount w4 10 = 1%nat ∧ refcount w4 11 = 1%nat.
Proof.
  intros w.
  destruct (two_MtlBackendContexts_balanced w 1 20 10 11)
    as (w1 & w2 & Hfirst & Hsecond & Hcount & _ &
        (w3 & w4 & Hdel2 & Hdel1 & _ & Hback));
    [done | done | done | reflexivity | reflexivity
    | split; [done | vm_compute; lia] | split; [done | vm_compute; lia] |].
  exists w1, w2, w3, w4.
  split_and!; try done; rewrite ?Hcount, ?Hback; reflexivity.
Defined.

